(** * SelfCC, CIFAR-10 clustering module

    A shallow embedding of [cifar10/clustering_module_cifar10.py]: the
    residual backbone [ResNet], the selector [get_resnet_cifar], the
    normalising [encoder] and the fuzzy membership head
    [clustering_model].

    Conventions of the embedding.
    - Python integers are [Z]; Python strings are [string].
    - A raised exception is the [Err] branch of [result].
    - A tensor is its shape together with its entries, read by a
      multi-index.  It stands for a float32 tensor on the CPU, where torch
      creates tensors and modules and where this module leaves them.
    - The entries are extended reals with the special values of IEEE-754
      (both infinities and not-a-number) and the range of float32: a
      result beyond the largest finite float32 is an infinity.  Rounding
      is not represented: within the range results are exact, a result
      too small for float32 is not replaced by zero, and zero has no
      sign.  The numeric statements are therefore made where this is
      immaterial.
    - Modules are in training mode, as their constructors leave them.
    - Library operations (torch, torch.nn, torchvision) follow their
      documented behaviour; the convolution stack of the backbone is
      followed on shapes, its numeric content being a parameter. *)

From Stdlib Require Import ZArith String Ascii Bool Lia Reals Lra.
From Stdlib Require Import DecimalString List.
Import ListNotations.
Local Open Scope Z_scope.

(** ** Exceptions and results *)

Inductive runtime_error : Type :=
| BroadcastError (size_a size_b : Z)  (* sizes that do not match at a non-singleton dimension *)
| TransposeRank                        (* t() on a tensor of more than 2 dimensions *)
| NegativeDimension (d : Z)            (* a tensor created with a negative size *)
| ExpandError                          (* expand to an incompatible size *)
| InputRank                            (* a layer applied to an input of the wrong rank *)
| ChannelMismatch (expected got : Z)   (* a layer applied to the wrong number of channels *)
| KernelTooLarge                       (* kernel larger than the padded input *)
| EmptyPoolInput                       (* adaptive pooling over an empty non-batch dimension *)
| AllocationTooLarge.                  (* a tensor whose byte count does not fit in 63 bits *)

Inductive exn : Type :=
| ValueError (msg : string)
| KeyError (msg : string)
| NotImplementedError (msg : string)
| IndexError (msg : string)
| ZeroDivisionError
| TypeError
| DeviceError (name : string)  (* what torch raises for a device it cannot
                                  provide or that is not the one of the other
                                  operands; its class depends on the machine *)
| RuntimeError (why : runtime_error).

Inductive result (A : Type) : Type :=
| Ok (a : A)
| Err (e : exn).
Arguments Ok {A} a.
Arguments Err {A} e.

Definition rbind {A B : Type} (m : result A) (f : A -> result B) : result B :=
  match m with
  | Ok a => f a
  | Err e => Err e
  end.

Declare Scope result_scope.
Delimit Scope result_scope with result.
Notation "x <- m ;; k" := (rbind m (fun x => k))
  (at level 61, m at next level, right associativity) : result_scope.
Local Open Scope result_scope.

Definition is_ok {A : Type} (r : result A) : bool :=
  match r with Ok _ => true | Err _ => false end.

(** ** Scalars: extended reals *)

Module Scalar.

Local Open Scope R_scope.

Inductive xreal : Type :=
| Fin (r : R)
| PInf
| NInf
| NaN.

Definition is_nan (x : xreal) : Prop :=
  match x with NaN => True | _ => False end.

Definition is_finite (x : xreal) : Prop :=
  match x with Fin _ => True | _ => False end.

Definition xopp (x : xreal) : xreal :=
  match x with
  | Fin r => Fin (- r)
  | PInf => NInf
  | NInf => PInf
  | NaN => NaN
  end.

(** The largest finite float32, (2 - 2^-23) * 2^127. *)
Definition fmax : R := 340282346638528859811704183484516925440.

(** A real result as a float32: beyond the largest finite float32 it is
    an infinity. *)
Definition fin (r : R) : xreal :=
  if Rlt_dec fmax r then PInf
  else if Rlt_dec r (- fmax) then NInf
  else Fin r.

Definition xadd (x y : xreal) : xreal :=
  match x, y with
  | NaN, _ | _, NaN => NaN
  | Fin a, Fin b => fin (a + b)
  | PInf, NInf | NInf, PInf => NaN
  | PInf, _ | _, PInf => PInf
  | NInf, _ | _, NInf => NInf
  end.

Definition xsub (x y : xreal) : xreal := xadd x (xopp y).

(** The infinity of the sign of [r]; zero is taken as positive. *)
Definition inf_of_sign (r : R) : xreal :=
  if Rlt_dec r 0 then NInf else PInf.

Definition xmul (x y : xreal) : xreal :=
  match x, y with
  | NaN, _ | _, NaN => NaN
  | Fin a, Fin b => fin (a * b)
  | Fin a, PInf | PInf, Fin a =>
      if Req_dec_T a 0 then NaN else inf_of_sign a
  | Fin a, NInf | NInf, Fin a =>
      if Req_dec_T a 0 then NaN else xopp (inf_of_sign a)
  | PInf, PInf | NInf, NInf => PInf
  | PInf, NInf | NInf, PInf => NInf
  end.

Definition xdiv (x y : xreal) : xreal :=
  match x, y with
  | NaN, _ | _, NaN => NaN
  | Fin a, Fin b =>
      if Req_dec_T b 0
      then (if Req_dec_T a 0 then NaN else inf_of_sign a)
      else fin (a / b)
  | Fin _, PInf | Fin _, NInf => Fin 0
  | PInf, Fin b => inf_of_sign b
  | NInf, Fin b => xopp (inf_of_sign b)
  | PInf, PInf | PInf, NInf | NInf, PInf | NInf, NInf => NaN
  end.

Definition xsquare (x : xreal) : xreal := xmul x x.

Definition xsqrt (x : xreal) : xreal :=
  match x with
  | Fin r => if Rlt_dec r 0 then NaN else Fin (sqrt r)
  | PInf => PInf
  | NInf => NaN
  | NaN => NaN
  end.

(** [clamp_min]: the larger of [x] and the bound; not-a-number is kept. *)
Definition xclamp_min (lo : R) (x : xreal) : xreal :=
  match x with
  | Fin r => Fin (Rmax r lo)
  | PInf => PInf
  | NInf => Fin lo
  | NaN => NaN
  end.

Definition is_integer (y : R) : bool :=
  if Req_dec_T (IZR (Int_part y)) y then true else false.

Definition is_odd_integer (y : R) : bool :=
  is_integer y && Z.odd (Int_part y).

(** [x ** y] for a finite exponent, after the C library's [pow]. *)
Definition xpow (x : xreal) (y : R) : xreal :=
  if Req_dec_T y 0 then Fin 1
  else match x with
       | NaN => NaN
       | PInf => if Rlt_dec y 0 then Fin 0 else PInf
       | NInf =>
           if Rlt_dec y 0 then Fin 0
           else if is_odd_integer y then NInf else PInf
       | Fin r =>
           if Rlt_dec 0 r then fin (Rpower r y)
           else if Req_dec_T r 0
                then (if Rlt_dec y 0 then PInf else Fin 0)
                else if is_integer y
                     then fin ((if Z.odd (Int_part y) then -1 else 1) * Rpower (- r) y)
                     else NaN
       end.

(** Sum of [f 0], ..., [f (n-1)], accumulated from the left. *)
Fixpoint sum_upto (n : nat) (f : Z -> xreal) : xreal :=
  match n with
  | O => Fin 0
  | S m => xadd (sum_upto m f) (f (Z.of_nat m))
  end.

End Scalar.
Import Scalar.

(** ** Tensors *)

Module Torch.

Record tensor : Type := mkTensor {
  shape : list Z;
  entry : list Z -> xreal
}.

(** Python's wrapping of a possibly negative dimension index into
    [0, n); [None] when it lies outside [-n, n). *)
Definition wrap_dim (dim n : Z) : option nat :=
  if (dim <? - n) || (n <=? dim) then None
  else Some (Z.to_nat (if dim <? 0 then dim + n else dim)).

Fixpoint insert_nth {A : Type} (n : nat) (x : A) (l : list A) : list A :=
  match n, l with
  | O, _ => x :: l
  | S m, [] => [x]
  | S m, y :: l' => y :: insert_nth m x l'
  end.

Fixpoint remove_nth {A : Type} (n : nat) (l : list A) : list A :=
  match n, l with
  | _, [] => []
  | O, _ :: l' => l'
  | S m, y :: l' => y :: remove_nth m l'
  end.

Definition shape_eqb (a b : list Z) : bool :=
  if list_eq_dec Z.eq_dec a b then true else false.

(** Broadcasting of two shapes, both given last dimension first. *)
Fixpoint broadcast_rev (a b : list Z) : result (list Z) :=
  match a, b with
  | [], _ => Ok b
  | _, [] => Ok a
  | x :: a', y :: b' =>
      if x =? y then (r <- broadcast_rev a' b' ;; Ok (x :: r))
      else if x =? 1 then (r <- broadcast_rev a' b' ;; Ok (y :: r))
      else if y =? 1 then (r <- broadcast_rev a' b' ;; Ok (x :: r))
      else Err (RuntimeError (BroadcastError x y))
  end.

Definition broadcast_shapes (a b : list Z) : result (list Z) :=
  r <- broadcast_rev (rev a) (rev b) ;; Ok (rev r).

(** The index of an operand of shape [s] that feeds position [idx] of a
    broadcast result: the trailing [length s] components of [idx], with 0
    wherever the operand has size 1. *)
Fixpoint squash_index (s idx : list Z) : list Z :=
  match s, idx with
  | d :: s', i :: idx' => (if d =? 1 then 0 else i) :: squash_index s' idx'
  | _, _ => []
  end.

Definition operand_index (s idx : list Z) : list Z :=
  squash_index s (skipn (length idx - length s) idx).

Definition pointwise (f : xreal -> xreal) (t : tensor) : tensor :=
  {| shape := shape t; entry := fun idx => f (entry t idx) |}.

Definition binary (f : xreal -> xreal -> xreal) (a b : tensor) : result tensor :=
  s <- broadcast_shapes (shape a) (shape b) ;;
  Ok {| shape := s;
        entry := fun idx => f (entry a (operand_index (shape a) idx))
                              (entry b (operand_index (shape b) idx)) |}.

Definition sub : tensor -> tensor -> result tensor := binary xsub.
Definition mul : tensor -> tensor -> result tensor := binary xmul.
Definition div : tensor -> tensor -> result tensor := binary xdiv.

Definition square : tensor -> tensor := pointwise xsquare.
Definition sqrt : tensor -> tensor := pointwise xsqrt.
Definition pow (t : tensor) (exponent : R) : tensor :=
  pointwise (fun x => xpow x exponent) t.
Definition clamp_min (t : tensor) (lo : R) : tensor :=
  pointwise (xclamp_min lo) t.

(** [torch.unsqueeze(t, dim)]: a dimension of size 1 inserted at [dim]. *)
Definition unsqueeze (t : tensor) (dim : Z) : result tensor :=
  match wrap_dim dim (Z.of_nat (length (shape t)) + 1) with
  | None => Err (IndexError "Dimension out of range")
  | Some d =>
      Ok {| shape := insert_nth d 1 (shape t);
            entry := fun idx => entry t (remove_nth d idx) |}
  end.

(** [torch.sum(t, dim)], the reduced dimension being dropped
    ([keepdim] false) or kept with size 1. *)
Definition sum_dim (keepdim : bool) (t : tensor) (dim : Z) : result tensor :=
  match shape t with
  | [] =>
      if (dim <? -1) || (1 <=? dim) then Err (IndexError "Dimension out of range")
      else Ok t
  | _ =>
      match wrap_dim dim (Z.of_nat (length (shape t))) with
      | None => Err (IndexError "Dimension out of range")
      | Some d =>
          let n := Z.to_nat (nth d (shape t) 0) in
          if keepdim
          then Ok {| shape := insert_nth d 1 (remove_nth d (shape t));
                     entry := fun idx =>
                       sum_upto n (fun k => entry t (insert_nth d k (remove_nth d idx))) |}
          else Ok {| shape := remove_nth d (shape t);
                     entry := fun idx =>
                       sum_upto n (fun k => entry t (insert_nth d k idx)) |}
      end
  end.

Definition sum : tensor -> Z -> result tensor := sum_dim false.

(** [Tensor.t()]: transposition of a matrix; tensors of rank below 2 are
    returned as they are. *)
Definition t (x : tensor) : result tensor :=
  match shape x with
  | [] | [_] => Ok x
  | [r; c] =>
      Ok {| shape := [c; r];
            entry := fun idx =>
              match idx with
              | [i; j] => entry x [j; i]
              | _ => NaN
              end |}
  | _ => Err (RuntimeError TransposeRank)
  end.

(** [torch.ones(size=...)]. *)
Definition ones (size : list Z) : result tensor :=
  match find (fun d => d <? 0) size with
  | Some d => Err (RuntimeError (NegativeDimension d))
  | None => Ok {| shape := size; entry := fun _ => Fin 1 |}
  end.

(** [Tensor.expand_as(other)]. *)
Definition expand_as (x other : tensor) : result tensor :=
  s <- broadcast_shapes (shape x) (shape other) ;;
  if shape_eqb s (shape other)
  then Ok {| shape := shape other;
             entry := fun idx => entry x (operand_index (shape x) idx) |}
  else Err (RuntimeError ExpandError).

(** [Tensor.norm(2, dim, keepdim=True)]. *)
Definition norm (input : tensor) (dim : Z) : result tensor :=
  s <- sum_dim true (square input) dim ;;
  Ok (sqrt s).

(** [torch.nn.functional.normalize(input, p=2, dim, eps=1e-12)]: each
    vector along [dim] is divided by the larger of its L2 norm and [eps]. *)
Definition eps : R := (1 / 10 ^ 12)%R.

Definition normalize (input : tensor) (dim : Z) : result tensor :=
  n <- norm input dim ;;
  denom <- expand_as (clamp_min n eps) input ;;
  div input denom.

End Torch.
Import Torch.

(** ** class encoder *)

Module encoder.

(** [resnet] is the wrapped module, as the callable it is used as. *)
Record self_t : Type := mk {
  resnet : tensor -> result tensor
}.

Definition __init__ (resnet : tensor -> result tensor) : self_t :=
  {| resnet := resnet |}.

Definition forward (self : self_t) (x : tensor) : result tensor :=
  f <- resnet self x ;;
  out <- normalize f 1 ;;
  Ok out.

End encoder.

(** ** class clustering_model *)

Module clustering_model.

Record self_t : Type := mk {
  feat_extractor : tensor -> result tensor;
  clustering_layer : tensor;
  fuzzifier : R;
  device : string;
  class_number : Z
}.

(** [torch.Tensor(512, class_number)] allocates without initialising:
    [uninit] stands for whatever the memory holds.  A size that is not a
    64-bit integer is refused as an argument, a negative size by the
    allocation, and so is a float32 tensor whose byte count does not fit
    in 63 bits.  Whether the machine has the memory asked for is not
    represented beyond that. *)
Definition Tensor (uninit : list Z -> xreal) (size : list Z) : result tensor :=
  match find (fun d => (d <? - 2 ^ 63) || (2 ^ 63 <=? d)) size with
  | Some _ => Err TypeError
  | None =>
      match find (fun d => d <? 0) size with
      | Some d => Err (RuntimeError (NegativeDimension d))
      | None =>
          if 2 ^ 63 <=? 4 * fold_left Z.mul size 1
          then Err (RuntimeError AllocationTooLarge)
          else Ok {| shape := size; entry := uninit |}
      end
  end.

Definition __init__ (uninit : list Z -> xreal)
    (feat_extractor : tensor -> result tensor) (fuzzifier : R)
    (class_number : Z) (device : string) : result self_t :=
  w <- Tensor uninit [512; class_number] ;;
  Ok {| feat_extractor := feat_extractor;
        clustering_layer := w;
        fuzzifier := fuzzifier;
        device := device;
        class_number := class_number |}.

(** Python's [a / b] on floats. *)
Definition py_truediv (a b : R) : result R :=
  if Req_dec_T b 0 then Err ZeroDivisionError else Ok (a / b)%R.

(** Whether a device name denotes the CPU. *)
Definition names_cpu (device : string) : bool :=
  String.eqb device "cpu" || String.eqb device "cpu:0".

(** [x.to(device)] for a tensor that is multiplied next with tensors on
    the CPU: it goes through when [device] names the CPU.  For any other
    name either the move is refused or the product that follows it is. *)
Definition to_device (x : tensor) (device : string) : result tensor :=
  if names_cpu device then Ok x else Err (DeviceError device).

Definition forward (self : self_t) (x : tensor) : result tensor :=
  latent <- feat_extractor self x ;;
  u <- unsqueeze latent 1 ;;
  diff <- sub u (clustering_layer self) ;;
  s <- sum (square diff) 2 ;;
  dis <- t (sqrt s) ;;
  exponent <- py_truediv (-2) (fuzzifier self - 1) ;;
  let dis := pow dis exponent in
  s0 <- sum dis 0 ;;
  c <- unsqueeze s0 0 ;;
  o <- ones [class_number self; 1] ;;
  o <- to_device o (device self) ;;
  m <- mul o c ;;
  q <- div dis m ;;
  u_matrix <- t q ;;
  Ok u_matrix.

End clustering_model.

(** ** Construction of modules

    Constructors allocate parameters.  A constructor returns the shapes
    of what it allocated, oldest first, together with its result; an
    exception stops the allocation there. *)

Definition Ctor (A : Type) : Type := (list (list Z) * result A)%type.

Definition cret {A : Type} (a : A) : Ctor A := ([], Ok a).

Definition craise {A : Type} (e : exn) : Ctor A := ([], Err e).

Definition cbind {A B : Type} (m : Ctor A) (f : A -> Ctor B) : Ctor B :=
  match m with
  | (l1, Err e) => (l1, Err e)
  | (l1, Ok a) => let (l2, r) := f a in (l1 ++ l2, r)
  end.

Definition allocated {A : Type} (m : Ctor A) : list (list Z) := fst m.
Definition outcome {A : Type} (m : Ctor A) : result A := snd m.

Declare Scope ctor_scope.
Delimit Scope ctor_scope with ctor.
Notation "x <- m ;; k" := (cbind m (fun x => k))
  (at level 61, m at next level, right associativity) : ctor_scope.
Notation "' pat <- m ;; k" := (cbind m (fun pat => k))
  (at level 61, pat pattern, m at next level, right associativity) : ctor_scope.

(** Allocation of one tensor of the given shape. *)
Definition alloc (s : list Z) : Ctor unit :=
  match find (fun d => d <? 0) s with
  | Some d => craise (RuntimeError (NegativeDimension d))
  | None => ([s], Ok tt)
  end.

(** Python's [l[i]] for a non-negative constant [i]. *)
Definition index {A : Type} (l : list A) (i : nat) : Ctor A :=
  match nth_error l i with
  | Some a => cret a
  | None => craise (IndexError "list index out of range")
  end.

(** ** torch.nn layers, on shapes *)

Module nn.

Record Conv2d : Type := mkConv2d {
  in_channels : Z;
  out_channels : Z;
  kernel_size : Z;
  stride : Z;
  padding : Z;
  dilation : Z;
  groups : Z
}.

Record BatchNorm2d : Type := mkBatchNorm2d {
  num_features : Z
}.

(** [nn.Conv2d(in_channels, out_channels, kernel_size, stride, padding,
    dilation, groups, bias=False)]. *)
Definition Conv2d__init__ (in_channels out_channels kernel_size stride
    padding dilation groups : Z) : Ctor Conv2d :=
  (if groups <=? 0 then craise (ValueError "groups must be a positive integer")
   else if negb (in_channels mod groups =? 0)
   then craise (ValueError "in_channels must be divisible by groups")
   else if negb (out_channels mod groups =? 0)
   then craise (ValueError "out_channels must be divisible by groups")
   else
     _ <- alloc [out_channels; in_channels / groups; kernel_size; kernel_size] ;;
     cret (mkConv2d in_channels out_channels kernel_size stride padding
             dilation groups))%ctor.

(** [nn.BatchNorm2d(num_features)]: scale, shift, the two running
    statistics and the batch counter. *)
Definition BatchNorm2d__init__ (num_features : Z) : Ctor BatchNorm2d :=
  (_ <- alloc [num_features] ;;
   _ <- alloc [num_features] ;;
   _ <- alloc [num_features] ;;
   _ <- alloc [num_features] ;;
   _ <- alloc [] ;;
   cret (mkBatchNorm2d num_features))%ctor.

(** Output length of a convolution along one spatial axis. *)
Definition conv_out (c : Conv2d) (h : Z) : result Z :=
  let extent := dilation c * (kernel_size c - 1) + 1 in
  if h + 2 * padding c <? extent then Err (RuntimeError KernelTooLarge)
  else Ok ((h + 2 * padding c - extent) / stride c + 1).

Definition Conv2d_forward (c : Conv2d) (x : list Z) : result (list Z) :=
  match x with
  | [n; ch; h; w] =>
      if negb (ch =? in_channels c)
      then Err (RuntimeError (ChannelMismatch (in_channels c) ch))
      else ho <- conv_out c h ;; wo <- conv_out c w ;;
           Ok [n; out_channels c; ho; wo]
  | [ch; h; w] =>
      if negb (ch =? in_channels c)
      then Err (RuntimeError (ChannelMismatch (in_channels c) ch))
      else ho <- conv_out c h ;; wo <- conv_out c w ;;
           Ok [out_channels c; ho; wo]
  | _ => Err (RuntimeError InputRank)
  end.

(** Python's [str] of an integer and of a [torch.Size]. *)
Definition py_str_int (z : Z) : string := NilZero.string_of_int (Z.to_int z).

Definition py_str_size (size : list Z) : string :=
  ("torch.Size([" ++ String.concat ", " (map py_str_int size) ++ "])")%string.

(** [nn.BatchNorm2d] applied in training mode: the input has 4
    dimensions, more than one value per channel, and the channels the
    layer was built for; its shape is kept. *)
Definition BatchNorm2d_forward (b : BatchNorm2d) (x : list Z) : result (list Z) :=
  match x with
  | [n; ch; h; w] =>
      if n * h * w =? 1
      then Err (ValueError
                  ("Expected more than 1 value per channel when training, got input size "
                   ++ py_str_size x)%string)
      else if negb (ch =? num_features b)
      then Err (RuntimeError (ChannelMismatch (num_features b) ch))
      else Ok x
  | _ =>
      Err (ValueError
             ("expected 4D input (got " ++ py_str_int (Z.of_nat (length x))
              ++ "D input)")%string)
  end.

Definition ReLU_forward (x : list Z) : result (list Z) := Ok x.

(** [nn.AdaptiveAvgPool2d((1, 1))]. *)
Definition AdaptiveAvgPool2d_forward (x : list Z) : result (list Z) :=
  match x with
  | [n; ch; h; w] =>
      if (ch <=? 0) || (h <=? 0) || (w <=? 0)
      then Err (RuntimeError EmptyPoolInput)
      else Ok [n; ch; 1; 1]
  | [ch; h; w] =>
      if (ch <=? 0) || (h <=? 0) || (w <=? 0)
      then Err (RuntimeError EmptyPoolInput)
      else Ok [ch; 1; 1]
  | _ => Err (RuntimeError InputRank)
  end.

(** [torch.flatten(x, 1)]. *)
Definition flatten1 (x : list Z) : result (list Z) :=
  match x with
  | [] => Err (IndexError "Dimension out of range")
  | [n] => Err (IndexError "Dimension out of range")
  | n :: rest => Ok [n; fold_left Z.mul rest 1]
  end.

(** [out += identity]: [identity] must broadcast to the shape of [out]. *)
Definition iadd (out identity : list Z) : result (list Z) :=
  s <- broadcast_shapes out identity ;;
  if shape_eqb s out then Ok out else Err (RuntimeError ExpandError).

End nn.

(** ** torchvision.models.resnet: the two residual blocks, on shapes *)

Module torchvision.
Import nn.

(** [conv3x3]: padding equal to the dilation, no bias. *)
Definition conv3x3 (in_planes out_planes stride groups dilation : Z) : Ctor Conv2d :=
  Conv2d__init__ in_planes out_planes 3 stride dilation dilation groups.

Definition conv1x1 (in_planes out_planes stride : Z) : Ctor Conv2d :=
  Conv2d__init__ in_planes out_planes 1 stride 0 1 1.

(** The block classes, as passed for the [block] argument. *)
Inductive block_class : Type := BasicBlock | Bottleneck.

Definition expansion (block : block_class) : Z :=
  match block with
  | BasicBlock => 1
  | Bottleneck => 4
  end.

(** [nn.Sequential(conv1x1(...), norm_layer(...))]. *)
Definition Downsample : Type := (Conv2d * BatchNorm2d)%type.

(** Instances of the block classes. *)
Inductive Block : Type :=
| BasicBlock_ (conv1 : Conv2d) (bn1 : BatchNorm2d)
              (conv2 : Conv2d) (bn2 : BatchNorm2d)
              (downsample : option Downsample) (stride : Z)
| Bottleneck_ (conv1 : Conv2d) (bn1 : BatchNorm2d)
              (conv2 : Conv2d) (bn2 : BatchNorm2d)
              (conv3 : Conv2d) (bn3 : BatchNorm2d)
              (downsample : option Downsample) (stride : Z).

Definition class_of (b : Block) : block_class :=
  match b with
  | BasicBlock_ _ _ _ _ _ _ => BasicBlock
  | Bottleneck_ _ _ _ _ _ _ _ _ => Bottleneck
  end.

(** [block(inplanes, planes, stride, downsample, groups, base_width,
    dilation, norm_layer)] with batch normalisation for [norm_layer].
    The width of a bottleneck is [int(planes * (base_width / 64.0)) *
    groups], the product being taken exactly. *)
Definition Block__init__ (block : block_class)
    (inplanes planes stride : Z) (downsample : option Downsample)
    (groups base_width dilation : Z) : Ctor Block :=
  match block with
  | BasicBlock =>
      (if negb (groups =? 1) || negb (base_width =? 64)
       then craise (ValueError "BasicBlock only supports groups=1 and base_width=64")
       else if 1 <? dilation
       then craise (NotImplementedError "Dilation > 1 not supported in BasicBlock")
       else
         conv1 <- conv3x3 inplanes planes stride 1 1 ;;
         bn1 <- BatchNorm2d__init__ planes ;;
         conv2 <- conv3x3 planes planes 1 1 1 ;;
         bn2 <- BatchNorm2d__init__ planes ;;
         cret (BasicBlock_ conv1 bn1 conv2 bn2 downsample stride))%ctor
  | Bottleneck =>
      let width := Z.quot (planes * base_width) 64 * groups in
      (conv1 <- conv1x1 inplanes width 1 ;;
       bn1 <- BatchNorm2d__init__ width ;;
       conv2 <- conv3x3 width width stride groups dilation ;;
       bn2 <- BatchNorm2d__init__ width ;;
       conv3 <- conv1x1 width (planes * 4) 1 ;;
       bn3 <- BatchNorm2d__init__ (planes * 4) ;;
       cret (Bottleneck_ conv1 bn1 conv2 bn2 conv3 bn3 downsample stride))%ctor
  end.

Definition Downsample_forward (d : Downsample) (x : list Z) : result (list Z) :=
  y <- Conv2d_forward (fst d) x ;;
  BatchNorm2d_forward (snd d) y.

Definition shortcut (downsample : option Downsample) (x : list Z) : result (list Z) :=
  match downsample with
  | Some d => Downsample_forward d x
  | None => Ok x
  end.

Definition Block_forward (b : Block) (x : list Z) : result (list Z) :=
  match b with
  | BasicBlock_ conv1 bn1 conv2 bn2 downsample _ =>
      out <- Conv2d_forward conv1 x ;;
      out <- BatchNorm2d_forward bn1 out ;;
      out <- ReLU_forward out ;;
      out <- Conv2d_forward conv2 out ;;
      out <- BatchNorm2d_forward bn2 out ;;
      identity <- shortcut downsample x ;;
      out <- iadd out identity ;;
      ReLU_forward out
  | Bottleneck_ conv1 bn1 conv2 bn2 conv3 bn3 downsample _ =>
      out <- Conv2d_forward conv1 x ;;
      out <- BatchNorm2d_forward bn1 out ;;
      out <- ReLU_forward out ;;
      out <- Conv2d_forward conv2 out ;;
      out <- BatchNorm2d_forward bn2 out ;;
      out <- ReLU_forward out ;;
      out <- Conv2d_forward conv3 out ;;
      out <- BatchNorm2d_forward bn3 out ;;
      identity <- shortcut downsample x ;;
      out <- iadd out identity ;;
      ReLU_forward out
  end.

(** [nn.Sequential] of the list of blocks. *)
Fixpoint Sequential_forward (layers : list Block) (x : list Z) : result (list Z) :=
  match layers with
  | [] => Ok x
  | b :: rest => y <- Block_forward b x ;; Sequential_forward rest y
  end.

End torchvision.

(** ** class ResNet *)

Module ResNet.
Import nn torchvision.

(** The attributes of [self] that [_make_layer] reads and updates. *)
Record attrs : Type := mkAttrs {
  a_inplanes : Z;
  a_dilation : Z;
  a_groups : Z;
  a_base_width : Z
}.

Record self_t : Type := mk {
  inplanes : Z;
  dilation : Z;
  groups : Z;
  base_width : Z;
  conv1 : Conv2d;
  bn1 : BatchNorm2d;
  layer1 : list Block;
  layer2 : list Block;
  layer3 : list Block;
  layer4 : list Block;
  rep_dim : Z
}.

(** [for _ in range(1, blocks): layers.append(block(...))]. *)
Fixpoint append_blocks (n : nat) (make : Ctor Block) (layers : list Block)
  : Ctor (list Block) :=
  match n with
  | O => cret layers
  | S m => (b <- make ;; append_blocks m make (layers ++ [b]))%ctor
  end.

Definition _make_layer (self : attrs) (block : block_class)
    (planes blocks stride : Z) (dilate : bool) : Ctor (attrs * list Block) :=
  let previous_dilation := a_dilation self in
  let dilation := if dilate then a_dilation self * stride else a_dilation self in
  let stride := if dilate then 1 else stride in
  (downsample <-
     (if negb (stride =? 1) || negb (a_inplanes self =? planes * expansion block)
      then
        c <- conv1x1 (a_inplanes self) (planes * expansion block) stride ;;
        n <- BatchNorm2d__init__ (planes * expansion block) ;;
        cret (Some (c, n))
      else cret None) ;;
   first <- Block__init__ block (a_inplanes self) planes stride downsample
              (a_groups self) (a_base_width self) previous_dilation ;;
   let inplanes := planes * expansion block in
   layers <- append_blocks (Z.to_nat (blocks - 1))
               (Block__init__ block inplanes planes 1 None
                  (a_groups self) (a_base_width self) dilation)
               [first] ;;
   cret (mkAttrs inplanes dilation (a_groups self) (a_base_width self),
         layers))%ctor.

(** Python's [str] of a list of booleans. *)
Definition py_str_bool (b : bool) : string :=
  if b then "True"%string else "False"%string.

Definition py_str_list (l : list bool) : string :=
  ("[" ++ String.concat ", " (map py_str_bool l) ++ "]")%string.

Definition dilation_message (l : list bool) : string :=
  ("replace_stride_with_dilation should be None or a 3-element tuple, got "
   ++ py_str_list l)%string.

(** [ResNet(block, layers, in_channel, zero_init_residual, groups,
    width_per_group, replace_stride_with_dilation)] with batch
    normalisation for [norm_layer].  The two initialisation loops at the
    end only write values into parameters that exist already. *)
Definition __init__ (block : block_class) (layers : list Z) (in_channel : Z)
    (zero_init_residual : bool) (groups width_per_group : Z)
    (replace_stride_with_dilation : option (list bool)) : Ctor self_t :=
  let inplanes := 64 in
  let dilation := 1 in
  let replace_stride_with_dilation :=
    match replace_stride_with_dilation with
    | None => [false; false; false]
    | Some l => l
    end in
  if negb (Z.of_nat (length replace_stride_with_dilation) =? 3)
  then craise (ValueError (dilation_message replace_stride_with_dilation))
  else
    (conv1 <- Conv2d__init__ in_channel inplanes 3 1 1 1 1 ;;
     bn1 <- BatchNorm2d__init__ inplanes ;;
     let self := mkAttrs inplanes dilation groups width_per_group in
     n1 <- index layers 0 ;;
     '(self, layer1) <- _make_layer self block 64 n1 1 false ;;
     n2 <- index layers 1 ;;
     d0 <- index replace_stride_with_dilation 0 ;;
     '(self, layer2) <- _make_layer self block 128 n2 2 d0 ;;
     n3 <- index layers 2 ;;
     d1 <- index replace_stride_with_dilation 1 ;;
     '(self, layer3) <- _make_layer self block 256 n3 2 d1 ;;
     n4 <- index layers 3 ;;
     d2 <- index replace_stride_with_dilation 2 ;;
     '(self, layer4) <- _make_layer self block 512 n4 2 d2 ;;
     cret {| inplanes := a_inplanes self;
             dilation := a_dilation self;
             groups := groups;
             base_width := width_per_group;
             conv1 := conv1;
             bn1 := bn1;
             layer1 := layer1;
             layer2 := layer2;
             layer3 := layer3;
             layer4 := layer4;
             rep_dim := 512 * expansion block |})%ctor.

(** [_forward_impl] on the shape of its argument. *)
Definition _forward_impl (self : self_t) (x : list Z) : result (list Z) :=
  x <- Conv2d_forward (conv1 self) x ;;
  x <- BatchNorm2d_forward (bn1 self) x ;;
  x <- ReLU_forward x ;;
  x <- Sequential_forward (layer1 self) x ;;
  x <- Sequential_forward (layer2 self) x ;;
  x <- Sequential_forward (layer3 self) x ;;
  x <- Sequential_forward (layer4 self) x ;;
  x <- AdaptiveAvgPool2d_forward x ;;
  x <- flatten1 x ;;
  Ok x.

(** [forward]: the shape of the result is the one [_forward_impl]
    arrives at.  Its entries are what the convolution stack computes from
    the batch with the weights it holds; the weights are drawn at random
    by the constructor and are not part of [self_t], and [features]
    stands for the resulting function of the batch. *)
Definition forward (features : tensor -> list Z -> xreal)
    (self : self_t) (x : tensor) : result tensor :=
  s <- _forward_impl self (shape x) ;;
  Ok {| shape := s; entry := features x |}.

End ResNet.

(** ** get_resnet_cifar *)

Definition lookup {A : Type} (d : list (string * A)) (key : string) : option A :=
  option_map snd (find (fun kv => String.eqb (fst kv) key) d).

Definition get_resnet_cifar (name : string) : Ctor ResNet.self_t :=
  (resnet18 <- ResNet.__init__ torchvision.BasicBlock [2; 2; 2; 2] 3 false 1 64 None ;;
   resnet34 <- ResNet.__init__ torchvision.BasicBlock [3; 4; 6; 3] 3 false 1 64 None ;;
   resnet50 <- ResNet.__init__ torchvision.Bottleneck [3; 4; 6; 3] 3 false 1 64 None ;;
   let resnets := [ ("ResNet18"%string, resnet18);
                    ("ResNet34"%string, resnet34);
                    ("ResNet50"%string, resnet50) ] in
   match lookup resnets name with
   | None => craise (KeyError (name ++ " is not a valid ResNet version")%string)
   | Some r => cret r
   end)%ctor.

(** ** Vocabulary of the statements *)

(** Euclidean distance between row [i] of [a] and row [j] of [b], over
    [d] components. *)
Definition row_distance (d : Z) (a b : tensor) (i j : Z) : xreal :=
  xsqrt (sum_upto (Z.to_nat d)
           (fun k => xsquare (xsub (entry a [i; k]) (entry b [j; k])))).

(** Euclidean distance between row [i] of [a] and column [j] of [b]. *)
Definition column_distance (d : Z) (a b : tensor) (i j : Z) : xreal :=
  xsqrt (sum_upto (Z.to_nat d)
           (fun k => xsquare (xsub (entry a [i; k]) (entry b [k; j])))).

(** Euclidean distance between row [i] of [a] and the vector whose [d]
    components all equal the component 0 of row [j] of [b]. *)
Definition constant_distance (d : Z) (a b : tensor) (i j : Z) : xreal :=
  xsqrt (sum_upto (Z.to_nat d)
           (fun k => xsquare (xsub (entry a [i; k]) (entry b [j; 0])))).

(** L2 norm of row [i] of a matrix with [d] columns. *)
Definition row_norm (d : Z) (a : tensor) (i : Z) : xreal :=
  xsqrt (sum_upto (Z.to_nat d) (fun k => xsquare (entry a [i; k]))).

(** Sum of row [i] of a matrix with [d] columns. *)
Definition row_sum (d : Z) (a : tensor) (i : Z) : xreal :=
  sum_upto (Z.to_nat d) (fun k => entry a [i; k]).

(** A tensor of the given shape with every entry equal to [v]. *)
Definition full (size : list Z) (v : xreal) : tensor :=
  {| shape := size; entry := fun _ => v |}.

(** Sum of [g 0], ..., [g (n-1)] over the reals. *)
Fixpoint rsum (n : nat) (g : Z -> R) : R :=
  match n with
  | O => 0%R
  | S m => (rsum m g + g (Z.of_nat m))%R
  end.

(** The real number held by a finite entry. *)
Definition real_of (x : xreal) : R :=
  match x with
  | Fin r => r
  | _ => 0%R
  end.

(** A value that is a non-negative real or plus infinity. *)
Definition nonneg_or_inf (x : xreal) : Prop :=
  match x with
  | Fin p => (0 <= p)%R
  | PInf => True
  | _ => False
  end.

(** The kernel value of the head for image [i] and row [j] of the layer:
    the distance over [m] components, with the broadcasting of an
    embedding of width [d] against a layer of width [c], raised to [e]. *)
Definition kernel (latent layer : tensor) (d c m : Z) (e : R) (i j : Z) : xreal :=
  xpow
    (xsqrt
       (sum_upto (Z.to_nat m)
          (fun k =>
             xsquare
               (xsub (entry latent [i; if d =? 1 then 0 else k])
                     (entry layer [j; if c =? 1 then 0 else k])))))
    e.

(** The entry the head returns at cluster [j] for an image whose [r]
    kernel values are [kern]. *)
Definition member (r : Z) (kern : Z -> xreal) (j : Z) : xreal :=
  xdiv (kern j) (xmul (Fin 1) (sum_upto (Z.to_nat r) kern)).

Definition reals_of (kern : Z -> xreal) (k : Z) : R := real_of (kern k).

(** A distance in the regular range for the exponent [e]: a real between
    1e-15 and 1e15 whose power [e] lies between 1e-15 and 1e15.  There
    the sums of squares, the powers, their sums over up to 512 clusters
    and their quotients are far from the ends of the range of float32. *)
Definition regular (e : R) (x : xreal) : Prop :=
  exists dist,
    x = Fin dist /\
    (/ 10 ^ 15 <= dist <= 10 ^ 15)%R /\
    (/ 10 ^ 15 <= Rpower dist e <= 10 ^ 15)%R.

(** The weight of a distance: its power [e], over the reals. *)
Definition weight (e : R) (x : xreal) : R := Rpower (real_of x) e.

(** Row [i] of a matrix, and its L2 norm, over the reals. *)
Definition row_real (f : tensor) (i k : Z) : R := real_of (entry f [i; k]).

Definition row_norm_real (d : Z) (f : tensor) (i : Z) : R :=
  R_sqrt.sqrt (rsum (Z.to_nat d) (fun k => row_real f i k * row_real f i k))%R.

(** The shortcut accepted by a block: a 1x1 convolution to the block's
    output width followed by normalisation, or nothing when the block
    keeps the shape. *)
Definition shortcut_fits (block : torchvision.block_class) (inp planes s : Z)
    (ds : option torchvision.Downsample) : Prop :=
  match ds with
  | Some (cv, b) =>
      cv = nn.mkConv2d inp (planes * torchvision.expansion block) 1 s 0 1 1 /\
      b = nn.mkBatchNorm2d (planes * torchvision.expansion block)
  | None => s = 1 /\ inp = planes * torchvision.expansion block
  end.

(** The outcome of running layers is the value [s]: in every case when
    [strict], and unless an exception was raised otherwise. *)
Definition flows {A : Type} (strict : bool) (r : result A) (s : A) : Prop :=
  if strict then r = Ok s
  else match r with Ok s' => s' = s | Err _ => True end.

(** Side length of an image after a stage that halves it ([dilate]
    false) or keeps it, and after the three such stages of a backbone. *)
Definition stage_side (dilate : bool) (h : Z) : Z :=
  (h - 1) / (if dilate then 1 else 2) + 1.

Definition final_side (flags : option (list bool)) (h : Z) : Z :=
  match flags with
  | Some [d0; d1; d2] => stage_side d2 (stage_side d1 (stage_side d0 h))
  | _ => stage_side false (stage_side false (stage_side false h))
  end.

(** Number of blocks of a stage asked for with [blocks]. *)
Definition stage_length (blocks : Z) : nat := S (Z.to_nat (blocks - 1)).

(** Inputs used in the examples. *)

(** A feature extractor that hands its argument on. *)
Definition identity_extractor (x : tensor) : result tensor := Ok x.

(** Backbone features that are zero everywhere. *)
Definition zero_features (x : tensor) (idx : list Z) : xreal := Fin 0.

(** One feature row of width 512 whose component 0 is [v], the others
    being zero. *)
Definition spike (v : R) : tensor :=
  {| shape := [1; 512];
     entry := fun idx =>
       match idx with
       | [_; k] => if k =? 0 then Fin v else Fin 0
       | _ => Fin 0
       end |}.

(** Memory holding a matrix whose row 0 and column 0 are zero and whose
    other entries are ones. *)
Definition cross_zero (idx : list Z) : xreal :=
  match idx with
  | [j; k] => if (j =? 0) || (k =? 0) then Fin 0 else Fin 1
  | _ => Fin 0
  end.

(** The exception of a BasicBlock asked for a dilation above 1. *)
Definition not_supported : exn :=
  NotImplementedError "Dilation > 1 not supported in BasicBlock".

(** * Properties *)

#[local] Arguments Z.eqb : simpl never.
#[local] Arguments Z.ltb : simpl never.
#[local] Arguments Z.leb : simpl never.

Ltac zbool :=
  repeat match goal with
  | |- context [Z.eqb ?a ?b] => destruct (Z.eqb_spec a b); try lia; try congruence
  | |- context [Z.ltb ?a ?b] => destruct (Z.ltb_spec a b); try lia
  | |- context [Z.leb ?a ?b] => destruct (Z.leb_spec a b); try lia
  end.

(** ** Tensor operations on known shapes *)

Section TensorSteps.

Lemma binary_ok f a b s :
  broadcast_shapes (shape a) (shape b) = Ok s ->
  binary f a b =
  Ok {| shape := s;
        entry := fun idx => f (entry a (operand_index (shape a) idx))
                              (entry b (operand_index (shape b) idx)) |}.
Proof. intros H. unfold binary. rewrite H. reflexivity. Qed.

Lemma binary_err f a b e :
  broadcast_shapes (shape a) (shape b) = Err e -> binary f a b = Err e.
Proof. intros H. unfold binary. rewrite H. reflexivity. Qed.

Lemma unsqueeze_matrix_1 x n d :
  shape x = [n; d] ->
  unsqueeze x 1 =
  Ok {| shape := [n; 1; d]; entry := fun idx => entry x (remove_nth 1 idx) |}.
Proof. intros H. unfold unsqueeze. rewrite H. reflexivity. Qed.

Lemma unsqueeze_vector_0 x n :
  shape x = [n] ->
  unsqueeze x 0 =
  Ok {| shape := [1; n]; entry := fun idx => entry x (remove_nth 0 idx) |}.
Proof. intros H. unfold unsqueeze. rewrite H. reflexivity. Qed.

Lemma sum_cube_2 x a b c :
  shape x = [a; b; c] ->
  sum x 2 =
  Ok {| shape := [a; b];
        entry := fun idx =>
          sum_upto (Z.to_nat c) (fun k => entry x (insert_nth 2 k idx)) |}.
Proof. intros H. unfold sum, sum_dim. rewrite H. reflexivity. Qed.

Lemma sum_matrix_0 x a b :
  shape x = [a; b] ->
  sum x 0 =
  Ok {| shape := [b];
        entry := fun idx =>
          sum_upto (Z.to_nat a) (fun k => entry x (insert_nth 0 k idx)) |}.
Proof. intros H. unfold sum, sum_dim. rewrite H. reflexivity. Qed.

Lemma t_matrix x r c :
  shape x = [r; c] ->
  t x =
  Ok {| shape := [c; r];
        entry := fun idx =>
          match idx with
          | [i; j] => entry x [j; i]
          | _ => NaN
          end |}.
Proof. intros H. unfold t. rewrite H. reflexivity. Qed.

(** Broadcasting of the unsqueezed embeddings against a matrix. *)
Lemma broadcast_embedding n d r c :
  broadcast_shapes [n; 1; d] [r; c] =
  if d =? c then Ok [n; r; d]
  else if d =? 1 then Ok [n; r; c]
  else if c =? 1 then Ok [n; r; d]
  else Err (RuntimeError (BroadcastError d c)).
Proof.
  unfold broadcast_shapes. cbn [rev app broadcast_rev].
  destruct (d =? c); [|destruct (d =? 1); [|destruct (c =? 1)]];
    try reflexivity;
    destruct (Z.eqb_spec 1 r); subst; reflexivity.
Qed.

Lemma broadcast_column_row r n :
  broadcast_shapes [r; 1] [1; n] = Ok [r; n].
Proof.
  unfold broadcast_shapes. cbn [rev app broadcast_rev].
  destruct (Z.eqb_spec 1 n); destruct (Z.eqb_spec r 1); subst; reflexivity.
Qed.

Lemma broadcast_matrices a b c :
  broadcast_shapes [a; c] [b; c] =
  if a =? b then Ok [a; c]
  else if a =? 1 then Ok [b; c]
  else if b =? 1 then Ok [a; c]
  else Err (RuntimeError (BroadcastError a b)).
Proof.
  unfold broadcast_shapes. cbn [rev app broadcast_rev].
  rewrite Z.eqb_refl. cbn [rbind broadcast_rev].
  destruct (a =? b); [|destruct (a =? 1); [|destruct (b =? 1)]]; reflexivity.
Qed.

End TensorSteps.

(** ** The membership head, step by step *)

Lemma sum_upto_ext n f g :
  (forall k, 0 <= k < Z.of_nat n -> f k = g k) ->
  sum_upto n f = sum_upto n g.
Proof.
  induction n as [|n IH]; intros H; [reflexivity|].
  cbn [sum_upto]. rewrite IH, H; [reflexivity| lia |].
  intros k Hk. apply H. lia.
Qed.

Lemma squash_component s i :
  0 <= i < s -> (if s =? 1 then 0 else i) = i.
Proof. intros H. destruct (Z.eqb_spec s 1); lia. Qed.

Lemma ones_ok a :
  0 <= a -> ones [a; 1] = Ok {| shape := [a; 1]; entry := fun _ => Fin 1 |}.
Proof.
  intros H. unfold ones. cbn [find].
  destruct (Z.ltb_spec a 0); [lia|]. reflexivity.
Qed.

Section HeadSteps.
Import clustering_model.

Variable self : self_t.
Variables x latent : tensor.
Variables n d r c : Z.
Hypothesis Hfe : feat_extractor self x = Ok latent.
Hypothesis Hlatent : shape latent = [n; d].
Hypothesis Hlayer : shape (clustering_layer self) = [r; c].

Lemma forward_sub_error :
  d <> c -> d <> 1 -> c <> 1 ->
  forward self x = Err (RuntimeError (BroadcastError d c)).
Proof.
  intros H1 H2 H3. unfold forward. rewrite Hfe. cbn [rbind].
  rewrite (unsqueeze_matrix_1 _ _ _ Hlatent). cbn [rbind].
  unfold sub. erewrite binary_err; [reflexivity|].
  cbn [shape]. rewrite Hlayer, broadcast_embedding.
  zbool; reflexivity.
Qed.

Lemma forward_zero_division m :
  broadcast_shapes [n; 1; d] [r; c] = Ok [n; r; m] ->
  fuzzifier self = 1%R ->
  forward self x = Err ZeroDivisionError.
Proof.
  intros Hb Hf. unfold forward. rewrite Hfe. cbn [rbind].
  rewrite (unsqueeze_matrix_1 _ _ _ Hlatent). cbn [rbind].
  unfold sub. erewrite binary_ok by (cbn [shape]; rewrite Hlayer; exact Hb).
  cbn [rbind].
  erewrite sum_cube_2 by reflexivity. cbn [rbind].
  erewrite t_matrix by reflexivity. cbn [rbind].
  unfold py_truediv. rewrite Hf.
  destruct (Req_dec_T (1 - 1) 0) as [_|H]; [reflexivity|].
  exfalso. apply H. lra.
Qed.

Lemma forward_device_error m :
  broadcast_shapes [n; 1; d] [r; c] = Ok [n; r; m] ->
  fuzzifier self <> 1%R ->
  0 <= class_number self ->
  names_cpu (device self) = false ->
  forward self x = Err (DeviceError (device self)).
Proof.
  intros Hb Hf Hc Hdev. unfold forward. rewrite Hfe. cbn [rbind].
  rewrite (unsqueeze_matrix_1 _ _ _ Hlatent). cbn [rbind].
  unfold sub. erewrite binary_ok by (cbn [shape]; rewrite Hlayer; exact Hb).
  cbn [rbind].
  erewrite sum_cube_2 by reflexivity. cbn [rbind].
  erewrite t_matrix by reflexivity. cbn [rbind].
  unfold py_truediv.
  destruct (Req_dec_T (fuzzifier self - 1) 0) as [H|_]; [exfalso; lra|].
  cbn [rbind].
  erewrite sum_matrix_0 by reflexivity. cbn [rbind].
  erewrite unsqueeze_vector_0 by reflexivity. cbn [rbind].
  rewrite (ones_ok _ Hc). cbn [rbind].
  unfold to_device. rewrite Hdev. reflexivity.
Qed.

Lemma forward_div_error m :
  broadcast_shapes [n; 1; d] [r; c] = Ok [n; r; m] ->
  fuzzifier self <> 1%R ->
  0 <= class_number self ->
  names_cpu (device self) = true ->
  r <> class_number self -> r <> 1 -> class_number self <> 1 ->
  forward self x = Err (RuntimeError (BroadcastError r (class_number self))).
Proof.
  intros Hb Hf Hc Hdev H1 H2 H3. unfold forward. rewrite Hfe. cbn [rbind].
  rewrite (unsqueeze_matrix_1 _ _ _ Hlatent). cbn [rbind].
  unfold sub. erewrite binary_ok by (cbn [shape]; rewrite Hlayer; exact Hb).
  cbn [rbind].
  erewrite sum_cube_2 by reflexivity. cbn [rbind].
  erewrite t_matrix by reflexivity. cbn [rbind].
  unfold py_truediv.
  destruct (Req_dec_T (fuzzifier self - 1) 0) as [H|_]; [exfalso; lra|].
  cbn [rbind].
  erewrite sum_matrix_0 by reflexivity. cbn [rbind].
  erewrite unsqueeze_vector_0 by reflexivity. cbn [rbind].
  rewrite (ones_ok _ Hc). cbn [rbind].
  unfold to_device. rewrite Hdev. cbn [rbind].
  unfold mul. erewrite binary_ok by (cbn [shape]; apply broadcast_column_row).
  cbn [rbind].
  unfold div. erewrite binary_err; [reflexivity|].
  cbn [shape pow pointwise]. rewrite broadcast_matrices.
  zbool; reflexivity.
Qed.

Lemma forward_ok m :
  broadcast_shapes [n; 1; d] [r; c] = Ok [n; r; m] ->
  fuzzifier self <> 1%R ->
  0 <= class_number self ->
  names_cpu (device self) = true ->
  broadcast_shapes [r; n] [class_number self; n] = Ok [r; n] ->
  exists u,
    forward self x = Ok u /\
    shape u = [n; r] /\
    forall i j, 0 <= i < n -> 0 <= j < r ->
      entry u [i; j] =
      member r (kernel latent (clustering_layer self) d c m
                       (-2 / (fuzzifier self - 1)) i) j.
Proof.
  intros Hb Hf Hc Hdev Hdiv. unfold forward. rewrite Hfe. cbn [rbind].
  rewrite (unsqueeze_matrix_1 _ _ _ Hlatent). cbn [rbind].
  unfold sub. erewrite binary_ok by (cbn [shape]; rewrite Hlayer; exact Hb).
  cbn [rbind].
  erewrite sum_cube_2 by reflexivity. cbn [rbind].
  erewrite t_matrix by reflexivity. cbn [rbind].
  unfold py_truediv.
  destruct (Req_dec_T (fuzzifier self - 1) 0) as [H|_]; [exfalso; lra|].
  cbn [rbind].
  erewrite sum_matrix_0 by reflexivity. cbn [rbind].
  erewrite unsqueeze_vector_0 by reflexivity. cbn [rbind].
  rewrite (ones_ok _ Hc). cbn [rbind].
  unfold to_device. rewrite Hdev. cbn [rbind].
  unfold mul. erewrite binary_ok by (cbn [shape]; apply broadcast_column_row).
  cbn [rbind].
  unfold div. erewrite binary_ok by (cbn [shape pow pointwise]; exact Hdiv).
  cbn [rbind].
  erewrite t_matrix by reflexivity. cbn [rbind].
  eexists; split; [reflexivity|]. split; [reflexivity|].
  intros i j Hi Hj.
  cbn [entry shape pow sqrt square pointwise operand_index squash_index
       skipn length Nat.sub insert_nth remove_nth].
  rewrite Hlayer.
  cbn [operand_index squash_index skipn length Nat.sub].
  rewrite !(squash_component n i Hi), !(squash_component r j Hj).
  unfold member, kernel. do 2 f_equal.
  apply sum_upto_ext. intros k Hk.
  rewrite (squash_component r k) by lia. reflexivity.
Qed.

End HeadSteps.

(** ** Construction: inversion of the monad *)

Lemma cbind_ok {A B : Type} (m : Ctor A) (f : A -> Ctor B) (b : B) :
  outcome (cbind m f) = Ok b ->
  exists a, outcome m = Ok a /\ outcome (f a) = Ok b.
Proof.
  destruct m as [l [a|e]]; cbn [cbind outcome snd]; [|discriminate].
  destruct (f a) as [l2 r2] eqn:E; cbn [outcome snd]. intros ->.
  exists a. rewrite E. split; reflexivity.
Qed.

Lemma cbind_allocated {A B : Type} (m : Ctor A) (f : A -> Ctor B) :
  exists rest, allocated (cbind m f) = allocated m ++ rest.
Proof.
  destruct m as [l [a|e]]; cbn [cbind allocated fst].
  - destruct (f a) as [l2 r2]. exists l2. reflexivity.
  - exists []. rewrite app_nil_r. reflexivity.
Qed.

Lemma cret_ok {A : Type} (a b : A) : outcome (cret a) = Ok b -> a = b.
Proof. cbn. congruence. Qed.

Lemma index_ok {A : Type} (l : list A) (i : nat) (a : A) :
  outcome (index l i) = Ok a -> nth_error l i = Some a.
Proof.
  unfold index. destruct (nth_error l i); cbn; [congruence|discriminate].
Qed.

Ltac cinv H :=
  let a := fresh "v" in
  let H1 := fresh "Hm" in
  apply cbind_ok in H; destruct H as (a & H1 & H).

(** Outcomes of layers run in sequence. *)
Lemma flows_ok {A : Type} strict (r : result A) a : r = Ok a -> flows strict r a.
Proof. intros ->. destruct strict; reflexivity. Qed.

Lemma flows_bind {A B : Type} strict (m : result A) (f : A -> result B) a b :
  flows strict m a -> flows strict (f a) b -> flows strict (rbind m f) b.
Proof.
  destruct strict; cbn [flows].
  - intros -> H. exact H.
  - destruct m as [a'|e]; cbn [rbind]; [intros -> H; exact H|auto].
Qed.

Lemma flows_strict {A : Type} (r : result A) a : flows true r a -> r = Ok a.
Proof. auto. Qed.

(** One step of a chain of layers: the outcome of the first layer, then
    the rest of the chain. *)
Ltac flow_step := eapply flows_bind; [|cbn beta].

Section Layers.
Import nn torchvision.

Lemma Conv2d_init_ok i o k s p dl g cv :
  outcome (Conv2d__init__ i o k s p dl g) = Ok cv ->
  cv = mkConv2d i o k s p dl g.
Proof.
  unfold Conv2d__init__.
  destruct (g <=? 0); [discriminate|].
  destruct (negb (i mod g =? 0)); [discriminate|].
  destruct (negb (o mod g =? 0)); [discriminate|].
  intros H. cinv H. apply cret_ok in H. congruence.
Qed.

Lemma BatchNorm2d_init_ok f b :
  outcome (BatchNorm2d__init__ f) = Ok b -> b = mkBatchNorm2d f.
Proof.
  unfold BatchNorm2d__init__. intros H. do 5 cinv H.
  apply cret_ok in H. congruence.
Qed.

(** Output length of the 3x3 convolutions of the blocks (padding equal
    to the dilation) and of the 1x1 convolutions. *)
Lemma conv_out_3x3 i o s dl g h :
  1 <= h -> 1 <= dl ->
  conv_out (mkConv2d i o 3 s dl dl g) h = Ok ((h - 1) / s + 1).
Proof.
  intros Hh Hd. unfold conv_out. cbn [dilation kernel_size padding stride].
  destruct (Z.ltb_spec (h + 2 * dl) (dl * (3 - 1) + 1)); [lia|].
  do 3 f_equal. lia.
Qed.

Lemma conv_out_1x1 i o s g h :
  1 <= h ->
  conv_out (mkConv2d i o 1 s 0 1 g) h = Ok ((h - 1) / s + 1).
Proof.
  intros Hh. unfold conv_out. cbn [dilation kernel_size padding stride].
  destruct (Z.ltb_spec (h + 2 * 0) (1 * (1 - 1) + 1)); [lia|].
  do 3 f_equal. lia.
Qed.

Lemma conv_forward_3x3 i o s dl g n h w :
  1 <= h -> 1 <= w -> 1 <= dl ->
  Conv2d_forward (mkConv2d i o 3 s dl dl g) [n; i; h; w] =
  Ok [n; o; (h - 1) / s + 1; (w - 1) / s + 1].
Proof.
  intros. unfold Conv2d_forward. cbn [in_channels out_channels].
  rewrite Z.eqb_refl. cbn [negb].
  rewrite !conv_out_3x3 by assumption. reflexivity.
Qed.

Lemma conv_forward_1x1 i o s g n h w :
  1 <= h -> 1 <= w ->
  Conv2d_forward (mkConv2d i o 1 s 0 1 g) [n; i; h; w] =
  Ok [n; o; (h - 1) / s + 1; (w - 1) / s + 1].
Proof.
  intros. unfold Conv2d_forward. cbn [in_channels out_channels].
  rewrite Z.eqb_refl. cbn [negb].
  rewrite !conv_out_1x1 by assumption. reflexivity.
Qed.

(** Batch normalisation in training mode goes through when the batch
    holds more than one value per channel. *)
Lemma bn_forward strict f n h w :
  (strict = true -> 2 <= n * h * w) ->
  flows strict (BatchNorm2d_forward (mkBatchNorm2d f) [n; f; h; w]) [n; f; h; w].
Proof.
  intros Hs. unfold BatchNorm2d_forward. cbn [num_features].
  destruct (Z.eqb_spec (n * h * w) 1) as [E|_].
  - destruct strict; [specialize (Hs eq_refl); lia|exact I].
  - rewrite Z.eqb_refl. apply flows_ok. reflexivity.
Qed.

Lemma broadcast_rev_refl l : broadcast_rev l l = Ok l.
Proof.
  induction l as [|a l IH]; [reflexivity|].
  cbn [broadcast_rev]. rewrite Z.eqb_refl, IH. reflexivity.
Qed.

Lemma iadd_same s : iadd s s = Ok s.
Proof.
  unfold iadd, broadcast_shapes. rewrite broadcast_rev_refl.
  cbn [rbind]. rewrite rev_involutive.
  unfold shape_eqb. destruct (list_eq_dec Z.eq_dec s s); congruence.
Qed.

Lemma stride_one h : (h - 1) / 1 + 1 = h.
Proof. rewrite Z.div_1_r. lia. Qed.

Lemma spatial_pos h s : 1 <= h -> 1 <= s -> 1 <= (h - 1) / s + 1.
Proof. intros. assert (0 <= (h - 1) / s) by (apply Z.div_pos; lia). lia. Qed.

Lemma spatial_le h s : 1 <= h -> 1 <= s -> (h - 1) / s + 1 <= h.
Proof.
  intros. assert ((h - 1) / s <= h - 1); [|lia].
  apply Z.div_le_upper_bound; nia.
Qed.

(** A batch with more than one value per channel had more than one
    before its images were reduced. *)
Lemma values_per_channel n h w h' w' :
  2 <= n * h' * w' -> 1 <= h' <= h -> 1 <= w' <= w -> 2 <= n * h * w.
Proof.
  intros H Hh Hw.
  assert (Hn : 1 <= n) by nia.
  assert (n * h' <= n * h) by (apply Z.mul_le_mono_nonneg_l; lia).
  assert (n * h' * w' <= n * h * w) by (apply Z.mul_le_mono_nonneg; nia).
  lia.
Qed.

Lemma Block_forward_ok strict block inp planes s ds g bw dl b n h w :
  outcome (Block__init__ block inp planes s ds g bw dl) = Ok b ->
  shortcut_fits block inp planes s ds ->
  1 <= h -> 1 <= w -> 1 <= s -> 1 <= dl ->
  (strict = true -> 2 <= n * ((h - 1) / s + 1) * ((w - 1) / s + 1)) ->
  flows strict (Block_forward b [n; inp; h; w])
    [n; planes * expansion block; (h - 1) / s + 1; (w - 1) / s + 1].
Proof.
  intros Hb Hds Hh Hw Hs Hd Hv.
  pose proof (spatial_pos h s Hh Hs) as Hh1.
  pose proof (spatial_pos w s Hw Hs) as Hw1.
  pose proof (spatial_le h s Hh Hs) as Hh2.
  pose proof (spatial_le w s Hw Hs) as Hw2.
  assert (Hv0 : strict = true -> 2 <= n * h * w).
  { intros E. apply (values_per_channel n h w _ _ (Hv E)); lia. }
  assert (Hsc : flows strict (shortcut ds [n; inp; h; w])
                  [n; planes * expansion block; (h - 1) / s + 1; (w - 1) / s + 1]).
  { unfold shortcut_fits in Hds. destruct ds as [[cv bn]|].
    - destruct Hds as [-> ->]. unfold shortcut, Downsample_forward.
      cbn [fst snd]. rewrite conv_forward_1x1 by assumption.
      cbn [rbind]. apply bn_forward. exact Hv.
    - destruct Hds as [-> ->]. cbn [shortcut]. rewrite !stride_one.
      apply flows_ok. reflexivity. }
  destruct block; unfold Block__init__ in Hb.
  - destruct (negb (g =? 1) || negb (bw =? 64)); [discriminate|].
    destruct (Z.ltb_spec 1 dl); [discriminate|].
    cinv Hb. cinv Hb. cinv Hb. cinv Hb. apply cret_ok in Hb. subst b.
    unfold conv3x3 in *.
    apply Conv2d_init_ok in Hm, Hm1. apply BatchNorm2d_init_ok in Hm0, Hm2.
    subst. cbn [Block_forward expansion] in *.
    rewrite conv_forward_3x3 by lia. cbn [rbind].
    flow_step; [apply bn_forward; exact Hv|]. cbn [rbind ReLU_forward].
    rewrite conv_forward_3x3 by lia. cbn [rbind].
    rewrite !stride_one.
    flow_step; [apply bn_forward; exact Hv|].
    rewrite Z.mul_1_r in Hsc.
    flow_step; [exact Hsc|].
    rewrite Z.mul_1_r. rewrite iadd_same. apply flows_ok. reflexivity.
  - cinv Hb. cinv Hb. cinv Hb. cinv Hb. cinv Hb. cinv Hb.
    apply cret_ok in Hb. subst b.
    unfold conv3x3, conv1x1 in *.
    apply Conv2d_init_ok in Hm, Hm1, Hm3.
    apply BatchNorm2d_init_ok in Hm0, Hm2, Hm4.
    subst. cbn [Block_forward expansion] in *.
    rewrite conv_forward_1x1 by lia. cbn [rbind].
    rewrite !stride_one.
    flow_step; [apply bn_forward; exact Hv0|]. cbn [rbind ReLU_forward].
    rewrite conv_forward_3x3 by lia. cbn [rbind].
    flow_step; [apply bn_forward; exact Hv|]. cbn [rbind ReLU_forward].
    rewrite conv_forward_1x1 by lia. cbn [rbind].
    rewrite !stride_one.
    flow_step; [apply bn_forward; exact Hv|].
    flow_step; [exact Hsc|].
    rewrite iadd_same. apply flows_ok. reflexivity.
Qed.

End Layers.

(** ** The stages of the backbone *)

Section Stages.
Import nn torchvision ResNet.

Lemma append_blocks_ok n make acc layers :
  outcome (append_blocks n make acc) = Ok layers ->
  exists bs, layers = acc ++ bs /\ length bs = n /\
             Forall (fun b => outcome make = Ok b) bs.
Proof.
  revert acc. induction n as [|n IH]; intros acc H.
  - apply cret_ok in H. exists []. rewrite app_nil_r. auto.
  - cbn [append_blocks] in H. cinv H.
    destruct (IH _ H) as (bs & -> & Hlen & Hall).
    exists (v :: bs). rewrite <- app_assoc. cbn [app length].
    repeat split; auto.
Qed.

Lemma Sequential_forward_app l1 l2 s :
  Sequential_forward (l1 ++ l2) s =
  (y <- Sequential_forward l1 s ;; Sequential_forward l2 y).
Proof.
  revert s. induction l1 as [|b l1 IH]; intros s; [reflexivity|].
  cbn [app Sequential_forward].
  destruct (Block_forward b s) as [y|e]; cbn [rbind]; [apply IH|reflexivity].
Qed.

Lemma Sequential_forward_fixed strict bs s :
  Forall (fun b => flows strict (Block_forward b s) s) bs ->
  flows strict (Sequential_forward bs s) s.
Proof.
  induction 1 as [|b bs Hb _ IH]; [apply flows_ok; reflexivity|].
  cbn [Sequential_forward]. eapply flows_bind; [exact Hb|exact IH].
Qed.

(** What [_make_layer] leaves in [self] and what the stage it returns
    does to a shape. *)
Lemma make_layer_ok self block planes blocks s dilate self' layers n h w :
  outcome (_make_layer self block planes blocks s dilate) = Ok (self', layers) ->
  1 <= a_dilation self -> 1 <= s -> 1 <= h -> 1 <= w ->
  let s' := if dilate then 1 else s in
  a_inplanes self' = planes * expansion block /\
  a_groups self' = a_groups self /\
  a_base_width self' = a_base_width self /\
  1 <= a_dilation self' /\
  length layers = S (Z.to_nat (blocks - 1)) /\
  Forall (fun b => class_of b = block) layers /\
  forall strict,
    (strict = true -> 2 <= n * ((h - 1) / s' + 1) * ((w - 1) / s' + 1)) ->
    flows strict (Sequential_forward layers [n; a_inplanes self; h; w])
      [n; planes * expansion block; (h - 1) / s' + 1; (w - 1) / s' + 1].
Proof.
  intros H Hd Hs Hh Hw s'. unfold _make_layer in H.
  cinv H. rename v into ds. rename Hm into Hds.
  cinv H. rename v into first. rename Hm into Hfirst.
  cinv H. rename v into rest. rename Hm into Hrest.
  apply cret_ok in H. injection H as <- <-.
  cbn [a_inplanes a_groups a_base_width a_dilation].
  fold s' in Hds, Hfirst.
  assert (Hs' : 1 <= s') by (subst s'; destruct dilate; lia).
  assert (Hfit : shortcut_fits block (a_inplanes self) planes s' ds).
  { destruct (negb (s' =? 1) || negb (a_inplanes self =? planes * expansion block)) eqn:E.
    - cinv Hds. cinv Hds. apply cret_ok in Hds. subst ds. cbn [shortcut_fits].
      unfold conv1x1 in Hm. apply Conv2d_init_ok in Hm.
      apply BatchNorm2d_init_ok in Hm0. auto.
    - apply cret_ok in Hds. subst ds. cbn [shortcut_fits].
      apply orb_false_elim in E. destruct E as [E1 E2].
      apply negb_false_iff in E1, E2. apply Z.eqb_eq in E1, E2. auto. }
  destruct (append_blocks_ok _ _ _ _ Hrest) as (bs & -> & Hlen & Hall).
  repeat split; auto.
  - destruct dilate; nia.
  - rewrite length_app, Hlen. reflexivity.
  - apply Forall_app. split.
    + constructor; [|constructor].
      clear - Hfirst. destruct block; unfold Block__init__ in Hfirst.
      * destruct (negb _ || negb _); [discriminate|].
        destruct (1 <? _); [discriminate|].
        do 4 cinv Hfirst. apply cret_ok in Hfirst. subst. reflexivity.
      * do 6 cinv Hfirst. apply cret_ok in Hfirst. subst. reflexivity.
    + eapply Forall_impl; [|exact Hall]. cbn beta. intros b Hb.
      clear - Hb. destruct block; unfold Block__init__ in Hb.
      * destruct (negb _ || negb _); [discriminate|].
        destruct (1 <? _); [discriminate|].
        do 4 cinv Hb. apply cret_ok in Hb. subst. reflexivity.
      * do 6 cinv Hb. apply cret_ok in Hb. subst. reflexivity.
  - intros strict Hv.
    rewrite Sequential_forward_app. cbn [Sequential_forward].
    eapply flows_bind.
    { eapply flows_bind.
      - apply (Block_forward_ok strict _ _ _ _ _ _ _ _ _ n h w Hfirst Hfit);
          solve [lia|exact Hv].
      - apply flows_ok. reflexivity. }
    apply Sequential_forward_fixed.
    eapply Forall_impl; [|exact Hall]. cbn beta. intros b Hb.
    assert (Hp1 : 1 <= (h - 1) / s' + 1) by (apply spatial_pos; lia).
    assert (Hp2 : 1 <= (w - 1) / s' + 1) by (apply spatial_pos; lia).
    pose proof (Block_forward_ok strict _ _ _ _ _ _ _ _ _ n
                  ((h - 1) / s' + 1) ((w - 1) / s' + 1) Hb) as Hblock.
    rewrite !stride_one in Hblock. apply Hblock; try lia.
    + cbn [shortcut_fits]. auto.
    + destruct dilate; nia.
    + exact Hv.
Qed.

End Stages.

(** ** The backbone *)

Section Backbone.
Import nn torchvision ResNet.

Lemma flatten_pooled n ch : flatten1 [n; ch; 1; 1] = Ok [n; ch].
Proof. unfold flatten1. cbn [fold_left]. do 3 f_equal. lia. Qed.

Lemma avgpool_ok n ch h w :
  1 <= ch -> 1 <= h -> 1 <= w ->
  AdaptiveAvgPool2d_forward [n; ch; h; w] = Ok [n; ch; 1; 1].
Proof.
  intros. unfold AdaptiveAvgPool2d_forward.
  destruct (Z.leb_spec ch 0); [lia|].
  destruct (Z.leb_spec h 0); [lia|].
  destruct (Z.leb_spec w 0); [lia|]. reflexivity.
Qed.

Lemma stage_side_pos dilate h : 1 <= h -> 1 <= stage_side dilate h.
Proof. intros. apply spatial_pos; destruct dilate; lia. Qed.

Lemma stage_side_le dilate h : 1 <= h -> stage_side dilate h <= h.
Proof. intros. apply spatial_le; destruct dilate; lia. Qed.

Lemma stage_side_lower dilate h k :
  1 <= k -> 2 * k - 1 <= h -> k <= stage_side dilate h.
Proof.
  intros Hk Hh. unfold stage_side. destruct dilate.
  - rewrite Z.div_1_r. lia.
  - assert (k - 1 <= (h - 1) / 2); [|lia].
    apply Z.div_le_lower_bound; lia.
Qed.

Lemma final_side_stages flags h :
  exists d0 d1 d2,
    final_side flags h = stage_side d2 (stage_side d1 (stage_side d0 h)).
Proof.
  destruct flags as [[|d0 [|d1 [|d2 [|d3 l]]]]|];
    try (exists false, false, false; reflexivity).
  exists d0, d1, d2. reflexivity.
Qed.

Lemma final_side_pos flags h : 1 <= h -> 1 <= final_side flags h.
Proof.
  intros. destruct (final_side_stages flags h) as (d0 & d1 & d2 & ->).
  auto using stage_side_pos.
Qed.

(** Images of at least 9 pixels along an axis keep at least 2 along it. *)
Lemma final_side_two flags h : 9 <= h -> 2 <= final_side flags h.
Proof.
  intros. destruct (final_side_stages flags h) as (d0 & d1 & d2 & ->).
  apply stage_side_lower; [lia|].
  change (2 * 2 - 1) with 3. apply stage_side_lower; [lia|].
  change (2 * 3 - 1) with 5. apply stage_side_lower; lia.
Qed.

(** The batches batch normalisation accepts in every stage. *)
Lemma enough_values flags n h w :
  1 <= n -> 1 <= h -> 1 <= w -> 2 <= n \/ 9 <= h \/ 9 <= w ->
  2 <= n * final_side flags h * final_side flags w.
Proof.
  intros Hn Hh Hw Hbig.
  pose proof (final_side_pos flags h Hh).
  pose proof (final_side_pos flags w Hw).
  assert (9 <= h -> 2 <= final_side flags h) by apply final_side_two.
  assert (9 <= w -> 2 <= final_side flags w) by apply final_side_two.
  nia.
Qed.

Lemma init_ok block layers in_channel zir g wpg flags net :
  outcome (__init__ block layers in_channel zir g wpg flags) = Ok net ->
  rep_dim net = 512 * expansion block /\
  inplanes net = 512 * expansion block /\
  map (fun l => Z.of_nat (length l))
      [layer1 net; layer2 net; layer3 net; layer4 net] =
  map (fun b => Z.of_nat (stage_length b)) (firstn 4 layers) /\
  Forall (fun b => class_of b = block)
         (layer1 net ++ layer2 net ++ layer3 net ++ layer4 net) /\
  forall strict n h w, 1 <= h -> 1 <= w ->
    (strict = true -> 2 <= n * final_side flags h * final_side flags w) ->
    flows strict (_forward_impl net [n; in_channel; h; w])
      [n; 512 * expansion block].
Proof.
  intros H. unfold __init__ in H.
  destruct (negb _) eqn:Elen in H; [discriminate|].
  assert (Hflags : exists f0 f1 f2,
            match flags with None => [false; false; false] | Some l => l end
            = [f0; f1; f2] /\
            forall h, final_side flags h =
                      stage_side f2 (stage_side f1 (stage_side f0 h))).
  { destruct flags as [[|f0 [|f1 [|f2 [|f3 l]]]]|]; try discriminate Elen.
    - exists f0, f1, f2. split; reflexivity.
    - exfalso. apply negb_false_iff, Z.eqb_eq in Elen.
      cbn [length] in Elen. lia.
    - exists false, false, false. split; reflexivity. }
  destruct Hflags as (f0 & f1 & f2 & Eflags & Hfinal).
  rewrite Eflags in H. clear Elen.
  cinv H. rename v into c1. apply Conv2d_init_ok in Hm.
  cinv H. rename v into b1. apply BatchNorm2d_init_ok in Hm0.
  cinv H. rename v into n1. apply index_ok in Hm1.
  cinv H. destruct v as [s1 l1]. rename Hm2 into HL1.
  cinv H. rename v into n2. apply index_ok in Hm2.
  cinv H. rename v into d0. apply index_ok in Hm3.
  injection Hm3 as <-.
  cinv H. destruct v as [s2 l2]. rename Hm3 into HL2.
  cinv H. rename v into n3. apply index_ok in Hm3.
  cinv H. rename v into d1. apply index_ok in Hm4.
  injection Hm4 as <-.
  cinv H. destruct v as [s3 l3]. rename Hm4 into HL3.
  cinv H. rename v into n4. apply index_ok in Hm4.
  cinv H. rename v into d2. apply index_ok in Hm5.
  injection Hm5 as <-.
  cinv H. destruct v as [s4 l4]. rename Hm5 into HL4.
  apply cret_ok in H. subst net.
  cbn [rep_dim inplanes layer1 layer2 layer3 layer4 conv1 bn1].
  pose proof (fun n h w => make_layer_ok _ _ _ _ _ _ _ _ n h w HL1) as P1.
  cbn [a_dilation a_inplanes] in P1.
  destruct (P1 0 1 1) as (I1 & _ & _ & D1 & Len1 & C1 & _); try lia.
  pose proof (fun n h w => make_layer_ok _ _ _ _ _ _ _ _ n h w HL2) as P2.
  destruct (P2 0 1 1) as (I2 & _ & _ & D2 & Len2 & C2 & _); try lia.
  pose proof (fun n h w => make_layer_ok _ _ _ _ _ _ _ _ n h w HL3) as P3.
  destruct (P3 0 1 1) as (I3 & _ & _ & D3 & Len3 & C3 & _); try lia.
  pose proof (fun n h w => make_layer_ok _ _ _ _ _ _ _ _ n h w HL4) as P4.
  destruct (P4 0 1 1) as (I4 & _ & _ & D4 & Len4 & C4 & _); try lia.
  split; [reflexivity|]. split; [exact I4|]. split.
  { destruct layers as [|x1 [|x2 [|x3 [|x4 rest]]]]; try discriminate.
    cbn in Hm1, Hm2, Hm3, Hm4.
    injection Hm1 as <-. injection Hm2 as <-.
    injection Hm3 as <-. injection Hm4 as <-.
    cbn [firstn map]. rewrite Len1, Len2, Len3, Len4. reflexivity. }
  split.
  { repeat (apply Forall_app; split); assumption. }
  intros strict n h w Hh Hw Hv. unfold _forward_impl.
  cbn [conv1 bn1 layer1 layer2 layer3 layer4]. subst c1 b1.
  rewrite Hfinal in Hv. rewrite (Hfinal w) in Hv. unfold stage_side in Hv.
  set (h2 := (h - 1) / (if f0 then 1 else 2) + 1) in *.
  set (w2 := (w - 1) / (if f0 then 1 else 2) + 1) in *.
  assert (1 <= h2 <= h /\ 1 <= w2 <= w) as [Hh2 Hw2]
    by (repeat split; first [apply spatial_pos|apply spatial_le];
        destruct f0; lia).
  set (h3 := (h2 - 1) / (if f1 then 1 else 2) + 1) in *.
  set (w3 := (w2 - 1) / (if f1 then 1 else 2) + 1) in *.
  assert (1 <= h3 <= h2 /\ 1 <= w3 <= w2) as [Hh3 Hw3]
    by (repeat split; first [apply spatial_pos|apply spatial_le];
        destruct f1; lia).
  set (h4 := (h3 - 1) / (if f2 then 1 else 2) + 1) in *.
  set (w4 := (w3 - 1) / (if f2 then 1 else 2) + 1) in *.
  assert (1 <= h4 <= h3 /\ 1 <= w4 <= w3) as [Hh4 Hw4]
    by (repeat split; first [apply spatial_pos|apply spatial_le];
        destruct f2; lia).
  assert (Hv3 : strict = true -> 2 <= n * h3 * w3).
  { intros E. apply (values_per_channel n h3 w3 h4 w4 (Hv E)); lia. }
  assert (Hv2 : strict = true -> 2 <= n * h2 * w2).
  { intros E. apply (values_per_channel n h2 w2 h3 w3 (Hv3 E)); lia. }
  assert (Hv1 : strict = true -> 2 <= n * h * w).
  { intros E. apply (values_per_channel n h w h2 w2 (Hv2 E)); lia. }
  rewrite (conv_forward_3x3 in_channel 64 1 1 1 n h w) by lia.
  cbn [rbind]. rewrite !stride_one.
  flow_step; [apply bn_forward; exact Hv1|]. cbn [rbind ReLU_forward].
  destruct (P1 n h w) as (_ & _ & _ & _ & _ & _ & F1); try lia.
  specialize (F1 strict). rewrite !stride_one in F1.
  flow_step; [apply F1; exact Hv1|].
  destruct (P2 n h w) as (_ & _ & _ & _ & _ & _ & F2); try lia.
  specialize (F2 strict). rewrite I1 in F2. fold h2 w2 in F2.
  flow_step; [apply F2; exact Hv2|].
  destruct (P3 n h2 w2) as (_ & _ & _ & _ & _ & _ & F3); try lia.
  specialize (F3 strict). rewrite I2 in F3. fold h3 w3 in F3.
  flow_step; [apply F3; exact Hv3|].
  destruct (P4 n h3 w3) as (_ & _ & _ & _ & _ & _ & F4); try lia.
  specialize (F4 strict). rewrite I3 in F4. fold h4 w4 in F4.
  flow_step; [apply F4; exact Hv|].
  rewrite avgpool_ok by (destruct block; cbn [expansion]; lia).
  cbn [rbind]. rewrite flatten_pooled. apply flows_ok. reflexivity.
Qed.

End Backbone.

(** ** Sums of finite entries *)

Section FiniteSums.
Local Open Scope R_scope.

Lemma finite_real_of x : is_finite x -> x = Fin (real_of x).
Proof. destruct x; cbn; intros H; (reflexivity || contradiction). Qed.

Lemma Fin_inj a b : Fin a = Fin b -> a = b.
Proof. intros H. exact (f_equal real_of H). Qed.

Lemma fmax_large : 10 ^ 38 <= fmax.
Proof. unfold fmax. lra. Qed.

Lemma fmax_pos : 0 < fmax.
Proof. unfold fmax. lra. Qed.

(** Results within the range of float32 are kept. *)
Lemma fin_id r : - fmax <= r <= fmax -> fin r = Fin r.
Proof.
  intros [H1 H2]. unfold fin.
  destruct (Rlt_dec fmax r); [lra|].
  destruct (Rlt_dec r (- fmax)); [lra|]. reflexivity.
Qed.

Lemma fin_nonneg r : 0 <= r -> nonneg_or_inf (fin r).
Proof.
  intros H. pose proof fmax_pos. unfold fin.
  destruct (Rlt_dec fmax r); [exact I|].
  destruct (Rlt_dec r (- fmax)); [lra|exact H].
Qed.

Lemma rsum_ext n f g :
  (forall k, (0 <= k < Z.of_nat n)%Z -> f k = g k) -> rsum n f = rsum n g.
Proof.
  induction n as [|n IH]; intros H; [reflexivity|].
  cbn [rsum]. rewrite IH, H; [reflexivity | lia |].
  intros k Hk. apply H. lia.
Qed.

Lemma rsum_nonneg n g :
  (forall k, (0 <= k < Z.of_nat n)%Z -> 0 <= g k) -> 0 <= rsum n g.
Proof.
  induction n as [|n IH]; intros H; cbn [rsum]; [lra|].
  assert (0 <= rsum n g) by (apply IH; intros k Hk; apply H; lia).
  assert (0 <= g (Z.of_nat n)) by (apply H; lia). lra.
Qed.

Lemma rsum_zero n g :
  (forall k, (0 <= k < Z.of_nat n)%Z -> g k = 0) -> rsum n g = 0.
Proof.
  induction n as [|n IH]; intros H; cbn [rsum]; [reflexivity|].
  rewrite IH, H; [lra | lia |]. intros k Hk. apply H. lia.
Qed.

Lemma rsum_term_le n g j :
  (forall k, (0 <= k < Z.of_nat n)%Z -> 0 <= g k) ->
  (0 <= j < Z.of_nat n)%Z -> g j <= rsum n g.
Proof.
  induction n as [|n IH]; intros H Hj; [lia|]. cbn [rsum].
  assert (0 <= rsum n g) by (apply rsum_nonneg; intros k Hk; apply H; lia).
  assert (0 <= g (Z.of_nat n)) by (apply H; lia).
  destruct (Z.eq_dec j (Z.of_nat n)) as [->|Hne]; [lra|].
  assert (g j <= rsum n g) by (apply IH; [intros k Hk; apply H; lia | lia]).
  lra.
Qed.

(** A sum of non-negative terms that stays within the range of float32
    is the sum over the reals. *)
Lemma sum_upto_Fin n g :
  (forall k, (0 <= k < Z.of_nat n)%Z -> 0 <= g k) ->
  rsum n g <= fmax ->
  sum_upto n (fun k => Fin (g k)) = Fin (rsum n g).
Proof.
  induction n as [|n IH]; intros H Hmax; [reflexivity|].
  cbn [sum_upto rsum] in *.
  assert (0 <= rsum n g) by (apply rsum_nonneg; intros k Hk; apply H; lia).
  assert (0 <= g (Z.of_nat n)) by (apply H; lia).
  rewrite IH; [| intros k Hk; apply H; lia | lra].
  cbn [xadd]. apply fin_id. pose proof fmax_pos. lra.
Qed.

Lemma rsum_scale n g c :
  rsum n (fun k => g k * c) = rsum n g * c.
Proof.
  induction n as [|n IH]; cbn [rsum]; [lra|]. rewrite IH. lra.
Qed.

(** A sum with a term strictly positive and the others non-negative. *)
Lemma rsum_pos n g j :
  (forall k, (0 <= k < Z.of_nat n)%Z -> 0 <= g k) ->
  (0 <= j < Z.of_nat n)%Z -> 0 < g j -> 0 < rsum n g.
Proof.
  induction n as [|n IH]; intros H Hj Hg; [lia|].
  cbn [rsum].
  assert (0 <= rsum n g) by (apply rsum_nonneg; intros k Hk; apply H; lia).
  assert (0 <= g (Z.of_nat n)) by (apply H; lia).
  destruct (Z.eq_dec j (Z.of_nat n)) as [->|Hne]; [lra|].
  assert (0 < rsum n g) by (apply IH; [intros k Hk; apply H; lia | lia | exact Hg]).
  lra.
Qed.

Lemma eps_pos : 0 < eps.
Proof.
  unfold eps. apply Rdiv_lt_0_compat; [lra|]. apply pow_lt. lra.
Qed.

Lemma xsqrt_nonneg r : 0 <= r -> xsqrt (Fin r) = Fin (R_sqrt.sqrt r).
Proof.
  intros H. cbn [xsqrt]. destruct (Rlt_dec r 0); [lra|reflexivity].
Qed.

Lemma xdiv_fin a b :
  b <> 0 -> - fmax <= a / b <= fmax -> xdiv (Fin a) (Fin b) = Fin (a / b).
Proof.
  intros H Hr. cbn [xdiv]. destruct (Req_dec_T b 0); [contradiction|].
  apply fin_id, Hr.
Qed.

Lemma xsquare_fin a : a * a <= fmax -> xsquare (Fin a) = Fin (a * a).
Proof.
  intros H. unfold xsquare. cbn [xmul]. apply fin_id.
  pose proof fmax_pos. nra.
Qed.

Lemma xsub_same a : xsub (Fin a) (Fin a) = Fin 0.
Proof.
  unfold xsub. cbn [xopp xadd]. replace (a + - a) with 0 by lra.
  apply fin_id. pose proof fmax_pos. lra.
Qed.

Lemma xsquare_zero : xsquare (Fin 0) = Fin 0.
Proof. rewrite xsquare_fin, Rmult_0_l; [reflexivity|]. pose proof fmax_pos. lra. Qed.

(** The square of the difference of two finite entries. *)
Lemma square_diff_good a b : nonneg_or_inf (xsquare (xsub (Fin a) (Fin b))).
Proof.
  unfold xsub. cbn [xopp xadd]. unfold fin.
  destruct (Rlt_dec fmax (a + - b)); [exact I|].
  destruct (Rlt_dec (a + - b) (- fmax)); [exact I|].
  unfold xsquare. cbn [xmul]. apply fin_nonneg.
  generalize (a + - b). intros t. nra.
Qed.

End FiniteSums.

(** ** The normaliser *)

Section Normalizer.

Lemma broadcast_shapes_refl s : broadcast_shapes s s = Ok s.
Proof.
  unfold broadcast_shapes. rewrite broadcast_rev_refl. cbn [rbind].
  rewrite rev_involutive. reflexivity.
Qed.

Lemma broadcast_keepdim n d : broadcast_shapes [n; 1] [n; d] = Ok [n; d].
Proof.
  unfold broadcast_shapes. cbn [rev app broadcast_rev].
  destruct (Z.eqb_spec 1 d); subst; cbn [broadcast_rev];
    rewrite ?Z.eqb_refl; reflexivity.
Qed.

Lemma shape_eqb_refl s : shape_eqb s s = true.
Proof. unfold shape_eqb. destruct (list_eq_dec Z.eq_dec s s); congruence. Qed.

Lemma normalize_ok f n d :
  shape f = [n; d] ->
  exists u,
    normalize f 1 = Ok u /\
    shape u = [n; d] /\
    forall i k, 0 <= i < n -> 0 <= k < d ->
      entry u [i; k] =
      xdiv (entry f [i; k]) (xclamp_min eps (row_norm d f i)).
Proof.
  intros Hs. unfold normalize, norm, sum_dim.
  cbn [square pointwise shape]. rewrite Hs.
  change (wrap_dim 1 (Z.of_nat (length [n; d]))) with (Some 1%nat).
  cbn [rbind nth insert_nth remove_nth].
  unfold expand_as. cbn [clamp_min sqrt pointwise shape]. rewrite Hs.
  rewrite broadcast_keepdim. cbn [rbind]. rewrite shape_eqb_refl.
  cbn [rbind]. unfold div. erewrite binary_ok
    by (cbn [shape]; rewrite Hs; apply broadcast_shapes_refl).
  eexists. split; [reflexivity|]. split; [reflexivity|].
  intros i k Hi Hk.
  cbn [entry shape operand_index squash_index skipn length Nat.sub
       insert_nth remove_nth].
  rewrite Hs.
  cbn [operand_index squash_index skipn length Nat.sub].
  rewrite !(squash_component n i Hi), !(squash_component d k Hk).
  reflexivity.
Qed.

End Normalizer.

(** ** Norms of normalised rows *)

Section RowNorms.
Local Open Scope R_scope.

Variables (f u : tensor) (d i : Z).
Hypothesis Hfinite :
  forall k, (0 <= k < d)%Z -> is_finite (entry f [i; k]).
Hypothesis Hentries :
  forall k, (0 <= k < d)%Z ->
    entry u [i; k] = xdiv (entry f [i; k]) (xclamp_min eps (row_norm d f i)).
Hypothesis Hrange : row_norm_real d f i <= 10 ^ 19.

Abbreviation a := (row_real f i).
Abbreviation v := (row_norm_real d f i).

Lemma squares_nonneg : 0 <= rsum (Z.to_nat d) (fun k => a k * a k).
Proof. apply rsum_nonneg. intros k _. nra. Qed.

Lemma norm_nonneg : 0 <= v.
Proof. apply sqrt_pos. Qed.

Lemma norm_square : v * v = rsum (Z.to_nat d) (fun k => a k * a k).
Proof. apply sqrt_sqrt, squares_nonneg. Qed.

Lemma squares_in_range : rsum (Z.to_nat d) (fun k => a k * a k) <= fmax.
Proof.
  rewrite <- norm_square. pose proof norm_nonneg. pose proof fmax_large.
  assert (v * v <= 10 ^ 19 * 10 ^ 19) by (apply Rmult_le_compat; lra).
  assert (10 ^ 19 * 10 ^ 19 = 10 ^ 38) by lra. lra.
Qed.

Lemma square_le_total k :
  (0 <= k < d)%Z -> a k * a k <= rsum (Z.to_nat d) (fun k => a k * a k).
Proof.
  intros Hk. apply (rsum_term_le _ (fun k => a k * a k)); [|lia].
  intros k' _. nra.
Qed.

Lemma entry_le_norm k : (0 <= k < d)%Z -> Rabs (a k) <= v.
Proof.
  intros Hk. rewrite <- sqrt_Rsqr_abs. unfold Rsqr.
  apply sqrt_le_1_alt, square_le_total, Hk.
Qed.

Lemma row_norm_finite : row_norm d f i = Fin v.
Proof.
  unfold row_norm.
  rewrite (sum_upto_ext _ _ (fun k => Fin (a k * a k))).
  - rewrite sum_upto_Fin.
    + apply xsqrt_nonneg. apply squares_nonneg.
    + intros k _. nra.
    + apply squares_in_range.
  - intros k Hk. rewrite (finite_real_of (entry f [i; k])) by (apply Hfinite; lia).
    apply xsquare_fin.
    pose proof (square_le_total k ltac:(lia)). pose proof squares_in_range.
    unfold row_real in *. lra.
Qed.

Lemma clamped_norm_pos : 0 < Rmax v eps.
Proof.
  pose proof eps_pos. pose proof (Rmax_r v eps). lra.
Qed.

(** No component of the quotient is larger than 1. *)
Lemma quotient_range k :
  (0 <= k < d)%Z -> -1 <= a k / Rmax v eps <= 1.
Proof.
  intros Hk. pose proof clamped_norm_pos as Hm.
  pose proof (entry_le_norm k Hk) as Ha. pose proof (Rmax_l v eps) as Hv.
  assert (Hb : - Rmax v eps <= a k <= Rmax v eps).
  { destruct (Rabs_def2 (a k) (Rmax v eps + 1)) as [H1 H2]; [lra|].
    pose proof (Rle_abs (a k)). pose proof (Rle_abs (- a k)) as H3.
    rewrite Rabs_Ropp in H3. lra. }
  revert Hm Hb. generalize (Rmax v eps) as m. generalize (a k) as t.
  intros t m Hm Hb.
  assert (0 < / m) by (apply Rinv_0_lt_compat, Hm).
  assert (m * / m = 1) by (apply Rinv_r; lra).
  unfold Rdiv. split; nra.
Qed.

Lemma normalised_entry k :
  (0 <= k < d)%Z -> entry u [i; k] = Fin (a k / Rmax v eps).
Proof.
  intros Hk. rewrite (Hentries k Hk), row_norm_finite.
  cbn [xclamp_min].
  rewrite (finite_real_of (entry f [i; k])) by (apply Hfinite; exact Hk).
  pose proof clamped_norm_pos. pose proof (quotient_range k Hk).
  pose proof fmax_large.
  assert (1 <= 10 ^ 38) by lra.
  apply xdiv_fin; [lra|]. fold (row_real f i k). lra.
Qed.

Lemma normalised_row_norm : row_norm d u i = Fin (v / Rmax v eps).
Proof.
  pose proof clamped_norm_pos as Hm.
  pose proof squares_nonneg as Hs.
  pose proof norm_nonneg as Hv.
  pose proof norm_square as Hvv.
  pose proof fmax_large as Hmax.
  assert (Hone : 1 <= 10 ^ 38) by lra.
  assert (Hq : 0 <= v / Rmax v eps <= 1).
  { pose proof (Rmax_l v eps).
    revert Hm H Hv. generalize (Rmax v eps) as m. generalize v as t.
    intros t m Hm Hle Hv'.
    assert (0 < / m) by (apply Rinv_0_lt_compat, Hm).
    assert (m * / m = 1) by (apply Rinv_r; lra).
    unfold Rdiv. split; nra. }
  assert (Hqq : (v / Rmax v eps) * (v / Rmax v eps) <= 1) by nra.
  unfold row_norm.
  rewrite (sum_upto_ext _ _
             (fun k => Fin ((a k * a k) * (/ Rmax v eps * / Rmax v eps)))).
  - assert (Htotal : rsum (Z.to_nat d)
                       (fun k => a k * a k * (/ Rmax v eps * / Rmax v eps))
                     = (v / Rmax v eps) * (v / Rmax v eps)).
    { rewrite rsum_scale, <- Hvv. field. lra. }
    rewrite sum_upto_Fin.
    + rewrite Htotal. rewrite xsqrt_nonneg by nra.
      f_equal. apply sqrt_square. lra.
    + intros k _.
      assert (0 <= / Rmax v eps * / Rmax v eps)
        by (generalize (/ Rmax v eps); intros t; nra).
      apply Rmult_le_pos; [|assumption].
      generalize (a k). intros t. nra.
    + rewrite Htotal. lra.
  - intros k Hk. rewrite normalised_entry by lia.
    pose proof (quotient_range k ltac:(lia)) as Hr.
    rewrite xsquare_fin.
    + f_equal. field. lra.
    + revert Hr. generalize (a k / Rmax v eps). intros t Hr. nra.
Qed.

Lemma normalised_unit : eps <= v -> row_norm d u i = Fin 1.
Proof.
  intros Hv. rewrite normalised_row_norm. rewrite Rmax_left by exact Hv.
  f_equal. field. pose proof eps_pos. lra.
Qed.

Lemma normalised_small : v <= eps -> row_norm d u i = Fin (v / eps).
Proof.
  intros Hv. rewrite normalised_row_norm. rewrite Rmax_right by exact Hv.
  reflexivity.
Qed.

Lemma normalised_zero k :
  (forall k', (0 <= k' < d)%Z -> entry f [i; k'] = Fin 0) ->
  (0 <= k < d)%Z -> entry u [i; k] = Fin 0.
Proof.
  intros Hz Hk. rewrite normalised_entry by exact Hk.
  unfold row_real. rewrite (Hz k Hk). cbn [real_of].
  f_equal. unfold Rdiv. apply Rmult_0_l.
Qed.

End RowNorms.

(** A zero row has norm zero. *)
Lemma zero_row_norm_real f d i :
  (forall k, 0 <= k < d -> entry f [i; k] = Fin 0) ->
  row_norm_real d f i = 0%R.
Proof.
  intros Hz. unfold row_norm_real. rewrite rsum_zero; [apply sqrt_0|].
  intros k Hk. unfold row_real. rewrite Hz by lia. cbn [real_of]. lra.
Qed.

(** ** Normalisation of a row of kernel values *)

Section KernelRows.
Local Open Scope R_scope.

Lemma sum_upto_nonneg_or_inf n f :
  (forall k, (0 <= k < Z.of_nat n)%Z -> nonneg_or_inf (f k)) ->
  nonneg_or_inf (sum_upto n f).
Proof.
  induction n as [|n IH]; intros H; cbn [sum_upto nonneg_or_inf]; [lra|].
  assert (H1 : nonneg_or_inf (sum_upto n f))
    by (apply IH; intros k Hk; apply H; lia).
  assert (H2 : nonneg_or_inf (f (Z.of_nat n))) by (apply H; lia).
  destruct (sum_upto n f), (f (Z.of_nat n));
    cbn [nonneg_or_inf xadd] in *; try contradiction; try exact I.
  apply fin_nonneg. lra.
Qed.

Lemma sum_upto_inf n f j :
  (forall k, (0 <= k < Z.of_nat n)%Z -> nonneg_or_inf (f k)) ->
  (0 <= j < Z.of_nat n)%Z -> f j = PInf ->
  sum_upto n f = PInf.
Proof.
  induction n as [|n IH]; intros H Hj Hf; [lia|].
  cbn [sum_upto].
  assert (H1 : nonneg_or_inf (sum_upto n f))
    by (apply sum_upto_nonneg_or_inf; intros k Hk; apply H; lia).
  assert (H2 : nonneg_or_inf (f (Z.of_nat n))) by (apply H; lia).
  destruct (Z.eq_dec j (Z.of_nat n)) as [->|Hne].
  - rewrite Hf. destruct (sum_upto n f); cbn in *; try contradiction; reflexivity.
  - rewrite IH; [| intros k Hk; apply H; lia | lia | exact Hf].
    destruct (f (Z.of_nat n)); cbn in *; try contradiction; reflexivity.
Qed.

Lemma xmul_one_inf : xmul (Fin 1) PInf = PInf.
Proof.
  cbn [xmul]. destruct (Req_dec_T 1 0); [lra|].
  unfold inf_of_sign. destruct (Rlt_dec 1 0); [lra|reflexivity].
Qed.

(** The exponent of the head for a fuzzifier above 1. *)
Lemma exponent_negative m : 1 < m -> -2 / (m - 1) < 0.
Proof.
  intros H. unfold Rdiv.
  assert (0 < / (m - 1)) by (apply Rinv_0_lt_compat; lra). nra.
Qed.

Lemma xpow_zero e : e < 0 -> xpow (Fin 0) e = PInf.
Proof.
  intros H. unfold xpow.
  destruct (Req_dec_T e 0); [lra|].
  destruct (Rlt_dec 0 0); [lra|].
  destruct (Req_dec_T 0 0); [|lra].
  destruct (Rlt_dec e 0); [reflexivity|lra].
Qed.

Lemma xpow_pos r e : 0 < r -> e <> 0 -> xpow (Fin r) e = fin (Rpower r e).
Proof.
  intros H He. unfold xpow.
  destruct (Req_dec_T e 0); [lra|].
  destruct (Rlt_dec 0 r); [reflexivity|lra].
Qed.

Lemma Rpower_pos r e : 0 < Rpower r e.
Proof. unfold Rpower. apply exp_pos. Qed.

Lemma xpow_inf e : e < 0 -> xpow PInf e = Fin 0.
Proof.
  intros H. unfold xpow.
  destruct (Req_dec_T e 0); [lra|].
  destruct (Rlt_dec e 0); [reflexivity|lra].
Qed.

(** A negative power of a distance is a non-negative real or plus
    infinity. *)
Lemma xpow_nonneg_or_inf x e :
  nonneg_or_inf x -> e < 0 -> nonneg_or_inf (xpow x e).
Proof.
  intros Hx He. destruct x as [r| | |]; cbn [nonneg_or_inf] in Hx;
    try contradiction.
  - destruct (Req_dec_T r 0) as [->|Hne].
    + rewrite xpow_zero by exact He. exact I.
    + rewrite xpow_pos by lra. apply fin_nonneg, Rlt_le, Rpower_pos.
  - rewrite xpow_inf by exact He. cbn [nonneg_or_inf]. lra.
Qed.

Variable r : Z.
Variable kern : Z -> xreal.
Abbreviation member := (member r kern).

Lemma member_degenerate j :
  (forall k, (0 <= k < r)%Z -> nonneg_or_inf (kern k)) ->
  (0 <= j < r)%Z -> kern j = PInf ->
  member j = NaN.
Proof.
  intros H Hj Hk. unfold member.
  rewrite (sum_upto_inf _ _ j); [| intros k Hk'; apply H; lia | lia | exact Hk].
  rewrite xmul_one_inf, Hk. reflexivity.
Qed.

Hypothesis Hpos : forall k, (0 <= k < r)%Z -> exists p, kern k = Fin p /\ 0 < p.
Hypothesis Htotal : rsum (Z.to_nat r) (reals_of kern) <= fmax.

Abbreviation p := (reals_of kern).

Lemma kern_real k : (0 <= k < r)%Z -> kern k = Fin (p k) /\ 0 < p k.
Proof.
  intros Hk. destruct (Hpos k Hk) as (q & Hq & Hq0).
  unfold reals_of. rewrite Hq. cbn [real_of]. auto.
Qed.

Lemma kern_sum : sum_upto (Z.to_nat r) kern = Fin (rsum (Z.to_nat r) p).
Proof.
  rewrite <- sum_upto_Fin.
  - apply sum_upto_ext. intros k Hk. apply kern_real. lia.
  - intros k Hk. apply Rlt_le, kern_real. lia.
  - exact Htotal.
Qed.

Lemma kern_total_pos : (0 < r)%Z -> 0 < rsum (Z.to_nat r) p.
Proof.
  intros Hr. apply (rsum_pos _ _ 0%Z).
  - intros k Hk. apply Rlt_le. apply kern_real. lia.
  - lia.
  - apply kern_real. lia.
Qed.

Lemma member_range j :
  (0 <= j < r)%Z ->
  0 < p j / (1 * rsum (Z.to_nat r) p) <= 1.
Proof.
  intros Hj.
  pose proof (kern_total_pos ltac:(lia)) as HS.
  destruct (kern_real j Hj) as [_ Hp].
  assert (Hle : p j <= rsum (Z.to_nat r) p).
  { apply rsum_term_le; [|lia]. intros k Hk. apply Rlt_le, kern_real. lia. }
  rewrite Rmult_1_l. split.
  - apply Rdiv_lt_0_compat; assumption.
  - apply Rmult_le_reg_r with (rsum (Z.to_nat r) p); [exact HS|].
    unfold Rdiv. rewrite Rmult_assoc, Rinv_l by lra. lra.
Qed.

Lemma member_value j :
  (0 <= j < r)%Z ->
  member j = Fin (p j / (1 * rsum (Z.to_nat r) p)).
Proof.
  intros Hj. unfold member. rewrite kern_sum.
  destruct (kern_real j Hj) as [-> _]. cbn [xmul].
  pose proof (kern_total_pos ltac:(lia)) as HS.
  pose proof fmax_pos. pose proof fmax_large.
  rewrite fin_id by lra.
  apply xdiv_fin; [lra|].
  pose proof (member_range j Hj). assert (1 <= 10 ^ 38) by lra. lra.
Qed.

Lemma member_sum :
  (0 < r)%Z -> sum_upto (Z.to_nat r) member = Fin 1.
Proof.
  intros Hr. pose proof (kern_total_pos Hr) as HS.
  pose proof fmax_large. assert (1 <= 10 ^ 38) by lra.
  assert (Hone : rsum (Z.to_nat r) (fun j => p j * / (1 * rsum (Z.to_nat r) p)) = 1).
  { rewrite rsum_scale. field. lra. }
  rewrite (sum_upto_ext _ _
             (fun j => Fin (p j * / (1 * rsum (Z.to_nat r) p)))).
  - rewrite sum_upto_Fin.
    + rewrite Hone. reflexivity.
    + intros j Hj. apply Rlt_le. apply (member_range j). lia.
    + rewrite Hone. lra.
  - intros j Hj. apply member_value. lia.
Qed.

End KernelRows.

(** ** The selector *)

Section Selector.
Import nn torchvision ResNet.

Lemma default_backbones :
  exists l18 r18 l34 r34 l50 r50,
    __init__ BasicBlock [2; 2; 2; 2] 3 false 1 64 None = (l18, Ok r18) /\
    __init__ BasicBlock [3; 4; 6; 3] 3 false 1 64 None = (l34, Ok r34) /\
    __init__ Bottleneck [3; 4; 6; 3] 3 false 1 64 None = (l50, Ok r50).
Proof. do 6 eexists. repeat split; vm_compute; reflexivity. Qed.

Lemma get_resnet_cifar_cases name :
  exists l18 r18 l34 r34 l50 r50,
    __init__ BasicBlock [2; 2; 2; 2] 3 false 1 64 None = (l18, Ok r18) /\
    __init__ BasicBlock [3; 4; 6; 3] 3 false 1 64 None = (l34, Ok r34) /\
    __init__ Bottleneck [3; 4; 6; 3] 3 false 1 64 None = (l50, Ok r50) /\
    allocated (get_resnet_cifar name) = l18 ++ l34 ++ l50 /\
    outcome (get_resnet_cifar name) =
      if String.eqb "ResNet18" name then Ok r18
      else if String.eqb "ResNet34" name then Ok r34
      else if String.eqb "ResNet50" name then Ok r50
      else Err (KeyError (name ++ " is not a valid ResNet version")).
Proof.
  destruct default_backbones as (l18 & r18 & l34 & r34 & l50 & r50 & H18 & H34 & H50).
  exists l18, r18, l34, r34, l50, r50.
  repeat (split; [assumption|]).
  unfold get_resnet_cifar. rewrite H18, H34, H50.
  unfold lookup. cbn [cbind find fst snd].
  destruct (String.eqb "ResNet18" name);
    [cbn; rewrite !app_nil_r; split; reflexivity|].
  destruct (String.eqb "ResNet34" name);
    [cbn; rewrite !app_nil_r; split; reflexivity|].
  destruct (String.eqb "ResNet50" name);
    cbn; rewrite !app_nil_r; split; reflexivity.
Qed.

Lemma selected_backbone name block layers net :
  (name, block, layers) = ("ResNet18"%string, BasicBlock, [2; 2; 2; 2]) \/
  (name, block, layers) = ("ResNet34"%string, BasicBlock, [3; 4; 6; 3]) \/
  (name, block, layers) = ("ResNet50"%string, Bottleneck, [3; 4; 6; 3]) ->
  outcome (get_resnet_cifar name) = Ok net ->
  outcome (__init__ block layers 3 false 1 64 None) = Ok net.
Proof.
  intros Hcase Hnet.
  destruct (get_resnet_cifar_cases name)
    as (l18 & r18 & l34 & r34 & l50 & r50 & H18 & H34 & H50 & _ & Hout).
  rewrite Hout in Hnet.
  destruct Hcase as [E|[E|E]]; injection E as -> -> ->; cbn in Hnet;
    injection Hnet as <-.
  - rewrite H18. reflexivity.
  - rewrite H34. reflexivity.
  - rewrite H50. reflexivity.
Qed.

Lemma selected_exists name :
  name = "ResNet18"%string \/ name = "ResNet34"%string \/ name = "ResNet50"%string ->
  exists net, outcome (get_resnet_cifar name) = Ok net.
Proof.
  intros Hcase.
  destruct (get_resnet_cifar_cases name)
    as (l18 & r18 & l34 & r34 & l50 & r50 & _ & _ & _ & _ & Hout).
  rewrite Hout. destruct Hcase as [ -> | [ -> | -> ] ]; cbn; eauto.
Qed.

(** The data-level forward of a backbone built by the constructor. *)
Lemma backbone_forward strict block layers in_channel zir g wpg flags net
    features x n h w :
  outcome (__init__ block layers in_channel zir g wpg flags) = Ok net ->
  shape x = [n; in_channel; h; w] -> 1 <= h -> 1 <= w ->
  (strict = true -> 2 <= n * final_side flags h * final_side flags w) ->
  flows strict (forward features net x)
    {| shape := [n; 512 * expansion block]; entry := features x |}.
Proof.
  intros Hnet Hx Hh Hw Hv.
  destruct (init_ok _ _ _ _ _ _ _ _ Hnet) as (_ & _ & _ & _ & Hf).
  unfold forward. rewrite Hx.
  eapply flows_bind; [apply (Hf strict n h w Hh Hw Hv)|].
  apply flows_ok. reflexivity.
Qed.

End Selector.

(** ** The encoder over a backbone *)

Lemma encoder_forward_ok (self : encoder.self_t) x f n d :
  encoder.resnet self x = Ok f ->
  shape f = [n; d] ->
  exists u,
    encoder.forward self x = Ok u /\
    shape u = [n; d] /\
    forall i k, 0 <= i < n -> 0 <= k < d ->
      entry u [i; k] =
      xdiv (entry f [i; k]) (xclamp_min eps (row_norm d f i)).
Proof.
  intros Hr Hs. unfold encoder.forward. rewrite Hr. cbn [rbind].
  destruct (normalize_ok f n d Hs) as (u & Hu & Hsu & He).
  exists u. rewrite Hu. cbn [rbind]. auto.
Qed.

(** ** The head on row distances *)

Section HeadRows.
Import clustering_model.
Local Open Scope R_scope.

Lemma kernel_rows latent layer d e i j :
  kernel latent layer d d d e i j = xpow (row_distance d latent layer i j) e.
Proof.
  unfold kernel, row_distance. do 2 f_equal.
  apply sum_upto_ext. intros k Hk.
  assert (Hk' : (0 <= k < d)%Z) by lia.
  rewrite !(squash_component d k Hk'). reflexivity.
Qed.

Lemma member_ext r kern kern' j :
  (forall k, (0 <= k < r)%Z -> kern k = kern' k) ->
  (0 <= j < r)%Z -> member r kern j = member r kern' j.
Proof.
  intros H Hj. unfold member. rewrite (H j Hj). do 2 f_equal.
  apply sum_upto_ext. intros k Hk. apply H. lia.
Qed.

(** The distance between finite rows is a non-negative real, or plus
    infinity when a difference or the sum of the squares leaves the
    range. *)
Lemma row_distance_good d a b i j :
  (forall k, (0 <= k < d)%Z -> is_finite (entry a [i; k])) ->
  (forall k, (0 <= k < d)%Z -> is_finite (entry b [j; k])) ->
  nonneg_or_inf (row_distance d a b i j).
Proof.
  intros Ha Hb. unfold row_distance.
  assert (Hsum : nonneg_or_inf
            (sum_upto (Z.to_nat d)
               (fun k => xsquare (xsub (entry a [i; k]) (entry b [j; k]))))).
  { apply sum_upto_nonneg_or_inf. intros k Hk.
    rewrite (finite_real_of (entry a [i; k])) by (apply Ha; lia).
    rewrite (finite_real_of (entry b [j; k])) by (apply Hb; lia).
    apply square_diff_good. }
  destruct (sum_upto _ _) as [s| | |]; cbn [nonneg_or_inf] in Hsum;
    try contradiction.
  - rewrite xsqrt_nonneg by exact Hsum. cbn [nonneg_or_inf]. apply sqrt_pos.
  - exact I.
Qed.

(** Finite rows that agree are at distance zero. *)
Lemma equal_rows_distance d a b i j :
  (forall k, (0 <= k < d)%Z -> is_finite (entry a [i; k])) ->
  (forall k, (0 <= k < d)%Z -> entry a [i; k] = entry b [j; k]) ->
  row_distance d a b i j = Fin 0.
Proof.
  intros Ha Hab. unfold row_distance.
  rewrite (sum_upto_ext _ _ (fun _ => Fin 0)).
  - rewrite sum_upto_Fin, rsum_zero; try (intros; lra).
    + rewrite xsqrt_nonneg by lra. f_equal. apply sqrt_0.
    + rewrite rsum_zero by (intros; lra). pose proof fmax_pos. lra.
  - intros k Hk. rewrite <- Hab by lia.
    rewrite (finite_real_of (entry a [i; k])) by (apply Ha; lia).
    rewrite xsub_same. apply xsquare_zero.
Qed.

Variable self : self_t.
Variables x latent : tensor.
Variables n d r : Z.
Hypothesis Hfe : feat_extractor self x = Ok latent.
Hypothesis Hlatent : shape latent = [n; d].
Hypothesis Hlayer : shape (clustering_layer self) = [r; d].
Hypothesis Hclass : class_number self = r.
Hypothesis Hr : (0 <= r)%Z.
Hypothesis Hdev : names_cpu (device self) = true.

Abbreviation exponent := (-2 / (fuzzifier self - 1)).
Abbreviation distance := (row_distance d latent (clustering_layer self)).

Lemma forward_rows :
  fuzzifier self <> 1 ->
  exists u,
    forward self x = Ok u /\
    shape u = [n; r] /\
    forall i j, (0 <= i < n)%Z -> (0 <= j < r)%Z ->
      entry u [i; j] = member r (fun j' => xpow (distance i j') exponent) j.
Proof.
  intros Hf.
  destruct (forward_ok self x latent n d r d Hfe Hlatent Hlayer d)
    as (u & Hu & Hs & He).
  - rewrite broadcast_embedding, Z.eqb_refl. reflexivity.
  - exact Hf.
  - rewrite Hclass. exact Hr.
  - exact Hdev.
  - rewrite Hclass. apply broadcast_shapes_refl.
  - exists u. repeat split; try assumption.
    intros i j Hi Hj. rewrite (He i j Hi Hj).
    apply member_ext; [|exact Hj]. intros k _. apply kernel_rows.
Qed.

Variable i : Z.
Hypothesis Hi : (0 <= i < n)%Z.
Hypothesis Hfin_latent :
  forall k, (0 <= k < d)%Z -> is_finite (entry latent [i; k]).
Hypothesis Hfin_layer :
  forall j k, (0 <= j < r)%Z -> (0 <= k < d)%Z ->
    is_finite (entry (clustering_layer self) [j; k]).
Hypothesis Hfuzz : 1 < fuzzifier self.

Lemma kernel_values_good j :
  (0 <= j < r)%Z -> nonneg_or_inf (xpow (distance i j) exponent).
Proof.
  intros Hj. apply xpow_nonneg_or_inf.
  - apply row_distance_good; auto.
  - apply exponent_negative, Hfuzz.
Qed.

(** No guard: a zero distance gives not-a-number. *)
Lemma forward_degenerate j :
  (0 <= j < r)%Z ->
  distance i j = Fin 0 ->
  exists u,
    forward self x = Ok u /\
    shape u = [n; r] /\
    entry u [i; j] = NaN.
Proof.
  intros Hj Hzero.
  destruct forward_rows as (u & Hu & Hs & He); [lra|].
  exists u. split; [exact Hu|]. split; [exact Hs|].
  rewrite (He i j Hi Hj).
  apply (member_degenerate r (fun j' => xpow (distance i j') exponent) j).
  - intros k Hk. apply kernel_values_good, Hk.
  - exact Hj.
  - cbn beta. rewrite Hzero. apply xpow_zero, exponent_negative, Hfuzz.
Qed.

End HeadRows.

(** ** The head on distances in the regular range *)

Section RegularRows.
Import clustering_model.
Local Open Scope R_scope.

Variable self : self_t.
Variables x latent : tensor.
Variables n d r c m : Z.
Variable dist : Z -> Z -> xreal.
Hypothesis Hfe : feat_extractor self x = Ok latent.
Hypothesis Hlatent : shape latent = [n; d].
Hypothesis Hlayer : shape (clustering_layer self) = [r; c].
Hypothesis Hb : broadcast_shapes [n; 1; d]%Z [r; c] = Ok [n; r; m].
Hypothesis Hf : fuzzifier self <> 1.
Hypothesis Hc : (0 <= class_number self)%Z.
Hypothesis Hdev : names_cpu (device self) = true.
Hypothesis Hdiv : broadcast_shapes [r; n] [class_number self; n] = Ok [r; n].
Hypothesis Hr : (0 < r <= 512)%Z.

Abbreviation exponent := (-2 / (fuzzifier self - 1)).

Hypothesis Hkernel :
  forall i j, (0 <= i < n)%Z -> (0 <= j < r)%Z ->
    kernel latent (clustering_layer self) d c m exponent i j =
    xpow (dist i j) exponent.

Lemma exponent_nonzero : exponent <> 0.
Proof.
  unfold Rdiv. intros E. apply Rmult_integral in E. destruct E as [E|E]; [lra|].
  assert (fuzzifier self - 1 <> 0) by lra.
  apply (Rinv_neq_0_compat _ H). exact E.
Qed.

Lemma regular_value i j :
  regular exponent (dist i j) ->
  xpow (dist i j) exponent = Fin (weight exponent (dist i j)) /\
  / 10 ^ 15 <= weight exponent (dist i j) <= 10 ^ 15.
Proof.
  intros (t & Ht & Hd & Hp). unfold weight. rewrite Ht. cbn [real_of].
  assert (0 < / 10 ^ 15) by (apply Rinv_0_lt_compat; lra).
  pose proof fmax_large.
  split; [|exact Hp].
  rewrite xpow_pos; [apply fin_id; lra | lra | apply exponent_nonzero].
Qed.

Lemma rsum_bound k g b :
  (forall j, (0 <= j < Z.of_nat k)%Z -> g j <= b) -> rsum k g <= INR k * b.
Proof.
  induction k as [|k IH]; intros H.
  - cbn [rsum INR]. lra.
  - rewrite S_INR. cbn [rsum].
    assert (rsum k g <= INR k * b) by (apply IH; intros j Hj; apply H; lia).
    assert (g (Z.of_nat k) <= b) by (apply H; lia). lra.
Qed.

Lemma forward_regular :
  exists u,
    forward self x = Ok u /\
    shape u = [n; r] /\
    forall i, (0 <= i < n)%Z ->
      (forall j, (0 <= j < r)%Z -> regular exponent (dist i j)) ->
      row_sum r u i = Fin 1 /\
      forall j, (0 <= j < r)%Z ->
        entry u [i; j] =
        Fin (weight exponent (dist i j) /
             rsum (Z.to_nat r) (fun j' => weight exponent (dist i j'))) /\
        0 < weight exponent (dist i j) /
            rsum (Z.to_nat r) (fun j' => weight exponent (dist i j')) <= 1.
Proof.
  destruct (forward_ok self x latent n d r c Hfe Hlatent Hlayer m Hb Hf Hc Hdev Hdiv)
    as (u & Hu & Hs & He).
  exists u. split; [exact Hu|]. split; [exact Hs|].
  intros i Hi Hreg.
  set (kern := kernel latent (clustering_layer self) d c m exponent i).
  assert (Hval : forall j, (0 <= j < r)%Z ->
            kern j = Fin (weight exponent (dist i j)) /\
            / 10 ^ 15 <= weight exponent (dist i j) <= 10 ^ 15).
  { intros j Hj. unfold kern. rewrite (Hkernel i j Hi Hj).
    apply regular_value, Hreg, Hj. }
  assert (Hlow : 0 < / 10 ^ 15) by (apply Rinv_0_lt_compat; lra).
  assert (Hpos : forall k, (0 <= k < r)%Z -> exists p, kern k = Fin p /\ 0 < p).
  { intros k Hk. destruct (Hval k Hk) as [E Hp]. eexists. split; [exact E|lra]. }
  assert (Hsame : rsum (Z.to_nat r) (reals_of kern) =
                  rsum (Z.to_nat r) (fun j' => weight exponent (dist i j'))).
  { apply rsum_ext. intros k Hk. unfold reals_of.
    destruct (Hval k ltac:(lia)) as [-> _]. reflexivity. }
  assert (Htotal : rsum (Z.to_nat r) (reals_of kern) <= fmax).
  { rewrite Hsame.
    apply Rle_trans with (INR (Z.to_nat r) * 10 ^ 15).
    - apply rsum_bound. intros j Hj. apply (Hval j). lia.
    - rewrite INR_IZR_INZ, Z2Nat.id by lia.
      assert (IZR r <= 512) by (apply IZR_le; lia).
      pose proof fmax_large. nra. }
  split.
  - unfold row_sum.
    rewrite (sum_upto_ext _ _ (member r kern)).
    + apply (member_sum r kern Hpos Htotal). lia.
    + intros j Hj. apply He; [exact Hi | lia].
  - intros j Hj.
    pose proof (member_value r kern Hpos Htotal j Hj) as Hm.
    pose proof (member_range r kern Hpos j Hj) as Hrange.
    rewrite Hsame, Rmult_1_l in Hm, Hrange.
    unfold reals_of in Hm, Hrange.
    destruct (Hval j Hj) as [Ej _]. rewrite Ej in Hm, Hrange.
    cbn [real_of] in Hm, Hrange.
    split; [|exact Hrange]. rewrite (He i j Hi Hj). exact Hm.
Qed.

End RegularRows.

(** The kernel of a layer with a single column compares every component
    of the embedding with that column. *)
Lemma kernel_constant latent layer d e i j :
  kernel latent layer d 1%Z d e i j = xpow (constant_distance d latent layer i j) e.
Proof.
  unfold kernel, constant_distance. do 2 f_equal.
  apply sum_upto_ext. intros k Hk.
  assert (Hk' : (0 <= k < d)%Z) by lia.
  rewrite !(squash_component d k Hk'). reflexivity.
Qed.

(** * The statements checked against the code *)

Section Claims.
Import nn torchvision.

Lemma Tensor_layer uninit cn :
  clustering_model.Tensor uninit [512; cn] =
  if (cn <? - 2 ^ 63) || (2 ^ 63 <=? cn) then Err TypeError
  else if cn <? 0 then Err (RuntimeError (NegativeDimension cn))
  else if 2 ^ 52 <=? cn then Err (RuntimeError AllocationTooLarge)
  else Ok {| shape := [512; cn]; entry := uninit |}.
Proof.
  unfold clustering_model.Tensor. cbn [find fold_left].
  change ((512 <? - 2 ^ 63) || (2 ^ 63 <=? 512)) with false. cbn iota.
  destruct ((cn <? - 2 ^ 63) || (2 ^ 63 <=? cn)); [reflexivity|].
  change (512 <? 0) with false. cbn iota.
  destruct (cn <? 0); [reflexivity|].
  destruct (Z.leb_spec (2 ^ 63) (4 * (1 * 512 * cn)));
    destruct (Z.leb_spec (2 ^ 52) cn); try reflexivity; lia.
Qed.

Lemma init_inv uninit fe fz cn dev self :
  clustering_model.__init__ uninit fe fz cn dev = Ok self ->
  0 <= cn /\
  clustering_model.feat_extractor self = fe /\
  clustering_model.clustering_layer self = {| shape := [512; cn]; entry := uninit |} /\
  clustering_model.fuzzifier self = fz /\
  clustering_model.device self = dev /\
  clustering_model.class_number self = cn.
Proof.
  unfold clustering_model.__init__. rewrite Tensor_layer.
  destruct ((cn <? - 2 ^ 63) || (2 ^ 63 <=? cn)); [discriminate|].
  destruct (Z.ltb_spec cn 0); [discriminate|].
  destruct (2 ^ 52 <=? cn); [discriminate|]. cbn [rbind].
  intros H'. injection H' as <-. cbn. repeat split; try reflexivity. lia.
Qed.

Lemma init_ok_head uninit fe fz cn dev :
  0 <= cn < 2 ^ 52 ->
  clustering_model.__init__ uninit fe fz cn dev =
  Ok (clustering_model.mk fe {| shape := [512; cn]; entry := uninit |} fz dev cn).
Proof.
  intros H. unfold clustering_model.__init__. rewrite Tensor_layer.
  destruct (Z.ltb_spec cn (- 2 ^ 63)); [lia|].
  destruct (Z.leb_spec (2 ^ 63) cn); [lia|]. cbn [orb].
  destruct (Z.ltb_spec cn 0); [lia|].
  destruct (Z.leb_spec (2 ^ 52) cn); [lia|]. reflexivity.
Qed.

(** The head stops where its feature extractor does. *)
Lemma forward_extractor_error (self : clustering_model.self_t) x e :
  clustering_model.feat_extractor self x = Err e ->
  clustering_model.forward self x = Err e.
Proof. intros H. unfold clustering_model.forward. rewrite H. reflexivity. Qed.

(** The embeddings the encoder over a default backbone hands to the
    head, for a batch that batch normalisation accepts. *)
Lemma default_encoder_output name block layers net features x n h w :
  (name, block, layers) = ("ResNet18"%string, BasicBlock, [2; 2; 2; 2]) \/
  (name, block, layers) = ("ResNet34"%string, BasicBlock, [3; 4; 6; 3]) \/
  (name, block, layers) = ("ResNet50"%string, Bottleneck, [3; 4; 6; 3]) ->
  outcome (get_resnet_cifar name) = Ok net ->
  shape x = [n; 3; h; w] -> 1 <= h -> 1 <= w ->
  1 <= n -> 2 <= n \/ 9 <= h \/ 9 <= w ->
  exists u,
    encoder.forward (encoder.__init__ (ResNet.forward features net)) x = Ok u /\
    shape u = [n; 512 * expansion block] /\
    forall i k, 0 <= i < n -> 0 <= k < 512 * expansion block ->
      entry u [i; k] =
      xdiv (features x [i; k])
           (xclamp_min eps
              (row_norm (512 * expansion block)
                 {| shape := [n; 512 * expansion block]; entry := features x |} i)).
Proof.
  intros Hcase Hnet Hx Hh Hw Hn Hbig.
  pose proof (selected_backbone _ _ _ _ Hcase Hnet) as Hinit.
  pose proof (backbone_forward true _ _ _ _ _ _ _ _ features x n h w Hinit Hx Hh Hw
                (fun _ => enough_values None n h w Hn Hh Hw Hbig)) as Hf.
  apply flows_strict in Hf.
  destruct (encoder_forward_ok
              (encoder.__init__ (ResNet.forward features net)) x _ n
              (512 * expansion block) Hf eq_refl) as (u & Hu & Hs & He).
  exists u. auto.
Qed.

(** The shape of the embeddings, when the encoder returns. *)
Lemma default_encoder_shape name block layers net features x n h w u :
  (name, block, layers) = ("ResNet18"%string, BasicBlock, [2; 2; 2; 2]) \/
  (name, block, layers) = ("ResNet34"%string, BasicBlock, [3; 4; 6; 3]) \/
  (name, block, layers) = ("ResNet50"%string, Bottleneck, [3; 4; 6; 3]) ->
  outcome (get_resnet_cifar name) = Ok net ->
  shape x = [n; 3; h; w] -> 1 <= h -> 1 <= w ->
  encoder.forward (encoder.__init__ (ResNet.forward features net)) x = Ok u ->
  shape u = [n; 512 * expansion block].
Proof.
  intros Hcase Hnet Hx Hh Hw Hu.
  pose proof (selected_backbone _ _ _ _ Hcase Hnet) as Hinit.
  pose proof (backbone_forward false _ _ _ _ _ _ _ _ features x n h w Hinit Hx Hh Hw
                (fun E => False_ind _ (Bool.diff_false_true E))) as Hf.
  destruct (ResNet.forward features net x) as [y|e] eqn:Ey.
  - cbn [flows] in Hf. subst y.
    destruct (encoder_forward_ok
                (encoder.__init__ (ResNet.forward features net)) x _ n
                (512 * expansion block) Ey eq_refl) as (u' & Hu' & Hs & _).
    rewrite Hu' in Hu. injection Hu as <-. exact Hs.
  - unfold encoder.forward in Hu. cbn [encoder.resnet encoder.__init__] in Hu.
    rewrite Ey in Hu. discriminate.
Qed.

(** The head with ten clusters over the ResNet18 encoder. *)
Lemma ten_clusters_fail features uninit fz dev net self x n h w :
  outcome (get_resnet_cifar "ResNet18") = Ok net ->
  clustering_model.__init__ uninit
    (encoder.forward (encoder.__init__ (ResNet.forward features net)))
    fz 10 dev = Ok self ->
  shape x = [n; 3; h; w] -> 1 <= h -> 1 <= w ->
  match encoder.forward (encoder.__init__ (ResNet.forward features net)) x with
  | Ok _ =>
      clustering_model.forward self x = Err (RuntimeError (BroadcastError 512 10))
  | Err e => clustering_model.forward self x = Err e
  end.
Proof.
  intros Hnet Hself Hx Hh Hw.
  destruct (init_inv _ _ _ _ _ _ Hself) as (_ & Hfe & Hl & _).
  destruct (encoder.forward _ x) as [u|e] eqn:Eu.
  - pose proof (default_encoder_shape "ResNet18" BasicBlock [2; 2; 2; 2]
                  net features x n h w u) as Hs.
    apply (forward_sub_error self x u n 512 512 10).
    + rewrite Hfe. exact Eu.
    + apply Hs; auto.
    + rewrite Hl. reflexivity.
    + lia.
    + lia.
    + lia.
  - apply forward_extractor_error. rewrite Hfe. exact Eu.
Qed.

(** C1.  [clustering_model.forward] is claimed to return, for every
    image batch, the fuzzy c-means memberships over the columns of the
    prototype matrix.  With the ten clusters of this module it returns
    nothing: for every batch of [n] images of [h] by [w] pixels fed
    through the ResNet18 encoder, [forward] raises.  Where the backbone
    accepts the batch (two images or more, or images of at least 9
    pixels along an axis, batch normalisation in training mode asking
    for more than one value per channel), what it raises is the
    broadcasting error of the subtraction of the (512, 10) layer from
    the (n, 1, 512) embeddings. *)
Theorem C1_forward_raises_for_ten_clusters
    features uninit fz dev net self x n h w :
  outcome (get_resnet_cifar "ResNet18") = Ok net ->
  clustering_model.__init__ uninit
    (encoder.forward (encoder.__init__ (ResNet.forward features net)))
    fz 10 dev = Ok self ->
  shape x = [n; 3; h; w] -> 1 <= h -> 1 <= w ->
  is_ok (clustering_model.forward self x) = false /\
  (1 <= n -> 2 <= n \/ 9 <= h \/ 9 <= w ->
   clustering_model.forward self x = Err (RuntimeError (BroadcastError 512 10))).
Proof.
  intros Hnet Hself Hx Hh Hw.
  pose proof (ten_clusters_fail features uninit fz dev net self x n h w
                Hnet Hself Hx Hh Hw) as Hfail.
  split.
  - destruct (encoder.forward _ x); rewrite Hfail; reflexivity.
  - intros Hn Hbig.
    destruct (default_encoder_output "ResNet18" BasicBlock [2; 2; 2; 2]
                net features x n h w) as (u & Hu & _); auto.
    rewrite Hu in Hfail. exact Hfail.
Qed.

Lemma C1_forward_raises_for_ten_clusters_witness :
  exists net self,
    outcome (get_resnet_cifar "ResNet18") = Ok net /\
    clustering_model.__init__ (fun _ => Fin 0)
      (encoder.forward (encoder.__init__ (ResNet.forward zero_features net)))
      2 10 "cpu" = Ok self /\
    clustering_model.forward self (full [2; 3; 32; 32] (Fin 0)) =
    Err (RuntimeError (BroadcastError 512 10)).
Proof.
  destruct (selected_exists "ResNet18") as (net & Hnet); [auto|].
  exists net. eexists. split; [exact Hnet|]. split.
  - apply init_ok_head. lia.
  - apply (C1_forward_raises_for_ten_clusters zero_features (fun _ => Fin 0)
             2%R "cpu" net _ _ 2 32 32).
    + exact Hnet.
    + apply init_ok_head. lia.
    + reflexivity.
    + lia.
    + lia.
    + lia.
    + left. lia.
Defined.

(** C2.  The scenario of the specification: four RGB images of 32 by 32
    pixels, the ResNet18 backbone, ten clusters and fuzzifier 2.  The
    claim expects a (4, 10) matrix with rows summing to 1; the code
    raises the broadcasting error of the subtraction instead, whatever
    the pixels, the weights of the backbone and the contents of the
    layer. *)
Theorem C2_scenario_raises features uninit pixels :
  exists net self,
    outcome (get_resnet_cifar "ResNet18") = Ok net /\
    clustering_model.__init__ uninit
      (encoder.forward (encoder.__init__ (ResNet.forward features net)))
      2 10 "cuda:0" = Ok self /\
    clustering_model.forward self {| shape := [4; 3; 32; 32]; entry := pixels |} =
    Err (RuntimeError (BroadcastError 512 10)).
Proof.
  destruct (selected_exists "ResNet18") as (net & Hnet); [auto|].
  exists net. eexists. split; [exact Hnet|]. split.
  - apply init_ok_head. lia.
  - destruct (default_encoder_output "ResNet18" BasicBlock [2; 2; 2; 2]
                net features {| shape := [4; 3; 32; 32]; entry := pixels |}
                4 32 32) as (u & Hu & Hs & _); auto; try lia.
    apply (forward_sub_error _ _ u 4 512 512 10); try lia.
    + exact Hu.
    + exact Hs.
    + reflexivity.
Qed.

(** C3.  For every class_number other than 1 and 512 and every batch
    whose embeddings have shape (n, 512), [clustering_model.forward]
    raises the broadcasting error of the subtraction of the
    (512, class_number) layer from the (n, 1, 512) embeddings: 512
    against class_number. *)
Theorem C3_forward_broadcast_error uninit fe fz cn dev self x latent n :
  clustering_model.__init__ uninit fe fz cn dev = Ok self ->
  cn <> 1 -> cn <> 512 ->
  fe x = Ok latent -> shape latent = [n; 512] ->
  clustering_model.forward self x = Err (RuntimeError (BroadcastError 512 cn)).
Proof.
  intros Hself H1 H512 Hfe Hs.
  destruct (init_inv _ _ _ _ _ _ Hself) as (_ & Hfe' & Hl & _).
  apply (forward_sub_error self x latent n 512 512 cn).
  - rewrite Hfe'. exact Hfe.
  - exact Hs.
  - rewrite Hl. reflexivity.
  - congruence.
  - lia.
  - exact H1.
Qed.

Lemma C3_forward_broadcast_error_witness :
  exists self,
    clustering_model.__init__ (fun _ => Fin 0) identity_extractor 2 10 "cpu" = Ok self /\
    clustering_model.forward self (full [4; 512] (Fin 1)) =
    Err (RuntimeError (BroadcastError 512 10)).
Proof.
  eexists. split.
  - apply init_ok_head. lia.
  - apply (C3_forward_broadcast_error (fun _ => Fin 0) identity_extractor 2%R 10
             "cpu" _ _ (full [4; 512] (Fin 1)) 4).
    + apply init_ok_head. lia.
    + lia.
    + lia.
    + reflexivity.
    + reflexivity.
Defined.

End Claims.
Section NumericClaims.
Local Open Scope R_scope.

Lemma rsum_single n g :
  (0 < n)%nat ->
  (forall k, (0 < k < Z.of_nat n)%Z -> g k = 0) ->
  rsum n g = g 0%Z.
Proof.
  induction n as [|n IH]; intros Hn Hz; [lia|].
  cbn [rsum]. destruct n as [|n].
  - cbn [rsum Z.of_nat]. lra.
  - rewrite IH; [| lia | intros k Hk; apply Hz; lia].
    rewrite (Hz (Z.of_nat (S n))) by lia. lra.
Qed.

Lemma eps_le_one : eps <= 1.
Proof.
  unfold eps.
  assert (H : 1 <= 10 ^ 12) by (apply pow_R1_Rle; lra).
  apply Rmult_le_reg_r with (10 ^ 12); [lra|].
  unfold Rdiv. rewrite Rmult_assoc, Rinv_l by lra. lra.
Qed.

Lemma zero_row_norm u d i :
  (forall k, (0 <= k < d)%Z -> entry u [i; k] = Fin 0) ->
  row_norm d u i = Fin 0.
Proof.
  intros Hz. unfold row_norm.
  rewrite (sum_upto_ext _ _ (fun _ => Fin 0)).
  - rewrite sum_upto_Fin, rsum_zero; try (intros; lra).
    + rewrite xsqrt_nonneg by lra. f_equal. apply sqrt_0.
    + rewrite rsum_zero by (intros; lra). pose proof fmax_pos. lra.
  - intros k Hk. rewrite Hz by lia. apply xsquare_zero.
Qed.

(** Finite entries that agree along a column are at distance zero. *)
Lemma equal_column_distance d a b i j :
  (forall k, (0 <= k < d)%Z -> is_finite (entry a [i; k])) ->
  (forall k, (0 <= k < d)%Z -> entry a [i; k] = entry b [k; j]) ->
  column_distance d a b i j = Fin 0.
Proof.
  intros Ha Hab. unfold column_distance.
  rewrite (sum_upto_ext _ _ (fun _ => Fin 0)).
  - rewrite sum_upto_Fin, rsum_zero; try (intros; lra).
    + rewrite xsqrt_nonneg by lra. f_equal. apply sqrt_0.
    + rewrite rsum_zero by (intros; lra). pose proof fmax_pos. lra.
  - intros k Hk. rewrite <- Hab by lia.
    rewrite (finite_real_of (entry a [i; k])) by (apply Ha; lia).
    rewrite xsub_same. apply xsquare_zero.
Qed.

(** C4, as amended.  The head applies no guard to a zero distance.  On
    the CPU, for a layer of 512 rows, finite embeddings and layer and a
    fuzzifier above 1 (and at most 1e30): if the distance the code
    computes for image [i] and cluster [j], between the embedding and
    row [j] of the layer, is exactly 0, [forward] returns a matrix
    whose entry for that image and cluster is not-a-number. *)
Theorem C4_zero_distance_is_not_guarded
    (self : clustering_model.self_t) x latent n i j :
  clustering_model.feat_extractor self x = Ok latent ->
  shape latent = [n; 512]%Z ->
  shape (clustering_model.clustering_layer self) = [512; 512]%Z ->
  clustering_model.class_number self = 512%Z ->
  clustering_model.device self = "cpu"%string ->
  1 < clustering_model.fuzzifier self <= 10 ^ 30 ->
  (0 <= i < n)%Z -> (0 <= j < 512)%Z ->
  (forall k, (0 <= k < 512)%Z -> is_finite (entry latent [i; k])) ->
  (forall j' k, (0 <= j' < 512)%Z -> (0 <= k < 512)%Z ->
     is_finite (entry (clustering_model.clustering_layer self) [j'; k])) ->
  row_distance 512 latent (clustering_model.clustering_layer self) i j = Fin 0 ->
  exists u,
    clustering_model.forward self x = Ok u /\
    shape u = [n; 512]%Z /\
    entry u [i; j] = NaN.
Proof.
  intros Hfe Hs Hl Hc Hdev [Hf _] Hi Hj Hfl Hfw Hz.
  apply (forward_degenerate self x latent n 512 512 Hfe Hs Hl Hc
           ltac:(lia) ltac:(rewrite Hdev; reflexivity) i Hi Hfl Hfw Hf j Hj Hz).
Qed.

Lemma cross_zero_head :
  exists self,
    clustering_model.__init__ cross_zero identity_extractor 2 512 "cpu" = Ok self /\
    clustering_model.feat_extractor self (full [1; 512]%Z (Fin 0)) =
      Ok (full [1; 512]%Z (Fin 0)) /\
    shape (clustering_model.clustering_layer self) = [512; 512]%Z /\
    clustering_model.class_number self = 512%Z /\
    clustering_model.device self = "cpu"%string /\
    clustering_model.fuzzifier self = 2 /\
    (forall j' k, is_finite (entry (clustering_model.clustering_layer self) [j'; k])) /\
    (forall k, entry (clustering_model.clustering_layer self) [0; k]%Z = Fin 0) /\
    (forall k, entry (clustering_model.clustering_layer self) [k; 0]%Z = Fin 0).
Proof.
  eexists. split; [apply init_ok_head; lia|].
  cbn [clustering_model.feat_extractor clustering_model.clustering_layer
       clustering_model.class_number clustering_model.fuzzifier
       clustering_model.device shape entry].
  repeat split.
  - intros j' k. unfold cross_zero. destruct ((j' =? 0)%Z || (k =? 0)%Z); exact I.
  - intros k. unfold cross_zero. rewrite Z.eqb_refl. rewrite orb_true_r. reflexivity.
Qed.

Lemma two_in_range : 1 < 2 <= 10 ^ 30.
Proof. lra. Qed.

Lemma C4_counterexample :
  exists self u,
    clustering_model.__init__ cross_zero identity_extractor 2 512 "cpu" = Ok self /\
    (forall k, (0 <= k < 512)%Z ->
       entry (full [1; 512]%Z (Fin 0)) [0; k]%Z =
       entry (clustering_model.clustering_layer self) [k; 0]%Z) /\
    column_distance 512 (full [1; 512]%Z (Fin 0))
      (clustering_model.clustering_layer self) 0 0 = Fin 0 /\
    clustering_model.forward self (full [1; 512]%Z (Fin 0)) = Ok u /\
    entry u [0; 0]%Z = NaN /\
    entry u [0; 0]%Z <> Fin 1.
Proof.
  destruct cross_zero_head
    as (self & Hself & Hfe & Hl & Hc & Hdev & Hf & Hfin & Hrow & Hcol).
  destruct (forward_degenerate self (full [1; 512]%Z (Fin 0))
              (full [1; 512]%Z (Fin 0)) 1 512 512 Hfe eq_refl Hl Hc
              ltac:(lia) ltac:(rewrite Hdev; reflexivity) 0%Z ltac:(lia))
    with (j := 0%Z) as (u & Hu & _ & Hnan).
  - intros k _. exact I.
  - intros j' k _ _. apply Hfin.
  - rewrite Hf. lra.
  - lia.
  - apply equal_rows_distance; [intros k _; exact I|].
    intros k _. rewrite Hrow. reflexivity.
  - exists self, u. repeat split; try assumption.
    + intros k _. rewrite Hcol. reflexivity.
    + apply equal_column_distance; [intros k _; exact I|].
      intros k _. rewrite Hcol. reflexivity.
    + rewrite Hnan. discriminate.
Qed.

Lemma C4_zero_distance_is_not_guarded_witness :
  exists self u,
    clustering_model.__init__ cross_zero identity_extractor 2 512 "cpu" = Ok self /\
    clustering_model.forward self (full [1; 512]%Z (Fin 0)) = Ok u /\
    entry u [0; 0]%Z = NaN.
Proof.
  destruct cross_zero_head
    as (self & Hself & Hfe & Hl & Hc & Hdev & Hf & Hfin & Hrow & Hcol).
  destruct (C4_zero_distance_is_not_guarded self (full [1; 512]%Z (Fin 0))
              (full [1; 512]%Z (Fin 0)) 1%Z 0%Z 0%Z Hfe eq_refl Hl Hc Hdev)
    as (u & Hu & _ & Hnan).
  - rewrite Hf. exact two_in_range.
  - lia.
  - lia.
  - intros k _. exact I.
  - intros j' k _ _. apply Hfin.
  - apply equal_rows_distance; [intros k _; exact I|].
    intros k _. rewrite Hrow. reflexivity.
  - exists self, u. auto.
Defined.

(** C5, as amended.  [clustering_model.__init__] checks neither the
    fuzzifier nor the cluster count.  A negative cluster count fails at
    construction, in the allocation of the layer; a cluster count of 0
    and a fuzzifier at or below 1 do not: for every fuzzifier and every
    cluster count from 0 to 1000 the constructor returns a model. *)
Theorem C5_construction_is_not_validated uninit fe (fz : R) (cn : Z) dev :
  ((0 <= cn <= 1000)%Z ->
     exists self,
       clustering_model.__init__ uninit fe fz cn dev = Ok self /\
       clustering_model.fuzzifier self = fz /\
       clustering_model.class_number self = cn) /\
  ((- 2 ^ 63 <= cn < 0)%Z ->
     clustering_model.__init__ uninit fe fz cn dev =
     Err (RuntimeError (NegativeDimension cn))).
Proof.
  split; intros H.
  - eexists. split; [apply init_ok_head; lia|]. split; reflexivity.
  - unfold clustering_model.__init__. rewrite Tensor_layer.
    destruct (Z.ltb_spec cn (- 2 ^ 63)); [lia|].
    destruct (Z.leb_spec (2 ^ 63) cn); [lia|]. cbn [orb].
    destruct (Z.ltb_spec cn 0); [reflexivity|lia].
Qed.

Lemma C5_counterexample :
  (exists self,
     clustering_model.__init__ (fun _ => Fin 0) identity_extractor 1 10 "cpu" = Ok self /\
     clustering_model.fuzzifier self <= 1) /\
  (exists self,
     clustering_model.__init__ (fun _ => Fin 0) identity_extractor 2 0 "cpu" = Ok self /\
     (clustering_model.class_number self <= 0)%Z).
Proof.
  split; eexists; (split; [apply init_ok_head; lia|]).
  - cbn [clustering_model.fuzzifier]. lra.
  - cbn [clustering_model.class_number]. lia.
Qed.

Lemma C5_construction_is_not_validated_witness :
  (exists self,
     clustering_model.__init__ (fun _ => Fin 0) identity_extractor (1 / 2) 0 "cpu" = Ok self /\
     clustering_model.fuzzifier self = 1 / 2 /\
     clustering_model.class_number self = 0%Z) /\
  clustering_model.__init__ (fun _ => Fin 0) identity_extractor 2 (-1) "cpu" =
  Err (RuntimeError (NegativeDimension (-1))).
Proof.
  split.
  - apply (proj1 (C5_construction_is_not_validated (fun _ => Fin 0)
                    identity_extractor (1 / 2) 0%Z "cpu")). lia.
  - apply (proj2 (C5_construction_is_not_validated (fun _ => Fin 0)
                    identity_extractor 2 (-1)%Z "cpu")). lia.
Defined.

(** C9, as amended.  The encoder divides each feature vector by the
    larger of its L2 norm and 1e-12.  For every batch, each row of raw
    features that is finite and whose L2 norm is at least 1e-12 and at
    most 1e19 (so that the squares stay within the range of float32)
    comes out with L2 norm 1, rounding apart. *)
Theorem C9_unit_norm_above_eps (self : encoder.self_t) x f n d i :
  encoder.resnet self x = Ok f ->
  shape f = [n; d] ->
  (0 <= i < n)%Z ->
  (forall k, (0 <= k < d)%Z -> is_finite (entry f [i; k])) ->
  eps <= row_norm_real d f i <= 10 ^ 19 ->
  exists u,
    encoder.forward self x = Ok u /\
    shape u = [n; d] /\
    row_norm d u i = Fin 1.
Proof.
  intros Hr Hs Hi Hfin [Hv Hmax].
  destruct (encoder_forward_ok self x f n d Hr Hs) as (u & Hu & Hsu & He).
  exists u. repeat split; try assumption.
  apply (normalised_unit f u d i Hfin); [|exact Hmax|exact Hv].
  intros k Hk. apply He; assumption.
Qed.

Lemma spike_finite v k : is_finite (entry (spike v) [0; k]%Z).
Proof. cbn [entry spike]. destruct (k =? 0)%Z; exact I. Qed.

Lemma spike_row_norm v : 0 <= v -> row_norm_real 512 (spike v) 0 = v.
Proof.
  intros Hv. unfold row_norm_real. rewrite rsum_single.
  - unfold row_real. cbn [entry spike]. rewrite Z.eqb_refl.
    cbn [real_of]. apply sqrt_square. exact Hv.
  - lia.
  - intros k Hk. unfold row_real. cbn [entry spike].
    destruct (Z.eqb_spec k 0); [lia|]. cbn [real_of]. lra.
Qed.

(** The norm of a row with a component of 1e20 leaves the range. *)
Lemma huge_spike_norm : row_norm 512 (spike (10 ^ 20)) 0 = PInf.
Proof.
  unfold row_norm. rewrite (sum_upto_inf _ _ 0%Z); [reflexivity| |lia|].
  - intros k _. cbn [entry spike]. destruct (k =? 0)%Z;
      unfold xsquare; cbn [xmul]; apply fin_nonneg; nra.
  - cbn [entry spike]. rewrite Z.eqb_refl. unfold xsquare. cbn [xmul].
    unfold fin, fmax. destruct (Rlt_dec _ _) as [_|H]; [reflexivity|].
    exfalso. apply H. lra.
Qed.

Lemma C9_counterexample :
  exists u v,
    encoder.forward (encoder.__init__ identity_extractor) (spike (eps / 2)) = Ok u /\
    entry (spike (eps / 2)) [0; 0]%Z <> Fin 0 /\
    row_norm 512 u 0 = Fin (1 / 2) /\
    encoder.forward (encoder.__init__ identity_extractor) (spike (10 ^ 20)) = Ok v /\
    entry (spike (10 ^ 20)) [0; 0]%Z = Fin (10 ^ 20) /\
    row_norm 512 v 0 = Fin 0.
Proof.
  pose proof eps_pos as Heps.
  destruct (encoder_forward_ok (encoder.__init__ identity_extractor)
              (spike (eps / 2)) (spike (eps / 2)) 1 512 eq_refl eq_refl)
    as (u & Hu & _ & He).
  destruct (encoder_forward_ok (encoder.__init__ identity_extractor)
              (spike (10 ^ 20)) (spike (10 ^ 20)) 1 512 eq_refl eq_refl)
    as (v & Hv & _ & He').
  exists u, v. repeat split; try assumption.
  - cbn [entry spike]. rewrite Z.eqb_refl. intros E. apply Fin_inj in E. lra.
  - rewrite (normalised_small (spike (eps / 2)) u 512 0).
    + rewrite spike_row_norm by lra. f_equal. field. lra.
    + intros k _. apply spike_finite.
    + intros k Hk. apply He; lia.
    + rewrite spike_row_norm by lra. pose proof eps_le_one. lra.
    + rewrite spike_row_norm by lra. lra.
  - apply zero_row_norm. intros k Hk.
    rewrite He' by lia. rewrite huge_spike_norm.
    cbn [xclamp_min entry spike]. destruct (k =? 0)%Z; reflexivity.
Qed.

Lemma C9_unit_norm_above_eps_witness :
  exists u,
    encoder.forward (encoder.__init__ identity_extractor) (spike 1) = Ok u /\
    shape u = [1; 512]%Z /\
    row_norm 512 u 0 = Fin 1.
Proof.
  apply (C9_unit_norm_above_eps (encoder.__init__ identity_extractor)
           (spike 1) (spike 1) 1 512 0).
  - reflexivity.
  - reflexivity.
  - lia.
  - intros k _. apply spike_finite.
  - rewrite spike_row_norm by lra. pose proof eps_le_one. lra.
Defined.

(** C10, as amended.  If the backbone produces an exactly zero feature
    vector for some image, the encoder's output for that image is the
    zero vector, a finite result: the division is by the larger of the
    norm and 1e-12, hence by 1e-12. *)
Theorem C10_zero_features_give_zero (self : encoder.self_t) x f n d i :
  encoder.resnet self x = Ok f ->
  shape f = [n; d] ->
  (0 <= i < n)%Z ->
  (forall k, (0 <= k < d)%Z -> entry f [i; k] = Fin 0) ->
  exists u,
    encoder.forward self x = Ok u /\
    forall k, (0 <= k < d)%Z -> entry u [i; k] = Fin 0.
Proof.
  intros Hr Hs Hi Hz.
  destruct (encoder_forward_ok self x f n d Hr Hs) as (u & Hu & Hsu & He).
  exists u. split; [exact Hu|]. intros k Hk.
  apply (normalised_zero f u d i); try assumption.
  - intros k' Hk'. rewrite (Hz k' Hk'). exact I.
  - intros k' Hk'. apply He; assumption.
  - rewrite (zero_row_norm_real f d i Hz). lra.
Qed.

Lemma C10_counterexample :
  exists net u,
    outcome (get_resnet_cifar "ResNet18") = Ok net /\
    (forall k, zero_features (full [1; 3; 32; 32]%Z (Fin 0)) [0; k]%Z = Fin 0) /\
    encoder.forward (encoder.__init__ (ResNet.forward zero_features net))
      (full [1; 3; 32; 32]%Z (Fin 0)) = Ok u /\
    entry u [0; 0]%Z = Fin 0 /\
    ~ is_nan (entry u [0; 0]%Z).
Proof.
  destruct (selected_exists "ResNet18") as (net & Hnet); [auto|].
  destruct (default_encoder_output "ResNet18" torchvision.BasicBlock
              [2; 2; 2; 2]%Z net zero_features (full [1; 3; 32; 32]%Z (Fin 0))
              1 32 32) as (u & Hu & Hs & He); auto; try lia.
  assert (Hz : entry u [0; 0]%Z = Fin 0).
  { apply (normalised_zero
             {| shape := [1; 512]%Z;
                entry := zero_features (full [1; 3; 32; 32]%Z (Fin 0)) |}
             u 512 0).
    - intros k _. exact I.
    - intros k Hk. apply He; cbn [torchvision.expansion]; lia.
    - rewrite zero_row_norm_real by (intros; reflexivity). lra.
    - intros k _. reflexivity.
    - lia. }
  exists net, u. repeat split; try assumption.
  rewrite Hz. cbn. auto.
Qed.

Lemma C10_zero_features_give_zero_witness :
  exists u,
    encoder.forward (encoder.__init__ identity_extractor) (full [2; 512]%Z (Fin 0)) = Ok u /\
    forall k, (0 <= k < 512)%Z -> entry u [1; k]%Z = Fin 0.
Proof.
  apply (C10_zero_features_give_zero (encoder.__init__ identity_extractor)
           (full [2; 512]%Z (Fin 0)) (full [2; 512]%Z (Fin 0)) 2 512 1).
  - reflexivity.
  - reflexivity.
  - lia.
  - intros k _. reflexivity.
Defined.

End NumericClaims.

Section BackboneClaims.
Import nn torchvision.

Lemma stem_allocated in_channel :
  0 <= in_channel ->
  Conv2d__init__ in_channel 64 3 1 1 1 1 =
  ([[64; in_channel; 3; 3]], Ok (mkConv2d in_channel 64 3 1 1 1 1)).
Proof.
  intros H. unfold Conv2d__init__.
  change (1 <=? 0) with false. cbn iota.
  rewrite Z.mod_1_r. change (64 mod 1) with 0. change (0 =? 0) with true.
  cbn [negb]. rewrite Z.div_1_r. unfold alloc. cbn [find].
  change (64 <? 0) with false. change (3 <? 0) with false. cbn iota.
  destruct (Z.ltb_spec in_channel 0); [lia|]. reflexivity.
Qed.

Lemma init_allocates_stem block layers in_channel zir g wpg flags :
  flags = None \/ (exists l, flags = Some l /\ length l = 3%nat) ->
  0 <= in_channel ->
  exists rest,
    allocated (ResNet.__init__ block layers in_channel zir g wpg flags) =
    [64; in_channel; 3; 3] :: rest.
Proof.
  intros Hflags Hin. unfold ResNet.__init__.
  set (l := match flags with None => [false; false; false] | Some l => l end).
  assert (Hl : Z.of_nat (length l) = 3).
  { subst l. destruct Hflags as [->|(l & -> & Hl)]; [reflexivity|lia]. }
  rewrite Hl. change (negb (3 =? 3)) with false. cbn iota.
  match goal with
  | |- exists rest, allocated (cbind ?m ?f) = _ =>
      destruct (cbind_allocated m f) as (rest & ->)
  end.
  rewrite (stem_allocated _ Hin). cbn [allocated fst app]. eauto.
Qed.

(** C6.  Constructing the backbone with a list of dilation flags whose
    length is not 3 raises the ValueError of the check and allocates
    nothing; with a list of length 3, or with None, construction goes on
    past the check: the stem convolution is allocated first. *)
Theorem C6_dilation_flag_count block layers in_channel zir g wpg :
  (forall flags, length flags <> 3%nat ->
     ResNet.__init__ block layers in_channel zir g wpg (Some flags) =
     ([], Err (ValueError (ResNet.dilation_message flags)))) /\
  (forall flags,
     flags = None \/ (exists l, flags = Some l /\ length l = 3%nat) ->
     0 <= in_channel ->
     exists rest,
       allocated (ResNet.__init__ block layers in_channel zir g wpg flags) =
       [64; in_channel; 3; 3] :: rest).
Proof.
  split.
  - intros flags Hlen. unfold ResNet.__init__.
    destruct (Z.eqb_spec (Z.of_nat (length flags)) 3); [lia|]. reflexivity.
  - intros flags Hflags Hin. apply init_allocates_stem; assumption.
Qed.

Lemma C6_dilation_flag_count_witness :
  ResNet.__init__ BasicBlock [2; 2; 2; 2] 3 false 1 64 (Some [true; false]) =
  ([], Err (ValueError
     "replace_stride_with_dilation should be None or a 3-element tuple, got [True, False]")) /\
  ResNet.__init__ BasicBlock [2; 2; 2; 2] 3 false 1 64
    (Some [false; true; false; true]) =
  ([], Err (ValueError
     "replace_stride_with_dilation should be None or a 3-element tuple, got [False, True, False, True]")) /\
  exists rest,
    allocated (ResNet.__init__ BasicBlock [2; 2; 2; 2] 3 false 1 64 None) =
    [64; 3; 3; 3] :: rest.
Proof.
  split; [|split].
  - apply (proj1 (C6_dilation_flag_count BasicBlock [2; 2; 2; 2] 3 false 1 64)). 
    cbn. lia.
  - apply (proj1 (C6_dilation_flag_count BasicBlock [2; 2; 2; 2] 3 false 1 64)).
    cbn. lia.
  - apply (proj2 (C6_dilation_flag_count BasicBlock [2; 2; 2; 2] 3 false 1 64)).
    + left. reflexivity.
    + lia.
Defined.

(** C7.  [get_resnet_cifar] applied to a name other than "ResNet18",
    "ResNet34" and "ResNet50" raises a KeyError whose message starts with
    that name; applied to "ResNet18" it returns a backbone whose stages
    hold 2, 2, 2 and 2 blocks, all of expansion 1, and whose feature
    length is 512. *)
Theorem C7_get_resnet_cifar :
  (forall name,
     name <> "ResNet18"%string -> name <> "ResNet34"%string ->
     name <> "ResNet50"%string ->
     outcome (get_resnet_cifar name) =
     Err (KeyError (name ++ " is not a valid ResNet version"))) /\
  (exists net,
     outcome (get_resnet_cifar "ResNet18") = Ok net /\
     map (@length Block)
       [ResNet.layer1 net; ResNet.layer2 net; ResNet.layer3 net; ResNet.layer4 net] =
     [2; 2; 2; 2]%nat /\
     Forall (fun b => expansion (class_of b) = 1)
       (ResNet.layer1 net ++ ResNet.layer2 net ++ ResNet.layer3 net ++ ResNet.layer4 net) /\
     ResNet.rep_dim net = 512).
Proof.
  split.
  - intros name H18 H34 H50.
    destruct (get_resnet_cifar_cases name)
      as (l18 & r18 & l34 & r34 & l50 & r50 & _ & _ & _ & _ & ->).
    destruct (String.eqb_spec "ResNet18" name); [congruence|].
    destruct (String.eqb_spec "ResNet34" name); [congruence|].
    destruct (String.eqb_spec "ResNet50" name); [congruence|].
    reflexivity.
  - eexists. split; [vm_compute; reflexivity|].
    split; [reflexivity|]. split; [|reflexivity].
    cbn [ResNet.layer1 ResNet.layer2 ResNet.layer3 ResNet.layer4 app].
    repeat constructor.
Qed.

Lemma C7_get_resnet_cifar_witness :
  outcome (get_resnet_cifar "ResNet99") =
  Err (KeyError "ResNet99 is not a valid ResNet version").
Proof.
  apply (proj1 C7_get_resnet_cifar "ResNet99"%string); discriminate.
Defined.

(** C8.  For every backbone that the constructor returns, with at least
    one input channel and a positive width per group, and every batch of
    [n >= 1] images of shape (n, in_channel, h, w) with h and w at least
    1 and, when the batch holds a single image, h or w at least 9,
    [ResNet.forward] returns features of shape (n, 512 x expansion),
    which is also the backbone's rep_dim; expansion is 1 for BasicBlock
    and 4 for Bottleneck.  The bound of 9 pixels is what batch
    normalisation in training mode asks of a single image: more than one
    value per channel after the three halvings of the stages. *)
Theorem C8_forward_feature_shape
    block layers in_channel zir g wpg flags net features x n h w :
  outcome (ResNet.__init__ block layers in_channel zir g wpg flags) = Ok net ->
  1 <= in_channel -> 1 <= wpg ->
  shape x = [n; in_channel; h; w] ->
  1 <= n -> 1 <= h -> 1 <= w ->
  2 <= n \/ 9 <= h \/ 9 <= w ->
  ResNet._forward_impl net (shape x) = Ok [n; 512 * expansion block] /\
  (exists y, ResNet.forward features net x = Ok y /\
             shape y = [n; 512 * expansion block]) /\
  ResNet.rep_dim net = 512 * expansion block /\
  (expansion block = 1 \/ expansion block = 4).
Proof.
  intros Hnet _ _ Hx Hn Hh Hw Hbig.
  destruct (init_ok _ _ _ _ _ _ _ _ Hnet) as (Hrep & _ & _ & _ & Hf).
  pose proof (enough_values flags n h w Hn Hh Hw Hbig) as Hv.
  split; [rewrite Hx; apply (Hf true); auto|]. split.
  - exists {| shape := [n; 512 * expansion block]; entry := features x |}.
    split; [|reflexivity].
    apply (flows_strict _ _
             (backbone_forward true _ _ _ _ _ _ _ _ features x n h w
                Hnet Hx Hh Hw (fun _ => Hv))).
  - split; [exact Hrep|]. destruct block; cbn; auto.
Qed.

Lemma C8_forward_feature_shape_witness :
  exists net,
    outcome (ResNet.__init__ Bottleneck [3; 4; 6; 3] 3 false 1 64
               (Some [false; true; false])) = Ok net /\
    ResNet._forward_impl net [4; 3; 32; 32] = Ok [4; 2048] /\
    ResNet.rep_dim net = 2048.
Proof.
  eexists. split; [vm_compute; reflexivity|].
  match goal with
  | |- ResNet._forward_impl ?net _ = _ /\ _ =>
      destruct (C8_forward_feature_shape Bottleneck [3; 4; 6; 3] 3 false 1 64
                  (Some [false; true; false]) net zero_features
                  (full [4; 3; 32; 32] (Fin 0)) 4 32 32)
        as (H1 & _ & H3 & _)
  end.
  - vm_compute. reflexivity.
  - lia.
  - lia.
  - reflexivity.
  - lia.
  - lia.
  - lia.
  - left. lia.
  - split; [exact H1 | exact H3].
Defined.

End BackboneClaims.

(** * Further properties of the code *)

Section HeadBehaviour.
Import clustering_model.
Local Open Scope R_scope.

Lemma forward_fails_general self x latent n d c :
  feat_extractor self x = Ok latent ->
  shape latent = [n; d]%Z ->
  shape (clustering_layer self) = [512; c]%Z ->
  class_number self = c -> (0 <= c)%Z ->
  c <> 1%Z -> (c <> 512%Z \/ (d <> 512%Z /\ d <> 1%Z)) ->
  is_ok (forward self x) = false.
Proof.
  intros Hfe Hs Hl Hc Hc0 H1 Hcase.
  assert (Hafter : forall m,
            broadcast_shapes [n; 1; d]%Z [512; c]%Z = Ok [n; 512; m]%Z ->
            c <> 512%Z ->
            is_ok (forward self x) = false).
  { intros m Hb H512. destruct (Req_dec_T (fuzzifier self) 1) as [Hf|Hf].
    - rewrite (forward_zero_division self x latent n d 512 c Hfe Hs Hl m Hb Hf).
      reflexivity.
    - destruct (names_cpu (device self)) eqn:Hdev.
      + rewrite (forward_div_error self x latent n d 512 c Hfe Hs Hl m Hb Hf);
          rewrite ?Hc; try lia; try congruence. reflexivity.
      + rewrite (forward_device_error self x latent n d 512 c Hfe Hs Hl m Hb Hf);
          rewrite ?Hc; try lia; try congruence. reflexivity. }
  destruct (Z.eq_dec d c) as [->|Hdc].
  - destruct Hcase as [H512|[H512 _]]; apply (Hafter c); try assumption.
    all: rewrite broadcast_embedding, Z.eqb_refl; reflexivity.
  - destruct (Z.eq_dec d 1) as [->|Hd1].
    + destruct Hcase as [H512|[_ Hd]]; [|lia].
      apply (Hafter c); [|exact H512].
      rewrite broadcast_embedding.
      destruct (Z.eqb_spec 1 c); [congruence|]. reflexivity.
    + rewrite (forward_sub_error self x latent n d 512 c Hfe Hs Hl); auto.
Qed.

(** X1.  Whatever the width of the embeddings, a head built with a
    class_number other than 1 and 512 never returns from [forward]. *)
Theorem X1_forward_never_returns uninit fe fz cn dev self x latent n d :
  __init__ uninit fe fz cn dev = Ok self ->
  cn <> 1%Z -> cn <> 512%Z ->
  fe x = Ok latent -> shape latent = [n; d]%Z ->
  is_ok (forward self x) = false.
Proof.
  intros Hself H1 H512 Hfe Hs.
  destruct (init_inv _ _ _ _ _ _ Hself) as (Hc0 & Hfe' & Hl & _ & _ & Hc).
  apply (forward_fails_general self x latent n d cn); auto.
  - rewrite Hfe'. exact Hfe.
  - rewrite Hl. reflexivity.
Qed.

Lemma X1_forward_never_returns_witness :
  exists self,
    __init__ (fun _ => Fin 0) identity_extractor 2 2048 "cpu" = Ok self /\
    is_ok (forward self (full [4; 2048]%Z (Fin 1))) = false.
Proof.
  eexists. split; [apply init_ok_head; lia|].
  apply (X1_forward_never_returns (fun _ => Fin 0) identity_extractor 2 2048%Z
           "cpu" _ _ (full [4; 2048]%Z (Fin 1)) 4%Z 2048%Z).
  - apply init_ok_head. lia.
  - lia.
  - lia.
  - reflexivity.
  - reflexivity.
Defined.

Lemma Rpower_one e : Rpower 1 e = 1.
Proof. unfold Rpower. rewrite ln_1, Rmult_0_r. apply exp_0. Qed.

Lemma two_is_modest : - 10 ^ 30 <= 2 <= 10 ^ 30.
Proof. lra. Qed.

(** The distance between the row with a single 1 and a zero vector is 1,
    which is in the regular range. *)
Lemma spike_sum :
  xsqrt (sum_upto (Z.to_nat 512)
           (fun k => xsquare (xsub (entry (spike 1) [0; k]%Z) (Fin 0)))) = Fin 1.
Proof.
  pose proof fmax_large. assert (1 <= 10 ^ 38) by lra.
  rewrite (sum_upto_ext _ _
             (fun k => Fin (row_real (spike 1) 0 k * row_real (spike 1) 0 k))).
  - assert (Hsum : rsum (Z.to_nat 512)
                     (fun k => row_real (spike 1) 0 k * row_real (spike 1) 0 k) = 1).
    { rewrite rsum_single.
      - unfold row_real. cbn [entry spike]. rewrite Z.eqb_refl.
        cbn [real_of]. lra.
      - lia.
      - intros k Hk. unfold row_real. cbn [entry spike].
        destruct (Z.eqb_spec k 0); [lia|]. cbn [real_of]. lra. }
    rewrite sum_upto_Fin.
    + rewrite Hsum, xsqrt_nonneg by lra. f_equal. apply sqrt_1.
    + intros k _. generalize (row_real (spike 1) 0 k). intros t. nra.
    + rewrite Hsum. lra.
  - intros k _. unfold row_real. cbn [entry spike].
    destruct (k =? 0)%Z; cbn [real_of]; unfold xsub; cbn [xopp xadd].
    + rewrite fin_id by lra. rewrite xsquare_fin by lra. f_equal; lra.
    + rewrite fin_id by lra. rewrite xsquare_fin by lra. f_equal; lra.
Qed.

Lemma one_is_regular e : regular e (Fin 1).
Proof.
  exists 1. rewrite Rpower_one.
  assert (/ 10 ^ 15 <= / 1) by (apply Rinv_le_contravar; lra).
  rewrite Rinv_1 in *. repeat split; lra.
Qed.

(** 512 weights of 1: each is 1/512 of their sum. *)
Lemma equal_weights e (dist : Z -> xreal) :
  (forall j, (0 <= j < 512)%Z -> dist j = Fin 1) ->
  weight e (dist 0%Z) / rsum (Z.to_nat 512) (fun j => weight e (dist j)) = 1 / 512.
Proof.
  intros H.
  rewrite (rsum_ext _ _ (fun _ => 1)).
  - unfold weight. rewrite H by lia. cbn [real_of]. rewrite Rpower_one.
    assert (Hs : forall k : nat, rsum k (fun _ => 1) = INR k).
    { induction k as [|k IH]; [reflexivity|].
      rewrite S_INR. cbn [rsum]. rewrite IH. reflexivity. }
    rewrite Hs, INR_IZR_INZ, Z2Nat.id by lia. reflexivity.
  - intros k Hk. unfold weight. rewrite H by lia. cbn [real_of].
    apply Rpower_one.
Qed.





End HeadBehaviour.

Section HeadEdges.
Import clustering_model.
Local Open Scope R_scope.



(** X5.  A fuzzifier equal to 1 is accepted by the constructor and
    surfaces in the forward pass: where the subtraction succeeds
    (class_number 1 or 512, embeddings of width 512) [forward] raises
    ZeroDivisionError when it computes the exponent. *)
Theorem X5_fuzzifier_one_fails_in_forward uninit fe cn dev x latent n :
  cn = 1%Z \/ cn = 512%Z ->
  fe x = Ok latent -> shape latent = [n; 512]%Z ->
  exists self,
    __init__ uninit fe 1 cn dev = Ok self /\
    forward self x = Err ZeroDivisionError.
Proof.
  intros Hcn Hfe Hs.
  eexists. split; [apply init_ok_head; lia|].
  apply (forward_zero_division _ x latent n 512 512 cn) with (m := 512%Z).
  - exact Hfe.
  - exact Hs.
  - reflexivity.
  - destruct Hcn as [-> | ->]; reflexivity.
  - reflexivity.
Qed.

Lemma X5_fuzzifier_one_fails_in_forward_witness :
  exists self,
    __init__ (fun _ => Fin 0) identity_extractor 1 512 "cpu" = Ok self /\
    forward self (full [4; 512]%Z (Fin 1)) = Err ZeroDivisionError.
Proof.
  apply (X5_fuzzifier_one_fails_in_forward (fun _ => Fin 0) identity_extractor
           512%Z "cpu" (full [4; 512]%Z (Fin 1)) (full [4; 512]%Z (Fin 1)) 4%Z).
  - right. reflexivity.
  - reflexivity.
  - reflexivity.
Defined.

(** X6.  The head cannot be used over the ResNet50 backbone: its
    features have width 2048 while the layer has 512 rows, and for every
    batch and every class_number other than 1 [forward] raises instead
    of returning. *)
Theorem X6_resnet50_head_fails features uninit fz cn dev net self x n h w :
  outcome (get_resnet_cifar "ResNet50") = Ok net ->
  __init__ uninit
    (encoder.forward (encoder.__init__ (ResNet.forward features net)))
    fz cn dev = Ok self ->
  cn <> 1%Z ->
  shape x = [n; 3; h; w]%Z -> (1 <= h)%Z -> (1 <= w)%Z ->
  is_ok (forward self x) = false.
Proof.
  intros Hnet Hself H1 Hx Hh Hw.
  destruct (init_inv _ _ _ _ _ _ Hself) as (Hc0 & Hfe & Hl & _ & _ & Hc).
  destruct (encoder.forward
              (encoder.__init__ (ResNet.forward features net)) x)
    as [u|e] eqn:Hu.
  - assert (Hs : shape u = [n; 2048]%Z).
    { apply (default_encoder_shape "ResNet50" torchvision.Bottleneck
               [3; 4; 6; 3]%Z net features x n h w u); auto. }
    apply (forward_fails_general self x u n 2048 cn); auto.
    + rewrite Hfe. exact Hu.
    + rewrite Hl. reflexivity.
    + right. lia.
  - rewrite (forward_extractor_error self x e); [reflexivity|].
    rewrite Hfe. exact Hu.
Qed.

Lemma X6_resnet50_head_fails_witness :
  exists net self,
    outcome (get_resnet_cifar "ResNet50") = Ok net /\
    __init__ (fun _ => Fin 0)
      (encoder.forward (encoder.__init__ (ResNet.forward zero_features net)))
      2 512 "cpu" = Ok self /\
    is_ok (forward self (full [4; 3; 32; 32]%Z (Fin 0))) = false.
Proof.
  destruct (selected_exists "ResNet50") as (net & Hnet); [auto|].
  exists net. eexists. split; [exact Hnet|]. split.
  - apply init_ok_head. lia.
  - apply (X6_resnet50_head_fails zero_features (fun _ => Fin 0) 2 512%Z "cpu"
             net _ _ 4%Z 32%Z 32%Z).
    + exact Hnet.
    + apply init_ok_head. lia.
    + lia.
    + reflexivity.
    + lia.
    + lia.
Defined.

Lemma rsum_const n c : rsum n (fun _ => c) = INR n * c.
Proof.
  induction n as [|n IH]; [cbn [rsum INR]; lra|].
  rewrite S_INR. cbn [rsum]. rewrite IH. lra.
Qed.

Lemma ones_row_norm : row_norm_real 512 (full [2; 512]%Z (Fin 1)) 1 <= 10 ^ 19.
Proof.
  unfold row_norm_real, row_real. cbn [entry full real_of].
  rewrite rsum_const, INR_IZR_INZ, Z2Nat.id by lia.
  replace (512 * (1 * 1)) with 512 by lra.
  apply Rle_trans with (R_sqrt.sqrt (10 ^ 19 * 10 ^ 19)).
  - apply sqrt_le_1_alt. lra.
  - rewrite sqrt_square by lra. lra.
Qed.

(** X7.  The encoder keeps the shape of the features, and no finite row
    of norm at most 1e19 comes out longer than 1: such a row of L2 norm
    v is returned with L2 norm v / max(v, 1e-12), which lies between 0
    and 1, rounding apart. *)
Theorem X7_encoder_row_norm (self : encoder.self_t) x f n d i :
  encoder.resnet self x = Ok f ->
  shape f = [n; d] ->
  (0 <= i < n)%Z ->
  (forall k, (0 <= k < d)%Z -> is_finite (entry f [i; k])) ->
  row_norm_real d f i <= 10 ^ 19 ->
  exists u,
    encoder.forward self x = Ok u /\
    shape u = [n; d] /\
    row_norm d u i = Fin (row_norm_real d f i / Rmax (row_norm_real d f i) eps) /\
    0 <= row_norm_real d f i / Rmax (row_norm_real d f i) eps <= 1.
Proof.
  intros Hr Hs Hi Hfin Hmax.
  destruct (encoder_forward_ok self x f n d Hr Hs) as (u & Hu & Hsu & He).
  exists u. repeat split; try assumption.
  - apply (normalised_row_norm f u d i Hfin); [|exact Hmax].
    intros k Hk. apply He; assumption.
  - pose proof (clamped_norm_pos f d i) as Hm.
    assert (0 <= row_norm_real d f i) by apply sqrt_pos.
    apply Rmult_le_pos; [assumption|]. apply Rlt_le, Rinv_0_lt_compat, Hm.
  - pose proof (clamped_norm_pos f d i) as Hm.
    pose proof (Rmax_l (row_norm_real d f i) eps).
    apply Rmult_le_reg_r with (Rmax (row_norm_real d f i) eps); [exact Hm|].
    unfold Rdiv. rewrite Rmult_assoc, Rinv_l by lra. lra.
Qed.

Lemma X7_encoder_row_norm_witness :
  exists u,
    encoder.forward (encoder.__init__ identity_extractor)
      (full [2; 512]%Z (Fin 1)) = Ok u /\
    shape u = [2; 512]%Z.
Proof.
  destruct (X7_encoder_row_norm (encoder.__init__ identity_extractor)
              (full [2; 512]%Z (Fin 1)) (full [2; 512]%Z (Fin 1)) 2%Z 512%Z 1%Z)
    as (u & Hu & Hs & _).
  - reflexivity.
  - reflexivity.
  - lia.
  - intros k _. exact I.
  - exact ones_row_norm.
  - exists u. split; assumption.
Defined.

(** X8.  Features that are not at least a matrix are refused: when the
    wrapped module returns a tensor of rank 1, the encoder raises the
    IndexError of the norm along dimension 1. *)
Theorem X8_encoder_rank_one (self : encoder.self_t) x f d :
  encoder.resnet self x = Ok f ->
  shape f = [d] ->
  encoder.forward self x = Err (IndexError "Dimension out of range").
Proof.
  intros Hr Hs. unfold encoder.forward. rewrite Hr. cbn [rbind].
  unfold normalize, norm, sum_dim. cbn [square pointwise shape].
  rewrite Hs. reflexivity.
Qed.

Lemma X8_encoder_rank_one_witness :
  encoder.forward (encoder.__init__ identity_extractor) (full [512]%Z (Fin 1)) =
  Err (IndexError "Dimension out of range").
Proof.
  apply (X8_encoder_rank_one (encoder.__init__ identity_extractor)
           (full [512]%Z (Fin 1)) (full [512]%Z (Fin 1)) 512%Z); reflexivity.
Defined.

End HeadEdges.

(** ** Construction run forwards *)

Section Construction.
Import nn torchvision ResNet.

Lemma cbind_outcome {A B : Type} (m : Ctor A) (f : A -> Ctor B) :
  outcome (cbind m f) =
  match outcome m with
  | Ok a => outcome (f a)
  | Err e => Err e
  end.
Proof.
  destruct m as [l [a|e]]; cbn [cbind outcome snd]; [|reflexivity].
  destruct (f a). reflexivity.
Qed.

Lemma conv_init_outcome i o k s p dl :
  0 <= i -> 0 <= o -> 0 <= k ->
  outcome (Conv2d__init__ i o k s p dl 1) = Ok (mkConv2d i o k s p dl 1).
Proof.
  intros Hi Ho Hk. unfold Conv2d__init__.
  change (1 <=? 0) with false. cbn iota.
  rewrite !Z.mod_1_r. change (0 =? 0) with true. cbn [negb].
  rewrite Z.div_1_r, cbind_outcome. unfold alloc. cbn [find].
  destruct (Z.ltb_spec o 0); [lia|].
  destruct (Z.ltb_spec i 0); [lia|].
  destruct (Z.ltb_spec k 0); [lia|]. reflexivity.
Qed.

Lemma bn_init_outcome f :
  0 <= f -> outcome (BatchNorm2d__init__ f) = Ok (mkBatchNorm2d f).
Proof.
  intros Hf. unfold BatchNorm2d__init__, alloc. cbn [find].
  destruct (Z.ltb_spec f 0); [lia|]. reflexivity.
Qed.

Lemma basic_init_outcome inp planes s ds dl :
  0 <= inp -> 0 <= planes ->
  outcome (Block__init__ BasicBlock inp planes s ds 1 64 dl) =
  if 1 <? dl then Err not_supported
  else Ok (BasicBlock_ (mkConv2d inp planes 3 s 1 1 1) (mkBatchNorm2d planes)
             (mkConv2d planes planes 3 1 1 1 1) (mkBatchNorm2d planes) ds s).
Proof.
  intros Hi Hp. unfold Block__init__.
  change (negb (1 =? 1) || negb (64 =? 64)) with false. cbn iota.
  destruct (1 <? dl); [reflexivity|].
  unfold conv3x3.
  rewrite cbind_outcome, conv_init_outcome by lia.
  rewrite cbind_outcome, bn_init_outcome by lia.
  rewrite cbind_outcome, conv_init_outcome by lia.
  rewrite cbind_outcome, bn_init_outcome by lia.
  reflexivity.
Qed.

Lemma append_blocks_outcome_ok n make b acc :
  outcome make = Ok b ->
  outcome (append_blocks n make acc) = Ok (acc ++ repeat b n).
Proof.
  intros Hm. revert acc. induction n as [|n IH]; intros acc.
  - cbn. rewrite app_nil_r. reflexivity.
  - cbn [append_blocks]. rewrite cbind_outcome, Hm, IH, <- app_assoc.
    reflexivity.
Qed.

Lemma append_blocks_outcome_err n make e acc :
  outcome make = Err e ->
  outcome (append_blocks (S n) make acc) = Err e.
Proof.
  intros Hm. cbn [append_blocks]. rewrite cbind_outcome, Hm. reflexivity.
Qed.

(** [_make_layer] for BasicBlock with the default groups and width: it
    raises NotImplementedError exactly when the dilation it was handed is
    above 1, or the dilation it computes is above 1 and there is a block
    after the first. *)
Lemma make_layer_basic self planes blocks s (dilate : bool) :
  a_groups self = 1 -> a_base_width self = 64 ->
  0 <= a_inplanes self -> 0 <= planes ->
  let dl := if dilate then a_dilation self * s else a_dilation self in
  match outcome (_make_layer self BasicBlock planes blocks s dilate) with
  | Ok (self', _) =>
      a_dilation self <= 1 /\ (dl <= 1 \/ blocks <= 1) /\
      self' = mkAttrs (planes * 1) dl 1 64
  | Err e =>
      e = not_supported /\ (1 < a_dilation self \/ (1 < dl /\ 2 <= blocks))
  end.
Proof.
  intros Hg Hw Hin Hp dl. unfold _make_layer. rewrite Hg, Hw.
  cbn [expansion]. fold dl.
  rewrite cbind_outcome.
  set (s' := if dilate then 1 else s).
  assert (Hds : exists ds,
    outcome (if negb (s' =? 1) || negb (a_inplanes self =? planes * 1)
             then cbind (conv1x1 (a_inplanes self) (planes * 1) s')
                    (fun c => cbind (BatchNorm2d__init__ (planes * 1))
                                (fun n => cret (Some (c, n))))
             else cret None) = Ok ds).
  { destruct (negb (s' =? 1) || negb (a_inplanes self =? planes * 1)).
    - unfold conv1x1. rewrite cbind_outcome, conv_init_outcome by lia.
      rewrite cbind_outcome, bn_init_outcome by lia. eexists. reflexivity.
    - eexists. reflexivity. }
  destruct Hds as (ds & ->).
  rewrite cbind_outcome, basic_init_outcome by lia.
  destruct (Z.ltb_spec 1 (a_dilation self)) as [Hprev|Hprev].
  { split; [reflexivity|lia]. }
  rewrite cbind_outcome.
  destruct (Z.to_nat (blocks - 1)) as [|m] eqn:Hn.
  - cbn [append_blocks]. cbn [cret outcome snd].
    repeat split; try lia.
  - destruct (Z.ltb_spec 1 dl) as [Hdl|Hdl].
    + rewrite (append_blocks_outcome_err m _ not_supported).
      * split; [reflexivity|]. right. lia.
      * rewrite basic_init_outcome by lia.
        destruct (Z.ltb_spec 1 dl); [reflexivity|lia].
    + erewrite append_blocks_outcome_ok.
      * cbn [cret outcome snd]. repeat split; try lia.
      * rewrite basic_init_outcome by lia.
        destruct (Z.ltb_spec 1 dl); [lia|reflexivity].
Qed.

End Construction.

Section BackboneBehaviour.
Import nn torchvision ResNet.

Lemma init_stem block layers in_channel zir g wpg flags net :
  outcome (__init__ block layers in_channel zir g wpg flags) = Ok net ->
  conv1 net = mkConv2d in_channel 64 3 1 1 1 1 /\ bn1 net = mkBatchNorm2d 64.
Proof.
  intros H. unfold __init__ in H.
  destruct (negb _) in H; [discriminate|].
  cinv H. apply Conv2d_init_ok in Hm.
  cinv H. apply BatchNorm2d_init_ok in Hm0.
  repeat first
    [ cinv H
    | match type of H with
      | context [match ?p with pair _ _ => _ end] => destruct p
      end ].
  apply cret_ok in H. subst net. cbn [conv1 bn1]. auto.
Qed.

(** X9.  Every backbone the constructor returns has, in each of its four
    stages, as many blocks as asked for but never fewer than one (a count
    of 0 or below still gives one block); all its blocks are of the
    class passed for [block]; and the [inplanes] it ends with is its
    feature length [rep_dim]. *)
Theorem X9_stage_structure block layers in_channel zir g wpg flags net :
  outcome (__init__ block layers in_channel zir g wpg flags) = Ok net ->
  exists n1 n2 n3 n4 rest,
    layers = n1 :: n2 :: n3 :: n4 :: rest /\
    Z.of_nat (length (layer1 net)) = Z.max 1 n1 /\
    Z.of_nat (length (layer2 net)) = Z.max 1 n2 /\
    Z.of_nat (length (layer3 net)) = Z.max 1 n3 /\
    Z.of_nat (length (layer4 net)) = Z.max 1 n4 /\
    Forall (fun b => class_of b = block)
      (layer1 net ++ layer2 net ++ layer3 net ++ layer4 net) /\
    inplanes net = rep_dim net.
Proof.
  intros H.
  destruct (init_ok _ _ _ _ _ _ _ _ H) as (Hrep & Hin & Hlen & Hcls & _).
  destruct layers as [|n1 [|n2 [|n3 [|n4 rest]]]]; try discriminate.
  exists n1, n2, n3, n4, rest. cbn [firstn map] in Hlen.
  injection Hlen as H1 H2 H3 H4. unfold stage_length in *.
  repeat split; try lia; try assumption; congruence.
Qed.

Lemma X9_stage_structure_witness :
  exists net,
    outcome (__init__ Bottleneck [0; 5; -2; 1] 3 false 1 64 None) = Ok net /\
    map (@length Block) [layer1 net; layer2 net; layer3 net; layer4 net] =
    [1; 5; 1; 1]%nat.
Proof.
  eexists. split; [vm_compute; reflexivity|].
  match goal with
  | |- map _ [layer1 ?net; _; _; _] = _ =>
      destruct (X9_stage_structure Bottleneck [0; 5; -2; 1] 3 false 1 64 None net)
        as (n1 & n2 & n3 & n4 & rest & E & H1 & H2 & H3 & H4 & _)
  end.
  - vm_compute. reflexivity.
  - injection E as <- <- <- <- _. cbn [map]. repeat f_equal; lia.
Defined.

(** X10.  BasicBlock backbones exist only with the default groups and
    width: with groups other than 1 or width_per_group other than 64 the
    constructor raises the ValueError of the first block, after the stem
    has been built. *)
Theorem X10_basic_block_needs_defaults n1 rest in_channel zir g wpg flags :
  flags = None \/ (exists l, flags = Some l /\ length l = 3%nat) ->
  0 <= in_channel ->
  g <> 1 \/ wpg <> 64 ->
  outcome (__init__ BasicBlock (n1 :: rest) in_channel zir g wpg flags) =
  Err (ValueError "BasicBlock only supports groups=1 and base_width=64").
Proof.
  intros Hflags Hin Hgw. unfold __init__.
  set (l := match flags with None => [false; false; false] | Some l => l end).
  assert (Hl : Z.of_nat (length l) = 3).
  { subst l. destruct Hflags as [->|(l & -> & Hl)]; [reflexivity|lia]. }
  rewrite Hl. change (negb (3 =? 3)) with false. cbn iota.
  rewrite cbind_outcome, conv_init_outcome by lia.
  rewrite cbind_outcome, bn_init_outcome by lia.
  rewrite cbind_outcome. cbn [index nth_error cret outcome snd].
  rewrite cbind_outcome. unfold _make_layer.
  cbn [a_inplanes a_dilation a_groups a_base_width expansion].
  change (negb (1 =? 1) || negb (64 =? 64 * 1)) with false. cbn iota.
  rewrite cbind_outcome. cbn [cret outcome snd].
  rewrite cbind_outcome. unfold Block__init__.
  destruct (Z.eqb_spec g 1) as [Hg|Hg];
    destruct (Z.eqb_spec wpg 64) as [Hw|Hw]; cbn [negb orb];
    try reflexivity.
  lia.
Qed.

Lemma X10_basic_block_needs_defaults_witness :
  outcome (__init__ BasicBlock [2; 2; 2; 2] 3 false 32 4 None) =
  Err (ValueError "BasicBlock only supports groups=1 and base_width=64").
Proof.
  apply (X10_basic_block_needs_defaults 2 [2; 2; 2] 3 false 32 4 None).
  - left. reflexivity.
  - lia.
  - left. lia.
Defined.

(** X11.  [get_resnet_cifar] builds all three backbones before it looks
    the name up: for every name, valid or not, what it allocates is the
    parameters of ResNet18, then of ResNet34, then of ResNet50. *)
Theorem X11_selector_builds_all name :
  allocated (get_resnet_cifar name) =
  allocated (__init__ BasicBlock [2; 2; 2; 2] 3 false 1 64 None) ++
  allocated (__init__ BasicBlock [3; 4; 6; 3] 3 false 1 64 None) ++
  allocated (__init__ Bottleneck [3; 4; 6; 3] 3 false 1 64 None) /\
  allocated (get_resnet_cifar name) <> [].
Proof.
  destruct (get_resnet_cifar_cases name)
    as (l18 & r18 & l34 & r34 & l50 & r50 & H18 & H34 & H50 & Ha & _).
  rewrite Ha, H18, H34, H50. cbn [allocated fst]. split; [reflexivity|].
  destruct (init_allocates_stem BasicBlock [2; 2; 2; 2] 3 false 1 64 None)
    as (rest & Hrest); [auto | lia |].
  rewrite H18 in Hrest. cbn [allocated fst] in Hrest. rewrite Hrest.
  discriminate.
Qed.

(** X12.  A backbone refuses a batch whose channel count is not the
    in_channel it was built with: the stem convolution raises before any
    other layer runs. *)
Theorem X12_channel_mismatch block layers in_channel zir g wpg flags net n ch h w :
  outcome (__init__ block layers in_channel zir g wpg flags) = Ok net ->
  ch <> in_channel ->
  _forward_impl net [n; ch; h; w] =
  Err (RuntimeError (ChannelMismatch in_channel ch)).
Proof.
  intros H Hch. destruct (init_stem _ _ _ _ _ _ _ _ H) as (Hc & _).
  unfold _forward_impl. rewrite Hc. unfold Conv2d_forward.
  cbn [in_channels]. destruct (Z.eqb_spec ch in_channel); [contradiction|].
  reflexivity.
Qed.

Lemma X12_channel_mismatch_witness :
  exists net,
    outcome (__init__ BasicBlock [2; 2; 2; 2] 3 false 1 64 None) = Ok net /\
    _forward_impl net [4; 1; 28; 28] = Err (RuntimeError (ChannelMismatch 3 1)).
Proof.
  eexists. split; [vm_compute; reflexivity|].
  apply (X12_channel_mismatch BasicBlock [2; 2; 2; 2] 3 false 1 64 None).
  - vm_compute. reflexivity.
  - lia.
Defined.

(** X13.  Dilation and BasicBlock.  With the default groups and width, a
    BasicBlock backbone asked to replace the stride of stage 2 or of
    stage 3 by dilation, or that of stage 4 when stage 4 has two blocks
    or more, is not built: the constructor raises NotImplementedError.
    In every other case of the three flags it returns. *)
Theorem X13_basic_block_dilation n1 n2 n3 n4 rest in_channel zir (d0 d1 d2 : bool) :
  0 <= in_channel ->
  let r := outcome (__init__ BasicBlock (n1 :: n2 :: n3 :: n4 :: rest)
                      in_channel zir 1 64 (Some [d0; d1; d2])) in
  (d0 || d1 || (d2 && (2 <=? n4)) = true -> r = Err not_supported) /\
  (d0 || d1 || (d2 && (2 <=? n4)) = false -> is_ok r = true).
Proof.
  intros Hin r. subst r. unfold __init__.
  change (negb (Z.of_nat (length [d0; d1; d2]) =? 3)) with false. cbn iota.
  rewrite cbind_outcome, conv_init_outcome by lia.
  rewrite cbind_outcome, bn_init_outcome by lia.
  rewrite cbind_outcome. cbn [index nth_error cret outcome snd].
  rewrite cbind_outcome.
  pose proof (make_layer_basic (mkAttrs 64 1 1 64) 64 n1 1 false
                eq_refl eq_refl) as P1.
  cbn [a_inplanes a_dilation] in P1. specialize (P1 ltac:(lia) ltac:(lia)).
  cbv zeta in P1.
  destruct (outcome (_make_layer (mkAttrs 64 1 1 64) BasicBlock 64 n1 1 false))
    as [[self1 l1]|e1]; [|lia].
  destruct P1 as (_ & _ & ->).
  rewrite cbind_outcome. cbn [index nth_error cret outcome snd].
  rewrite cbind_outcome. cbn [index nth_error cret outcome snd].
  rewrite cbind_outcome.
  pose proof (make_layer_basic (mkAttrs (64 * 1) 1 1 64) 128 n2 2 d0
                eq_refl eq_refl) as P2.
  cbn [a_inplanes a_dilation] in P2. specialize (P2 ltac:(lia) ltac:(lia)).
  cbv zeta in P2.
  destruct (outcome (_make_layer (mkAttrs (64 * 1) 1 1 64) BasicBlock 128 n2 2 d0))
    as [[self2 l2]|e2].
  2:{ destruct P2 as (-> & [H|[H1 H2]]); [lia|].
      destruct d0; [|lia]. split; [reflexivity|discriminate]. }
  destruct P2 as (_ & Hd0 & ->).
  rewrite cbind_outcome. cbn [index nth_error cret outcome snd].
  rewrite cbind_outcome. cbn [index nth_error cret outcome snd].
  rewrite cbind_outcome.
  pose proof (make_layer_basic
                (mkAttrs (128 * 1) (if d0 then 1 * 2 else 1) 1 64) 256 n3 2 d1
                eq_refl eq_refl) as P3.
  cbn [a_inplanes a_dilation] in P3. specialize (P3 ltac:(lia) ltac:(lia)).
  cbv zeta in P3.
  destruct (outcome (_make_layer
                       (mkAttrs (128 * 1) (if d0 then 1 * 2 else 1) 1 64)
                       BasicBlock 256 n3 2 d1))
    as [[self3 l3]|e3].
  2:{ destruct P3 as (-> & H).
      destruct d0, d1; cbn [orb]; try (split; [reflexivity|discriminate]); lia. }
  destruct P3 as (Hp3 & Hd1 & ->).
  destruct d0; [lia|].
  rewrite cbind_outcome. cbn [index nth_error cret outcome snd].
  rewrite cbind_outcome. cbn [index nth_error cret outcome snd].
  rewrite cbind_outcome.
  pose proof (make_layer_basic
                (mkAttrs (256 * 1) (if d1 then 1 * 2 else 1) 1 64) 512 n4 2 d2
                eq_refl eq_refl) as P4.
  cbn [a_inplanes a_dilation] in P4. specialize (P4 ltac:(lia) ltac:(lia)).
  cbv zeta in P4.
  destruct (outcome (_make_layer
                       (mkAttrs (256 * 1) (if d1 then 1 * 2 else 1) 1 64)
                       BasicBlock 512 n4 2 d2))
    as [[self4 l4]|e4].
  2:{ destruct P4 as (-> & H). cbn [orb].
      destruct d1; cbn [orb]; [split; [reflexivity|discriminate]|].
      destruct d2; [|lia].
      destruct (Z.leb_spec 2 n4); [|lia].
      split; [reflexivity|discriminate]. }
  destruct P4 as (Hp4 & Hd2 & ->).
  destruct d1; [lia|]. cbn [orb].
  destruct d2; cbn [andb].
  - destruct (Z.leb_spec 2 n4); [lia|]. split; [discriminate|reflexivity].
  - split; [discriminate|reflexivity].
Qed.

End BackboneBehaviour.

Section MoreBehaviour.
Import nn torchvision.

Lemma X13_basic_block_dilation_witness :
  outcome (ResNet.__init__ BasicBlock [2; 2; 2; 2] 3 false 1 64
             (Some [false; true; false])) = Err not_supported /\
  outcome (ResNet.__init__ BasicBlock [2; 2; 2; 2] 3 false 1 64
             (Some [false; false; true])) = Err not_supported /\
  is_ok (outcome (ResNet.__init__ BasicBlock [2; 2; 2; 1] 3 false 1 64
                    (Some [false; false; true]))) = true.
Proof.
  split; [|split].
  - apply (proj1 (X13_basic_block_dilation 2 2 2 2 [] 3 false false true false
                    ltac:(lia))). reflexivity.
  - apply (proj1 (X13_basic_block_dilation 2 2 2 2 [] 3 false false false true
                    ltac:(lia))). reflexivity.
  - apply (proj2 (X13_basic_block_dilation 2 2 2 1 [] 3 false false false true
                    ltac:(lia))). reflexivity.
Defined.

(** X14.  A backbone refuses images without height or without width:
    for a batch with the right number of channels and a height or a
    width below 1, the stem convolution raises, its kernel being larger
    than the padded input. *)
Theorem X14_empty_image block layers in_channel zir g wpg flags net n h w :
  outcome (ResNet.__init__ block layers in_channel zir g wpg flags) = Ok net ->
  h < 1 \/ w < 1 ->
  ResNet._forward_impl net [n; in_channel; h; w] =
  Err (RuntimeError KernelTooLarge).
Proof.
  intros H Hhw. destruct (init_stem _ _ _ _ _ _ _ _ H) as (Hc & _).
  unfold ResNet._forward_impl. rewrite Hc. unfold Conv2d_forward.
  cbn [in_channels]. rewrite Z.eqb_refl. cbn [negb].
  unfold conv_out. cbn [dilation kernel_size padding stride].
  destruct (Z.ltb_spec (h + 2 * 1) (1 * (3 - 1) + 1)); [reflexivity|].
  destruct (Z.ltb_spec (w + 2 * 1) (1 * (3 - 1) + 1)); [reflexivity|]. lia.
Qed.

Lemma X14_empty_image_witness :
  exists net,
    outcome (ResNet.__init__ BasicBlock [2; 2; 2; 2] 3 false 1 64 None) = Ok net /\
    ResNet._forward_impl net [4; 3; 32; 0] = Err (RuntimeError KernelTooLarge).
Proof.
  eexists. split; [vm_compute; reflexivity|].
  apply (X14_empty_image BasicBlock [2; 2; 2; 2] 3 false 1 64 None).
  - vm_compute. reflexivity.
  - right. lia.
Defined.

(** X15.  On the CPU, over the ResNet18 or the ResNet34 encoder and
    with a fuzzifier other than 1, the head returns exactly for the
    cluster counts 1 and 512: for every batch that the backbone accepts
    (images of at least one pixel; two images or more, or at least 9
    pixels along an axis), [forward] returns a matrix if class_number
    is 1 or 512 and raises otherwise. *)
Theorem X15_head_returns_iff name layers features uninit fz cn net self x n h w :
  (name, layers) = ("ResNet18"%string, [2; 2; 2; 2]) \/
  (name, layers) = ("ResNet34"%string, [3; 4; 6; 3]) ->
  outcome (get_resnet_cifar name) = Ok net ->
  clustering_model.__init__ uninit
    (encoder.forward (encoder.__init__ (ResNet.forward features net)))
    fz cn "cpu" = Ok self ->
  fz <> 1%R ->
  shape x = [n; 3; h; w] -> 1 <= n -> 1 <= h -> 1 <= w ->
  2 <= n \/ 9 <= h \/ 9 <= w ->
  (is_ok (clustering_model.forward self x) = true <-> cn = 1 \/ cn = 512).
Proof.
  intros Hcase Hnet Hself Hf Hx Hn Hh Hw Hbig.
  destruct (init_inv _ _ _ _ _ _ Hself) as (Hc0 & Hfe & Hl & Hfz & Hdev & Hc).
  destruct (default_encoder_output name BasicBlock layers net features x n h w)
    as (u & Hu & Hs & _); auto.
  { destruct Hcase as [E|E]; injection E as -> ->; auto. }
  cbn [expansion] in Hs. change (512 * 1) with 512 in Hs.
  rewrite <- Hfe in Hu.
  split.
  - intros Hok.
    destruct (Z.eq_dec cn 1) as [|H1]; [auto|].
    destruct (Z.eq_dec cn 512) as [|H512]; [auto|].
    rewrite (forward_fails_general self x u n 512 cn) in Hok; auto.
    + discriminate.
    + rewrite Hl. reflexivity.
  - intros Hcn.
    destruct (forward_ok self x u n 512 512 cn Hu Hs) with (m := 512)
      as (v & Hv & _).
    + rewrite Hl. reflexivity.
    + destruct Hcn as [-> | ->]; reflexivity.
    + rewrite Hfz. exact Hf.
    + rewrite Hc. exact Hc0.
    + rewrite Hdev. reflexivity.
    + rewrite Hc, broadcast_matrices. destruct Hcn as [-> | ->]; reflexivity.
    + rewrite Hv. reflexivity.
Qed.

Lemma X15_head_returns_iff_witness :
  exists net self,
    outcome (get_resnet_cifar "ResNet34") = Ok net /\
    clustering_model.__init__ (fun _ => Fin 0)
      (encoder.forward (encoder.__init__ (ResNet.forward zero_features net)))
      2 512 "cpu" = Ok self /\
    is_ok (clustering_model.forward self (full [4; 3; 32; 32] (Fin 0))) = true.
Proof.
  destruct (selected_exists "ResNet34") as (net & Hnet); [auto|].
  exists net. eexists. split; [exact Hnet|]. split.
  - apply init_ok_head. lia.
  - apply (X15_head_returns_iff "ResNet34" [3; 4; 6; 3] zero_features
             (fun _ => Fin 0) 2%R 512 net _ _ 4 32 32).
    + right. reflexivity.
    + exact Hnet.
    + apply init_ok_head. lia.
    + lra.
    + reflexivity.
    + lia.
    + lia.
    + lia.
    + left. lia.
    + right. reflexivity.
Defined.

(** X16.  In training mode, as the constructor leaves it, the ResNet18
    backbone refuses a single image of 8 by 8 pixels: the first batch
    normalisation of the last stage is handed one value per channel and
    raises ValueError. *)
Theorem X16_single_small_image net :
  outcome (get_resnet_cifar "ResNet18") = Ok net ->
  ResNet._forward_impl net [1; 3; 8; 8] =
  Err (ValueError
         "Expected more than 1 value per channel when training, got input size torch.Size([1, 512, 1, 1])").
Proof.
  intros Hnet. vm_compute in Hnet. injection Hnet as <-.
  vm_compute. reflexivity.
Qed.

Lemma X16_single_small_image_witness :
  exists net,
    outcome (get_resnet_cifar "ResNet18") = Ok net /\
    ResNet._forward_impl net [1; 3; 8; 8] =
    Err (ValueError
           "Expected more than 1 value per channel when training, got input size torch.Size([1, 512, 1, 1])").
Proof.
  destruct (selected_exists "ResNet18") as (net & Hnet); [auto|].
  exists net. split; [exact Hnet|].
  apply (X16_single_small_image net Hnet).
Defined.

End MoreBehaviour.
